(** * Website provisioning workflow: routes, storage and file manager

    A shallow embedding of the server side of the repository:
    - [shared/schema.ts]: the tables [websites], [script_templates] and
      [website_logs];
    - the storage class [DatabaseStorage] (second document of
      [unnamed/part_003]);
    - the [FileManager] class ([unnamed/part_004]);
    - the route handlers of [registerRoutes] (first document of
      [unnamed/part_003]);
    - the create dialog of the home page ([unnamed/part_001]), as far as
      it decides what is posted to [/api/websites].

    The handlers are asynchronous JavaScript that threads two stores, the
    PostgreSQL database and the local filesystem, and may throw.  They are
    embedded in a state-and-exception monad over a [World] holding both
    stores; a thrown [Error] keeps the state reached so far, as in the
    source, where nothing is rolled back.

    What the server relies on and the sources do not hold is a parameter
    of the model ([Env]): the unzip program, the shell for the command
    lines that it does not take word for word, and the text that the
    database driver sends for a value.  A handler in the monad runs to
    completion; where requests overlap, a handler is cut at its awaits
    ([Task]) and the event loop takes the handlers in turn. *)

From Stdlib Require Import String Ascii ZArith List Lia Sorted Permutation.
From stdpp Require Import base option list strings gmap fin_maps pretty.

Local Open Scope string_scope.
Local Open Scope list_scope.

(* ===================================================================== *)
(** * Paths: Node's [path.join] on POSIX *)
(* ===================================================================== *)

Module Path.

(** An absolute, normalised path is the list of its segments from the
    root; [process.cwd()] and everything joined to it is of that form. *)
Definition path := list string.

Definition is_sep (c : ascii) : bool := Ascii.eqb c "/"%char.

(** [s.split('/')] *)
Fixpoint split (s : string) : list string :=
  match s with
  | EmptyString => [EmptyString]
  | String c s' =>
      if is_sep c then EmptyString :: split s'
      else match split s' with
           | seg :: rest => String c seg :: rest
           | [] => [String c EmptyString]
           end
  end.

(** One step of [normalizeString] for an absolute path ([allowAboveRoot]
    is false): empty segments and [.] are skipped, [..] drops the last
    segment kept so far and is itself dropped at the root.  The segments
    kept so far are held newest first. *)
Definition push_segment (kept : list string) (seg : string) : list string :=
  if String.eqb seg "" then kept
  else if String.eqb seg "." then kept
  else if String.eqb seg ".." then tail kept
  else seg :: kept.

(** [path.join(base, ...args)] for an absolute normalised [base]. *)
Definition join (base : path) (args : list string) : path :=
  rev (fold_left push_segment (flat_map split args) (rev base)).

Fixpoint last_char (s : string) : option ascii :=
  match s with
  | EmptyString => None
  | String c EmptyString => Some c
  | String _ s' => last_char s'
  end.

(** [normalize] keeps a trailing separator; such a path only resolves to a
    directory.  The last non-empty argument decides. *)
Definition trailing_sep (arg : string) : bool :=
  match last_char arg with
  | Some c => is_sep c
  | None => false
  end.

Fixpoint join_trailing (args : list string) : bool :=
  match args with
  | [] => false
  | a :: rest =>
      if existsb (fun b => negb (String.eqb b "")) rest then join_trailing rest
      else trailing_sep a
  end.

Fixpoint concat_sep (segs : list string) : string :=
  match segs with
  | [] => ""
  | s :: rest => "/" +:+ s +:+ concat_sep rest
  end.

(** The string Node hands to the operating system or to a shell. *)
Definition render (p : path) (trailing : bool) : string :=
  match p with
  | [] => "/"
  | _ => concat_sep p +:+ (if trailing then "/" else "")
  end.

(** [path.join(dir, name)] for a [name] that [readdir] returned: entry
    names are single segments, never empty, [.] or [..], and joining one
    appends it. *)
Definition join_entry (dir : path) (name : string) : path := dir ++ [name].

(** [inside d p]: [p] is [d] or lies beneath it. *)
Definition inside (d p : path) : Prop := d `prefix_of` p.

End Path.

(* ===================================================================== *)
(** * The filesystem *)
(* ===================================================================== *)

Module FS.
Import Path.

(** A directory tree.  File contents are kept as strings of bytes.  The
    model has no permissions, quotas or devices: an operation fails only
    for the structural reasons [ENOENT], [ENOTDIR], [EEXIST], [EISDIR],
    and for a name that is too long ([ENAMETOOLONG]). *)
#[local] Unset Elimination Schemes.
Inductive node :=
| File (data : string)
| Dir (entries : gmap string node).
#[local] Set Elimination Schemes.

Definition empty_dir : node := Dir ∅.

Definition is_dir (n : node) : bool :=
  match n with Dir _ => true | File _ => false end.

Fixpoint lookup_path (p : path) (n : node) : option node :=
  match p with
  | [] => Some n
  | s :: p' =>
      match n with
      | Dir es => match es !! s with
                  | Some c => lookup_path p' c
                  | None => None
                  end
      | File _ => None
      end
  end.

(** [fs.access(p)]: does the path resolve?  With a trailing separator it
    must resolve to a directory. *)
Definition access (root : node) (p : path) (trailing : bool) : bool :=
  match lookup_path p root with
  | Some (Dir _) => true
  | Some (File _) => negb trailing
  | None => false
  end.

Definition read_file (root : node) (p : path) (trailing : bool) : option string :=
  match lookup_path p root with
  | Some (File data) => if trailing then None else Some data
  | _ => None
  end.

(** The longest name a directory entry may have, in bytes ([NAME_MAX]). *)
Definition name_max : nat := 255.

Definition name_fits (s : string) : bool :=
  Nat.leb (String.length s) name_max.

(** [fs.mkdir(p, { recursive: true })]: walks [p] from the root, accepts
    the directories that exist and makes those that are missing.  It fails
    at a regular file in the way and at a missing name longer than
    [name_max]; [None] is such a failure. *)
Fixpoint mkdir_p (p : path) (n : node) : option node :=
  match n with
  | File _ => None
  | Dir es =>
      match p with
      | [] => Some n
      | s :: p' =>
          match es !! s with
          | Some c =>
              match mkdir_p p' c with
              | Some c' => Some (Dir (<[s := c']> es))
              | None => None
              end
          | None =>
              if name_fits s then
                match mkdir_p p' empty_dir with
                | Some c' => Some (Dir (<[s := c']> es))
                | None => None
                end
              else None
          end
      end
  end.

(** The tree that a call of [fs.mkdir(p, { recursive: true })] leaves,
    whether it succeeds or fails: the directories made before the failure
    stay. *)
Fixpoint mkdir_p_left (p : path) (n : node) : node :=
  match n with
  | File _ => n
  | Dir es =>
      match p with
      | [] => n
      | s :: p' =>
          match es !! s with
          | Some c => Dir (<[s := mkdir_p_left p' c]> es)
          | None =>
              if name_fits s
              then Dir (<[s := mkdir_p_left p' empty_dir]> es)
              else n
          end
      end
  end.

(** Why [fs.mkdir(p, { recursive: true })] fails, when it does. *)
Fixpoint mkdir_errno (p : path) (n : node) : string :=
  match n with
  | File _ =>
      match p with
      | [] => "EEXIST: file already exists"
      | _ :: _ => "ENOTDIR: not a directory"
      end
  | Dir es =>
      match p with
      | [] => ""
      | s :: p' =>
          match es !! s with
          | Some c => mkdir_errno p' c
          | None =>
              if name_fits s then mkdir_errno p' empty_dir
              else "ENAMETOOLONG: name too long"
          end
      end
  end.

(** [fs.rm(p, { recursive: true, force: true })]: removes the entry and
    all beneath it; a path that does not resolve is not an error. *)
Fixpoint rm_rf (p : path) (n : node) : node :=
  match p, n with
  | [], _ => n
  | _, File _ => n
  | [s], Dir es => Dir (delete s es)
  | s :: p', Dir es => Dir (alter (rm_rf p') s es)
  end.

(** [fs.readdir(p)] *)
Definition readdir (root : node) (p : path) : option (list string) :=
  match lookup_path p root with
  | Some (Dir es) => Some (map fst (map_to_list es))
  | _ => None
  end.

(** Replace the node at [p], when [p] resolves, by its image under [f]. *)
Fixpoint alter_path (f : node → node) (p : path) (n : node) : node :=
  match p with
  | [] => f n
  | s :: p' =>
      match n with
      | Dir es => Dir (alter (alter_path f p') s es)
      | File _ => n
      end
  end.

(** [fs.unlink(p)]: removes a regular file; the root is none. *)
Definition unlink (root : node) (p : path) : option node :=
  match p, lookup_path p root with
  | _ :: _, Some (File _) => Some (rm_rf p root)
  | _, _ => None
  end.

(** Put a regular file named [s] in a directory node; a directory of that
    name is in the way. *)
Definition put_file (s data : string) (n : node) : node :=
  match n with
  | Dir es => match es !! s with
              | Some (Dir _) => n
              | _ => Dir (<[s := File data]> es)
              end
  | File _ => n
  end.

Definition split_last (p : path) : option (path * string) :=
  match rev p with
  | [] => None
  | s :: rparent => Some (rev rparent, s)
  end.

(** [fs.writeFile(p, data)]: the parent must be a directory and [p] must
    not be one; an existing file is overwritten, a new one needs a name
    of at most [name_max] bytes. *)
Definition write_file (root : node) (p : path) (data : string) : option node :=
  match split_last p with
  | None => None
  | Some (parent, s) =>
      match lookup_path parent root with
      | Some (Dir es) =>
          match es !! s with
          | Some (Dir _) => None
          | Some (File _) => Some (alter_path (put_file s data) parent root)
          | None =>
              if name_fits s
              then Some (alter_path (put_file s data) parent root)
              else None
          end
      | _ => None
      end
  end.

(** Why a path does not resolve: an entry is missing, or a regular file
    stands where a directory is needed. *)
Fixpoint resolve_errno (p : path) (n : node) : string :=
  match p with
  | [] => ""
  | s :: p' =>
      match n with
      | Dir es => match es !! s with
                  | Some c => resolve_errno p' c
                  | None => "ENOENT: no such file or directory"
                  end
      | File _ => "ENOTDIR: not a directory"
      end
  end.

(** Why [fs.writeFile(p, data)] fails, when it does. *)
Definition write_errno (root : node) (p : path) : string :=
  match split_last p with
  | None => "EISDIR: illegal operation on a directory"
  | Some (parent, s) =>
      match lookup_path parent root with
      | Some (Dir es) =>
          match es !! s with
          | Some (Dir _) => "EISDIR: illegal operation on a directory"
          | Some (File _) => ""
          | None => if name_fits s then "" else "ENAMETOOLONG: name too long"
          end
      | Some (File _) => "ENOTDIR: not a directory"
      | None => resolve_errno parent root
      end
  end.

(** One file that unzip writes at the relative path [rel] under the
    directory node [n]: intermediate directories are created and an
    existing file is replaced ([-o]); an entry that cannot be created,
    because a file or a directory is in the way, is skipped. *)
Fixpoint write_entry (rel : path) (data : string) (n : node) : node :=
  match rel with
  | [] => n
  | [s] => put_file s data n
  | s :: rel' =>
      match n with
      | Dir es =>
          Dir (<[s := write_entry rel' data (default empty_dir (es !! s))]> es)
      | File _ => n
      end
  end.

Definition extract (files : list (path * string)) (n : node) : node :=
  fold_left (fun acc f => write_entry (fst f) (snd f) acc) files n.

(** Drop the entry named [s] from a directory node. *)
Definition remove_entry (s : string) (n : node) : node :=
  match n with
  | Dir es => Dir (delete s es)
  | File _ => n
  end.

(** The tree with the directory at [dir], when there is one, emptied. *)
Definition cleared (dir : path) (root : node) : node :=
  alter_path (fun n => if is_dir n then empty_dir else n) dir root.

End FS.

(* ===================================================================== *)
(** * JSON values and the tables of [shared/schema.ts] *)
(* ===================================================================== *)

(** A parsed JSON value, as [express.json()] leaves it in [req.body]. *)
#[local] Unset Elimination Schemes.
Inductive json :=
| JNull
| JBool (b : bool)
| JNum (n : Z)
| JStr (s : string)
| JArr (items : list json)
| JObj (fields : list (string * json)).
#[local] Set Elimination Schemes.

(** JavaScript truthiness, as tested by [!x] and [x || y]. *)
Definition truthy (v : option json) : bool :=
  match v with
  | None => false
  | Some JNull => false
  | Some (JBool b) => b
  | Some (JNum n) => negb (Z.eqb n 0)
  | Some (JStr s) => negb (String.eqb s "")
  | Some (JArr _) => true
  | Some (JObj _) => true
  end.

(** Keys generated by [gen_random_uuid()] are drawn from a supply of fresh
    names; timestamps are readings of a clock.  User ids are issued outside
    this workflow (registration) and reach it through the session; they
    are kept as the strings that get joined into paths. *)
Definition uuid := nat.
Definition timestamp := nat.

(** Keys are texts in the database and numbers here.  A key that arrives
    as a text, in the body of a request, stands for the number that its
    bytes spell as a bijective numeral of base 256: different texts are
    different keys, and every key has a text. *)
Fixpoint key_of_text (s : string) : uuid :=
  match s with
  | EmptyString => 0
  | String c rest => S (nat_of_ascii c) + 256 * key_of_text rest
  end.

(** A row of [websites].  The column [createdAt] has a default and no
    [notNull()]: an update can set it to [null].  [updatedAt] is nullable
    as well, but every statement of the storage class that writes it
    writes a date. *)
Module Website.
Record t := mk {
  id : uuid;
  userId : string;
  name : string;
  subdomain : string;
  description : option string;
  currentScript : option string;
  isActive : option bool;
  createdAt : option timestamp;
  updatedAt : timestamp
}.
End Website.

Module ScriptTemplate.
Record t := mk {
  id : uuid;
  name : string;
  displayName : string;
  description : option string;
  version : option string;
  fileName : string;
  isActive : option bool;
  createdAt : timestamp;
  updatedAt : timestamp
}.
End ScriptTemplate.

Module WebsiteLog.
Record t := mk {
  id : uuid;
  websiteId : uuid;
  action : string;
  details : gmap string json;
  createdAt : timestamp
}.
End WebsiteLog.

(** [InsertWebsite], the output of [insertWebsiteSchema]: the columns
    [id], [createdAt] and [updatedAt] are omitted; a nullable column with a
    default may be absent ([None]), [null] ([Some None]) or set. *)
Module InsertWebsite.
Record t := mk {
  userId : string;
  name : string;
  subdomain : string;
  description : option (option string);
  currentScript : option (option string);
  isActive : option (option bool)
}.
End InsertWebsite.

Module InsertScriptTemplate.
Record t := mk {
  name : string;
  displayName : string;
  description : option string;
  version : string;
  fileName : string
}.
End InsertScriptTemplate.

(* ===================================================================== *)
(** * The world the server acts on, and its monad *)
(* ===================================================================== *)

(** What the unzip binary does with the bytes of an archive: the files it
    writes, relative to the directory it runs in, its exit code and what it
    prints on standard error.  A run that ends with a non-zero code may
    have written files before giving up. *)
Record UnzipRun := {
  written : list (Path.path * string);
  exit_code : nat;
  stderr : string
}.

(** What [/bin/sh] makes of a command line run on a tree: the tree it
    leaves, its exit status and what it prints on standard error. *)
Record ShellRun := {
  fs_after : FS.node;
  sh_status : nat;
  sh_stderr : string
}.

(** What the process finds around it, none of which is among the sources:
    - the working directory it was started in;
    - the unzip program on its [PATH]: what it does with the bytes of an
      archive ([unzip]), and what it does when the path it is given is no
      readable file, on the tree it finds ([unzip_nowhere]: it looks for
      an archive under other names before it gives up);
    - [/bin/sh], for the command lines that it does not take word for
      word;
    - the database driver: the text it sends for a parameter that is not
      a string ([pg_text]), and what the database reads such a text as in
      a [boolean] column ([pg_boolean]; [None] when it refuses it). *)
Record Env := {
  cwd : Path.path;
  unzip : string → UnzipRun;
  unzip_nowhere : string → FS.node → UnzipRun;
  sh : string → FS.node → ShellRun;
  pg_text : json → string;
  pg_boolean : string → option bool
}.

(** State-changing calls made on the two stores and the shell, in the
    order they were made (oldest first).  A filesystem or database call
    is entered when it has succeeded, a shell command when it is run. *)
Inductive Effect :=
| FsMkdir (p : Path.path)
| FsRm (p : Path.path)
| FsUnlink (p : Path.path)
| FsWriteFile (p : Path.path)
| ShellExec (command : string)
| DbInsertWebsite (id : uuid)
| DbUpdateWebsite (id : uuid)
| DbDeleteWebsite (id : uuid)
| DbInsertLog (websiteId : uuid) (action : string)
| DbInsertTemplate (id : uuid)
| DbDeleteTemplate (id : uuid).

Inductive ConsoleLine :=
| ConsoleLog (text : string)
| ConsoleError (text : string).

Record World := {
  fs : FS.node;
  websites : list Website.t;
  websiteLogs : list WebsiteLog.t;
  scriptTemplates : list ScriptTemplate.t;
  clock : timestamp;
  uuids : uuid;
  effects : list Effect;
  console : list ConsoleLine
}.

Definition with_fs (r : FS.node) (w : World) : World :=
  {| fs := r; websites := websites w; websiteLogs := websiteLogs w;
     scriptTemplates := scriptTemplates w; clock := clock w;
     uuids := uuids w; effects := effects w; console := console w |}.

Definition with_websites (l : list Website.t) (w : World) : World :=
  {| fs := fs w; websites := l; websiteLogs := websiteLogs w;
     scriptTemplates := scriptTemplates w; clock := clock w;
     uuids := uuids w; effects := effects w; console := console w |}.

Definition with_websiteLogs (l : list WebsiteLog.t) (w : World) : World :=
  {| fs := fs w; websites := websites w; websiteLogs := l;
     scriptTemplates := scriptTemplates w; clock := clock w;
     uuids := uuids w; effects := effects w; console := console w |}.

Definition with_scriptTemplates (l : list ScriptTemplate.t) (w : World) : World :=
  {| fs := fs w; websites := websites w; websiteLogs := websiteLogs w;
     scriptTemplates := l; clock := clock w;
     uuids := uuids w; effects := effects w; console := console w |}.

Definition with_clock (c : timestamp) (w : World) : World :=
  {| fs := fs w; websites := websites w; websiteLogs := websiteLogs w;
     scriptTemplates := scriptTemplates w; clock := c;
     uuids := uuids w; effects := effects w; console := console w |}.

Definition with_uuids (n : uuid) (w : World) : World :=
  {| fs := fs w; websites := websites w; websiteLogs := websiteLogs w;
     scriptTemplates := scriptTemplates w; clock := clock w;
     uuids := n; effects := effects w; console := console w |}.

Definition with_effects (l : list Effect) (w : World) : World :=
  {| fs := fs w; websites := websites w; websiteLogs := websiteLogs w;
     scriptTemplates := scriptTemplates w; clock := clock w;
     uuids := uuids w; effects := l; console := console w |}.

Definition with_console (l : list ConsoleLine) (w : World) : World :=
  {| fs := fs w; websites := websites w; websiteLogs := websiteLogs w;
     scriptTemplates := scriptTemplates w; clock := clock w;
     uuids := uuids w; effects := effects w; console := l |}.

(** What is thrown: a plain [Error] with a message, or zod's [ZodError]
    with the paths of the issues it found. *)
Inductive exn :=
| Error (message : string)
| ZodError (issues : list string).

(** [error instanceof Error ? error.message : 'Unknown error']; a
    [ZodError] is an [Error] whose message lists its issues. *)
Definition error_message (e : exn) : string :=
  match e with
  | Error m => m
  | ZodError issues => String.concat ", " issues
  end.

(** An awaited call either returns or throws.  The world reached when it
    throws is kept. *)
Inductive outcome (A : Type) :=
| Returned (a : A)
| Thrown (e : exn).
Arguments Returned {A} a.
Arguments Thrown {A} e.

Definition M (A : Type) : Type := World → outcome A * World.

Definition ret {A} (a : A) : M A := fun w => (Returned a, w).

Definition bind {A B} (m : M A) (k : A → M B) : M B :=
  fun w =>
    match m w with
    | (Returned a, w') => k a w'
    | (Thrown e, w') => (Thrown e, w')
    end.

Definition throw {A} (e : exn) : M A := fun w => (Thrown e, w).

(** [try { m } catch (error) { handler(error) }] *)
Definition try_catch {A} (m : M A) (handler : exn → M A) : M A :=
  fun w =>
    match m w with
    | (Returned a, w') => (Returned a, w')
    | (Thrown e, w') => handler e w'
    end.

Definition gets {A} (f : World → A) : M A := fun w => (Returned (f w), w).
Definition modify (f : World → World) : M unit := fun w => (Returned tt, f w).
Definition perform (e : Effect) : M unit :=
  modify (fun w => with_effects (effects w ++ [e]) w).
Definition console_log (text : string) : M unit :=
  modify (fun w => with_console (console w ++ [ConsoleLog text]) w).
Definition console_error (text : string) : M unit :=
  modify (fun w => with_console (console w ++ [ConsoleError text]) w).

Declare Scope server_scope.
Delimit Scope server_scope with server.
Notation "'let*' x ':=' m 'in' k" := (bind m (fun x => k))
  (at level 10, x name, m at level 100, k at level 200) : server_scope.
Notation "'await' m 'in' k" := (bind m (fun _ => k))
  (at level 10, m at level 100, k at level 200) : server_scope.

(** [for (const x of xs) { await body(x) }] *)
Fixpoint for_each {A} (xs : list A) (body : A → M unit) : M unit :=
  match xs with
  | [] => ret tt
  | x :: rest => bind (body x) (fun _ => for_each rest body)
  end.

(** [orderBy(desc(key))]: rows with the larger key first. *)
Fixpoint insert_desc {A} (key : A → nat) (x : A) (l : list A) : list A :=
  match l with
  | [] => [x]
  | y :: l' => if Nat.ltb (key y) (key x) then x :: l else y :: insert_desc key x l'
  end.

Definition order_desc {A} (key : A → nat) (l : list A) : list A :=
  fold_right (insert_desc key) [] l.

(** [orderBy(column)]: the rows in the order [le], where [le a b] says
    that [a] sorts no later than [b]; rows that [le] does not tell apart
    stay in the order of the table. *)
Fixpoint insert_asc {A} (le : A → A → bool) (x : A) (l : list A) : list A :=
  match l with
  | [] => [x]
  | y :: l' => if le x y then x :: l else y :: insert_asc le x l'
  end.

Definition order_asc {A} (le : A → A → bool) (l : list A) : list A :=
  fold_right (insert_asc le) [] l.

Fixpoint distinct_keys (l : list nat) : bool :=
  match l with
  | [] => true
  | k :: rest => negb (existsb (Nat.eqb k) rest) && distinct_keys rest
  end.

Fixpoint distinct (l : list string) : bool :=
  match l with
  | [] => true
  | s :: rest => negb (existsb (String.eqb s) rest) && distinct rest
  end.

Fixpoint map_option {A B} (f : A → option B) (l : list A) : option (list B) :=
  match l with
  | [] => Some []
  | x :: rest =>
      match f x, map_option f rest with
      | Some y, Some ys => Some (y :: ys)
      | _, _ => None
      end
  end.

Definition dquote : string := String (Ascii.ascii_of_nat 34) EmptyString.
Definition newline : string := String (Ascii.ascii_of_nat 10) EmptyString.


(* ===================================================================== *)
(** * HTTP requests and responses *)
(* ===================================================================== *)

Record UploadedFile := {
  originalname : string;
  mimetype : string;
  buffer : string
}.

(** What a handler reads of a request: the user the session middleware put
    in [req.user], the [:id] of the URL, the parsed body and the uploaded
    file. *)
Record Request := {
  user : option string;
  params_id : uuid;
  body : gmap string json;
  file : option UploadedFile
}.

Inductive Payload :=
| Message (message : string)
| ValidationFailed (errors : list string)
| WebsiteJson (website : option Website.t)
| WebsiteList (rows : list Website.t)
| LogList (rows : list WebsiteLog.t)
| ScriptChanged (website : option Website.t) (url : string)
| TemplateJson (template : ScriptTemplate.t).

Record Response := {
  status : nat;
  payload : Payload
}.

Definition respond (code : nat) (p : Payload) : M Response :=
  ret {| status := code; payload := p |}.

(** The [message] field of a JSON response, when it has one. *)
Definition response_message (r : Response) : option string :=
  match payload r with
  | Message m => Some m
  | ValidationFailed _ => Some "Validation error"
  | ScriptChanged _ _ => Some "Script changed successfully"
  | _ => None
  end.

(* ===================================================================== *)
(** * The file manager *)
(* ===================================================================== *)

Section FileManager.

Variable env : Env.

Import Path.
Local Open Scope server_scope.

(** ** Filesystem calls of [fs/promises] and [child_process] *)

(** A failed [mkdir] keeps the directories it made on its way. *)
Definition fs_mkdir (p : path) : M unit :=
  fun w =>
    match FS.mkdir_p p (fs w) with
    | Some r =>
        (Returned tt, with_effects (effects w ++ [FsMkdir p]) (with_fs r w))
    | None =>
        (Thrown (Error (FS.mkdir_errno p (fs w) +:+ ", mkdir '"
                        +:+ render p false +:+ "'")),
         with_fs (FS.mkdir_p_left p (fs w)) w)
    end.

Definition fs_readdir (p : path) : M (list string) :=
  fun w =>
    match FS.readdir (fs w) p with
    | Some names => (Returned names, w)
    | None =>
        (Thrown (Error ((match FS.lookup_path p (fs w) with
                         | Some _ => "ENOTDIR: not a directory"
                         | None => FS.resolve_errno p (fs w)
                         end)
                        +:+ ", scandir '" +:+ render p false +:+ "'")), w)
    end.

Definition fs_rm (p : path) : M unit :=
  fun w =>
    (Returned tt,
     with_effects (effects w ++ [FsRm p]) (with_fs (FS.rm_rf p (fs w)) w)).

Definition fs_access (p : path) (trailing : bool) : M unit :=
  fun w =>
    if FS.access (fs w) p trailing then (Returned tt, w)
    else (Thrown (Error ((match FS.lookup_path p (fs w) with
                          | Some _ => "ENOTDIR: not a directory"
                          | None => FS.resolve_errno p (fs w)
                          end)
                         +:+ ", access '" +:+ render p trailing +:+ "'")), w).

Definition fs_unlink (p : path) : M unit :=
  fun w =>
    match FS.unlink (fs w) p with
    | Some r =>
        (Returned tt, with_effects (effects w ++ [FsUnlink p]) (with_fs r w))
    | None =>
        (Thrown (Error ((match FS.lookup_path p (fs w) with
                         | Some _ => "EISDIR: illegal operation on a directory"
                         | None => FS.resolve_errno p (fs w)
                         end)
                        +:+ ", unlink '" +:+ render p false +:+ "'")), w)
    end.

Definition fs_writeFile (p : path) (data : string) : M unit :=
  fun w =>
    match FS.write_file (fs w) p data with
    | Some r =>
        (Returned tt,
         with_effects (effects w ++ [FsWriteFile p]) (with_fs r w))
    | None =>
        (Thrown (Error (FS.write_errno (fs w) p +:+ ", open '"
                        +:+ render p false +:+ "'")), w)
    end.

(** The command line that [extractScript] builds by interpolation. *)
Definition unzip_command (websiteDir scriptPath : string) : string :=
  "cd " +:+ dquote +:+ websiteDir +:+ dquote
  +:+ " && unzip -o " +:+ dquote +:+ scriptPath +:+ dquote.

(** A character that the shell does not take as it stands between double
    quotes ([$], the backquote, the backslash and the double quote
    itself), or that cannot be part of a command line at all (NUL). *)
Definition shell_special (c : ascii) : bool :=
  let n := nat_of_ascii c in
  Nat.eqb n 36 || Nat.eqb n 96 || Nat.eqb n 92 || Nat.eqb n 34
  || Nat.eqb n 0.

Definition shell_plain (s : string) : bool :=
  forallb (fun c => negb (shell_special c)) (list_ascii_of_string s).

(** What unzip does with the archive path it is given, on the tree
    [root]. *)
Definition unzip_at (root : FS.node) (scriptPath : path) (trailing : bool)
  : UnzipRun :=
  match FS.read_file root scriptPath trailing with
  | Some data => unzip env data
  | None => unzip_nowhere env (render scriptPath trailing) root
  end.

(** What the command line does to the tree [root].  When the two
    interpolated paths hold no special character and the directory is
    one, the command is what it was meant to be: unzip runs on the
    archive path, in the directory, and what it writes it writes there.
    In every other case the outcome is whatever the shell makes of the
    line. *)
Definition shell_run (websiteDir : path) (dirTrailing : bool)
    (scriptPath : path) (trailing : bool) (root : FS.node) : ShellRun :=
  let command := unzip_command (render websiteDir dirTrailing)
                               (render scriptPath trailing) in
  if shell_plain (render websiteDir dirTrailing)
     && shell_plain (render scriptPath trailing)
  then
    match FS.lookup_path websiteDir root with
    | Some (FS.Dir _) =>
        let run := unzip_at root scriptPath trailing in
        {| fs_after := FS.alter_path (FS.extract (written run))
                                     websiteDir root;
           sh_status := exit_code run;
           sh_stderr := stderr run |}
    | _ => sh env command root
    end
  else sh env command root.

(** [execSync(command)]: the command line goes to [/bin/sh -c]; a
    non-zero exit status makes [execSync] throw an [Error] whose message
    is the command line followed by what was printed on standard error;
    what the command wrote before stays written. *)
Definition execSync_unzip (websiteDir : path) (dirTrailing : bool)
    (scriptPath : path) (trailing : bool) : M unit :=
  fun w =>
    let command := unzip_command (render websiteDir dirTrailing)
                                 (render scriptPath trailing) in
    let run := shell_run websiteDir dirTrailing scriptPath trailing (fs w) in
    let w' := with_effects (effects w ++ [ShellExec command])
                           (with_fs (fs_after run) w) in
    if Nat.eqb (sh_status run) 0 then (Returned tt, w')
    else (Thrown (Error ("Command failed: " +:+ command +:+ newline
                         +:+ sh_stderr run)), w').

(** ** [FileManager] *)

Definition baseDir : path := join (cwd env) ["user_websites"].
Definition scriptsDir : path := join (cwd env) ["allscripts"].

Definition getUserWebsiteDir (userId subdomain : string) : path :=
  join baseDir [userId; subdomain].

Definition createUserWebsiteDir (userId subdomain : string) : M path :=
  let websiteDir := getUserWebsiteDir userId subdomain in
  await fs_mkdir websiteDir in
  ret websiteDir.

Definition websiteExists (userId subdomain : string) : M bool :=
  try_catch
    (let websiteDir := getUserWebsiteDir userId subdomain in
     await fs_access websiteDir (join_trailing [userId; subdomain]) in
     ret true)
    (fun _ => ret false).

Definition deleteWebsiteDir (userId subdomain : string) : M unit :=
  let websiteDir := getUserWebsiteDir userId subdomain in
  try_catch
    (fs_rm websiteDir)
    (fun error =>
       console_error ("Failed to delete website directory: "
                      +:+ error_message error)).

Definition clearWebsiteDir (userId subdomain : string) : M unit :=
  let websiteDir := getUserWebsiteDir userId subdomain in
  try_catch
    (let* items := fs_readdir websiteDir in
     for_each items (fun item => fs_rm (join_entry websiteDir item)))
    (fun error =>
       console_error ("Failed to clear website directory: "
                      +:+ error_message error)).

Definition scriptPathOf (scriptName : string) : path :=
  join scriptsDir [scriptName].

Definition extractScript (userId subdomain scriptName : string) : M unit :=
  let websiteDir := getUserWebsiteDir userId subdomain in
  let scriptPath := scriptPathOf scriptName in
  try_catch
    (await fs_mkdir websiteDir in
     await clearWebsiteDir userId subdomain in
     await execSync_unzip websiteDir (join_trailing [userId; subdomain])
                          scriptPath (trailing_sep scriptName) in
     console_log ("Extracted script " +:+ scriptName +:+ " to "
                  +:+ render websiteDir (join_trailing [userId; subdomain])))
    (fun error =>
       await console_error ("Failed to extract script: "
                            +:+ error_message error) in
       throw (Error ("Failed to extract script: " +:+ error_message error))).

Definition uploadScript (fileName : string) (fileBuffer : string) : M unit :=
  let scriptPath := join scriptsDir [fileName] in
  try_catch
    (await fs_writeFile scriptPath fileBuffer in
     console_log ("Uploaded script: " +:+ fileName))
    (fun error =>
       await console_error ("Failed to upload script: "
                            +:+ error_message error) in
       throw (Error ("Failed to upload script: " +:+ error_message error))).

(** [scriptName] is whatever the body held.  For a value that is not a
    string [path.join] throws a [TypeError] inside the [try], and the
    answer is [false]. *)
Definition scriptExists (scriptName : json) : M bool :=
  try_catch
    (match scriptName with
     | JStr s =>
         await fs_access (scriptPathOf s) (trailing_sep s) in
         ret true
     | _ =>
         throw (Error "The path argument must be of type string")
     end)
    (fun _ => ret false).


Definition deleteScript (scriptName : string) : M unit :=
  let scriptPath := join scriptsDir [scriptName] in
  try_catch
    (await fs_unlink scriptPath in
     console_log ("Deleted script: " +:+ scriptName))
    (fun error =>
       console_error ("Failed to delete script: " +:+ error_message error)).

Definition getWebsiteUrl (subdomain : string) : string :=
  "https://" +:+ subdomain +:+ ".yoursite.com".

(** What running unzip on the archive named [scriptName] amounts to, on
    the tree [root]: nothing to run when the path is no readable file. *)
Definition unzip_run_of (root : FS.node) (scriptName : string)
  : option UnzipRun :=
  match FS.read_file root (scriptPathOf scriptName)
                     (trailing_sep scriptName) with
  | Some data => Some (unzip env data)
  | None => None
  end.

Definition unzip_ok (r : option UnzipRun) : bool :=
  match r with
  | Some run => Nat.eqb (exit_code run) 0
  | None => false
  end.

Definition unzip_written (r : option UnzipRun) : list (path * string) :=
  match r with
  | Some run => written run
  | None => []
  end.

(** The two paths that [extractScript] interpolates into the command line
    for this user, subdomain and script name hold no character that the
    shell treats specially. *)
Definition plain_command (userId subdomain scriptName : string) : bool :=
  shell_plain (render (getUserWebsiteDir userId subdomain)
                      (join_trailing [userId; subdomain]))
  && shell_plain (render (scriptPathOf scriptName) (trailing_sep scriptName)).

(** What the shell step of [extractScript] makes of the tree [root]. *)
Definition extract_run (userId subdomain scriptName : string)
    (root : FS.node) : ShellRun :=
  shell_run (getUserWebsiteDir userId subdomain)
            (join_trailing [userId; subdomain])
            (scriptPathOf scriptName) (trailing_sep scriptName) root.

(** The command line of that step. *)
Definition extract_command (userId subdomain scriptName : string) : string :=
  unzip_command (render (getUserWebsiteDir userId subdomain)
                        (join_trailing [userId; subdomain]))
                (render (scriptPathOf scriptName) (trailing_sep scriptName)).

(** The message of the error that [extractScript] throws, and logs, when
    the command line ended as [run] did, with a status that is not 0. *)
Definition extract_failure (userId subdomain scriptName : string)
    (run : ShellRun) : string :=
  "Failed to extract script: "
  +:+ ("Command failed: " +:+ extract_command userId subdomain scriptName
       +:+ newline +:+ sh_stderr run).

End FileManager.

(** The database as one world leaves it to the next. *)
Definition db_unchanged (w w' : World) : Prop :=
  websites w' = websites w ∧ websiteLogs w' = websiteLogs w
  ∧ scriptTemplates w' = scriptTemplates w
  ∧ clock w' = clock w ∧ uuids w' = uuids w.

(* ===================================================================== *)
(** * [DatabaseStorage] *)
(* ===================================================================== *)

Section Storage.

Variable env : Env.

Local Open Scope server_scope.

(** [defaultNow()] and [new Date()]: a reading of the clock, which moves
    on. *)
Definition now : M timestamp :=
  fun w => (Returned (clock w), with_clock (S (clock w)) w).

Definition gen_random_uuid : M uuid :=
  fun w => (Returned (uuids w), with_uuids (S (uuids w)) w).

Definition owned_by (userId : string) (x : Website.t) : bool :=
  String.eqb (Website.userId x) userId.

Definition has_id (id : uuid) (x : Website.t) : bool :=
  Nat.eqb (Website.id x) id.

Definition has_subdomain (subdomain : string) (x : Website.t) : bool :=
  String.eqb (Website.subdomain x) subdomain.

Definition log_of (websiteId : uuid) (l : WebsiteLog.t) : bool :=
  Nat.eqb (WebsiteLog.websiteId l) websiteId.

(** [desc(websites.createdAt)]: the row created later sorts first, and a
    row without a date before all that have one, which is where
    PostgreSQL puts [NULL] in descending order. *)
Definition created_desc (a b : Website.t) : bool :=
  match Website.createdAt a, Website.createdAt b with
  | None, _ => true
  | Some _, None => false
  | Some x, Some y => Nat.leb y x
  end.

Definition getUserWebsites (userId : string) : M (list Website.t) :=
  gets (fun w =>
          order_asc created_desc
                    (List.filter (owned_by userId) (websites w))).

Definition getWebsite (id : uuid) : M (option Website.t) :=
  gets (fun w => head (List.filter (has_id id) (websites w))).

Definition getWebsiteBySubdomain (subdomain : string) : M (option Website.t) :=
  gets (fun w => head (List.filter (has_subdomain subdomain) (websites w))).

(** The row that [insert(websites).values(website)] writes: [id] and the
    two timestamps take their defaults, as do the nullable columns the
    values leave out; [isActive] defaults to [true]. *)
Definition website_row (website : InsertWebsite.t) (id : uuid)
    (t : timestamp) : Website.t :=
  {| Website.id := id;
     Website.userId := InsertWebsite.userId website;
     Website.name := InsertWebsite.name website;
     Website.subdomain := InsertWebsite.subdomain website;
     Website.description := default None (InsertWebsite.description website);
     Website.currentScript :=
       default None (InsertWebsite.currentScript website);
     Website.isActive := default (Some true) (InsertWebsite.isActive website);
     Website.createdAt := Some t;
     Website.updatedAt := t |}.

(** [insert(websites).values(website).returning()].  The column
    [subdomain] is [unique()]: a second row with the same value is
    refused. *)
Definition createWebsite (website : InsertWebsite.t) : M Website.t :=
  let* rows := gets websites in
  if existsb (has_subdomain (InsertWebsite.subdomain website)) rows
  then throw (Error "duplicate key value violates unique constraint websites_subdomain_unique")
  else
    let* id := gen_random_uuid in
    let* t := now in
    let newWebsite := website_row website id t in
    await modify (fun w => with_websites (websites w ++ [newWebsite]) w) in
    await perform (DbInsertWebsite id) in
    ret newWebsite.

(** The text that reaches the database for a value bound to a parameter
    of a statement: a string goes as it is, anything else as the driver
    renders it. *)
Definition driver_text (v : json) : string :=
  match v with
  | JStr s => s
  | _ => pg_text env v
  end.

(** The value a [varchar(...).notNull()] column takes from a key of the
    update object: absent keeps the old value, [null] violates the
    constraint ([None]), anything else is stored as its text. *)
Definition set_varchar (v : option json) (old : string) : option string :=
  match v with
  | None => Some old
  | Some JNull => None
  | Some v => Some (driver_text v)
  end.

Definition set_nullable_text (v : option json) (old : option string)
  : option (option string) :=
  match v with
  | None => Some old
  | Some JNull => Some None
  | Some v => Some (Some (driver_text v))
  end.

(** A [boolean] column: a value that is no boolean is stored when the
    database reads its text as one. *)
Definition set_nullable_bool (v : option json) (old : option bool)
  : option (option bool) :=
  match v with
  | None => Some old
  | Some JNull => Some None
  | Some (JBool b) => Some (Some b)
  | Some v =>
      match pg_boolean env (driver_text v) with
      | Some b => Some (Some b)
      | None => None
      end
  end.

(** A [timestamp] column: the value is mapped with [value.toISOString()],
    which no value parsed from JSON has, so that building the statement
    throws a [TypeError]; only [null] is passed on as it is. *)
Definition set_nullable_timestamp (v : option json) (old : option timestamp)
  : option (option timestamp) :=
  match v with
  | None => Some old
  | Some JNull => Some None
  | Some _ => None
  end.

(** The primary key, [id]. *)
Definition set_key (v : option json) (old : uuid) : option uuid :=
  match v with
  | None => Some old
  | Some JNull => None
  | Some v => Some (key_of_text (driver_text v))
  end.

(** [.set({ ...updates, updatedAt: new Date() })] on one row: every key
    of the object that names a column of the table is set, whatever the
    type [Partial<InsertWebsite>] says of [updates]; [updatedAt] is the
    date of the call, also when [updates] has that key. *)
Definition set_columns (updates : gmap string json) (t : timestamp)
    (x : Website.t) : option Website.t :=
  match set_key (updates !! "id") (Website.id x),
        set_varchar (updates !! "userId") (Website.userId x),
        set_varchar (updates !! "name") (Website.name x),
        set_varchar (updates !! "subdomain") (Website.subdomain x),
        set_nullable_text (updates !! "description") (Website.description x),
        set_nullable_text (updates !! "currentScript")
                          (Website.currentScript x),
        set_nullable_bool (updates !! "isActive") (Website.isActive x),
        set_nullable_timestamp (updates !! "createdAt") (Website.createdAt x)
  with
  | Some k, Some u, Some n, Some s, Some d, Some c, Some a, Some created =>
      Some {| Website.id := k;
              Website.userId := u;
              Website.name := n;
              Website.subdomain := s;
              Website.description := d;
              Website.currentScript := c;
              Website.isActive := a;
              Website.createdAt := created;
              Website.updatedAt := t |}
  | _, _, _, _, _, _, _, _ => None
  end.

(** A row after [currentScript] alone was set on the rows with key
    [id]. *)
Definition with_script (id : uuid) (name : string) (t : timestamp)
    (x : Website.t) : Website.t :=
  if has_id id x
  then {| Website.id := Website.id x;
          Website.userId := Website.userId x;
          Website.name := Website.name x;
          Website.subdomain := Website.subdomain x;
          Website.description := Website.description x;
          Website.currentScript := Some name;
          Website.isActive := Website.isActive x;
          Website.createdAt := Website.createdAt x;
          Website.updatedAt := t |}
  else x.

Definition update_row (id : uuid) (updates : gmap string json)
    (t : timestamp) (x : Website.t) : option Website.t :=
  if has_id id x then set_columns updates t x else Some x.

(** [.returning()]: the rows that the statement updated, as it left
    them. *)
Definition returning (id : uuid) (updates : gmap string json)
    (t : timestamp) (rows : list Website.t) : list Website.t :=
  omap (fun x => if has_id id x then set_columns updates t x else None) rows.

(** What the constraints on the key ask of an update that moved the rows
    with key [id] to another key: no row of [website_logs] references
    [id] (the foreign key of [website_logs.website_id] has no
    [ON UPDATE] action), and the new key is not taken. *)
Definition key_constraints (id : uuid) (rows rows' : list Website.t)
    (logs : list WebsiteLog.t) : bool :=
  if existsb (has_id id) rows && negb (existsb (has_id id) rows')
  then negb (existsb (log_of id) logs)
       && distinct_keys (map Website.id rows')
  else true.

(** [update(websites).set(...).where(eq(websites.id, id)).returning()];
    the first row returned, [undefined] when none matched.  A value that
    a column does not take, a subdomain that another row holds, or a key
    that cannot be changed makes the statement fail and leaves the table
    as it was. *)
Definition updateWebsite (id : uuid) (updates : gmap string json)
  : M (option Website.t) :=
  let* t := now in
  let* rows := gets websites in
  let* logs := gets websiteLogs in
  match map_option (update_row id updates t) rows with
  | None => throw (Error "invalid input value for column")
  | Some rows' =>
      if negb match updates !! "subdomain" with
              | Some _ => distinct (map Website.subdomain rows')
              | None => true
              end
      then throw (Error "duplicate key value violates unique constraint websites_subdomain_unique")
      else if negb match updates !! "id" with
                   | Some _ => key_constraints id rows rows' logs
                   | None => true
                   end
      then throw (Error "update or delete on table websites violates a constraint on its key")
      else
        await modify (with_websites rows') in
        await perform (DbUpdateWebsite id) in
        ret (head (returning id updates t rows))
  end.

(** [delete(websites).where(eq(websites.id, id))]; the rows of
    [website_logs] that reference the website go with it
    ([onDelete: "cascade"]). *)
Definition deleteWebsite (id : uuid) : M unit :=
  await modify (fun w =>
    with_websiteLogs
      (List.filter (fun l => negb (log_of id l)) (websiteLogs w))
      (with_websites
         (List.filter (fun x => negb (has_id id x)) (websites w)) w)) in
  perform (DbDeleteWebsite id).

Definition getScriptTemplate (id : uuid) : M (option ScriptTemplate.t) :=
  gets (fun w =>
          head (List.filter (fun t => Nat.eqb (ScriptTemplate.id t) id)
                            (scriptTemplates w))).

Definition getScriptTemplateByName (name : string)
  : M (option ScriptTemplate.t) :=
  gets (fun w =>
          head (List.filter
                  (fun t => String.eqb (ScriptTemplate.name t) name)
                  (scriptTemplates w))).

(** The column [name] of [script_templates] is [unique()]. *)
Definition createScriptTemplate (template : InsertScriptTemplate.t)
  : M ScriptTemplate.t :=
  let* rows := gets scriptTemplates in
  if existsb (fun t => String.eqb (ScriptTemplate.name t)
                                  (InsertScriptTemplate.name template)) rows
  then throw (Error "duplicate key value violates unique constraint script_templates_name_unique")
  else
    let* id := gen_random_uuid in
    let* t := now in
    let newTemplate :=
      {| ScriptTemplate.id := id;
         ScriptTemplate.name := InsertScriptTemplate.name template;
         ScriptTemplate.displayName :=
           InsertScriptTemplate.displayName template;
         ScriptTemplate.description :=
           InsertScriptTemplate.description template;
         ScriptTemplate.version :=
           Some (InsertScriptTemplate.version template);
         ScriptTemplate.fileName := InsertScriptTemplate.fileName template;
         ScriptTemplate.isActive := Some true;
         ScriptTemplate.createdAt := t;
         ScriptTemplate.updatedAt := t |} in
    await modify (fun w =>
      with_scriptTemplates (scriptTemplates w ++ [newTemplate]) w) in
    await perform (DbInsertTemplate id) in
    ret newTemplate.

Definition deleteScriptTemplate (id : uuid) : M unit :=
  await modify (fun w =>
    with_scriptTemplates
      (List.filter (fun t => negb (Nat.eqb (ScriptTemplate.id t) id))
                   (scriptTemplates w)) w) in
  perform (DbDeleteTemplate id).

Definition getWebsiteLogs (websiteId : uuid) : M (list WebsiteLog.t) :=
  gets (fun w =>
          order_desc WebsiteLog.createdAt
                     (List.filter (log_of websiteId) (websiteLogs w))).

(** [insert(websiteLogs).values(log).returning()]; [websiteId]
    [references] a row of [websites], which must exist. *)
Definition createWebsiteLog (websiteId : uuid) (action : string)
    (details : gmap string json) : M WebsiteLog.t :=
  let* rows := gets websites in
  if existsb (has_id websiteId) rows then
    let* id := gen_random_uuid in
    let* t := now in
    let newLog :=
      {| WebsiteLog.id := id;
         WebsiteLog.websiteId := websiteId;
         WebsiteLog.action := action;
         WebsiteLog.details := details;
         WebsiteLog.createdAt := t |} in
    await modify (fun w => with_websiteLogs (websiteLogs w ++ [newLog]) w) in
    await perform (DbInsertLog websiteId action) in
    ret newLog
  else throw (Error "insert or update on table website_logs violates foreign key constraint").

End Storage.

(* ===================================================================== *)
(** * The routes of [registerRoutes] *)
(* ===================================================================== *)

Section Routes.

Variable env : Env.

Local Open Scope server_scope.

(** ** Validation of the body of [POST /api/websites] *)

(** One character of the class [[a-z0-9-]]. *)
Definition subdomain_char (c : ascii) : bool :=
  let n := nat_of_ascii c in
  (Nat.leb 97 n && Nat.leb n 122) || (Nat.leb 48 n && Nat.leb n 57)
  || Nat.eqb n 45.

(** [/^[a-z0-9-]+$/.test(s)] *)
Definition subdomain_pattern (s : string) : bool :=
  negb (String.eqb s "") && forallb subdomain_char (list_ascii_of_string s).

(** [z.string().min(1)] *)
Definition zod_string_min1 (v : option json) : option string :=
  match v with
  | Some (JStr s) => if String.eqb s "" then None else Some s
  | _ => None
  end.

(** A nullable, optional text column of [createInsertSchema]. *)
Definition zod_optional_text (v : option json)
  : option (option (option string)) :=
  match v with
  | None => Some None
  | Some JNull => Some (Some None)
  | Some (JStr s) => Some (Some (Some s))
  | Some _ => None
  end.

Definition zod_optional_bool (v : option json)
  : option (option (option bool)) :=
  match v with
  | None => Some None
  | Some JNull => Some (Some None)
  | Some (JBool b) => Some (Some (Some b))
  | Some _ => None
  end.

Definition issue_unless {A} (field : string) (parsed : option A)
  : list string :=
  match parsed with
  | Some _ => []
  | None => [field]
  end.

(** [createWebsiteSchema.parse({ ...req.body, userId })]: the session's
    user id replaces whatever the body says; keys that are no column of
    the schema are dropped; the first failing check throws a [ZodError]
    that lists every failing field. *)
Definition createWebsiteSchema_parse (body : gmap string json)
    (userId : string) : M InsertWebsite.t :=
  let name := zod_string_min1 (body !! "name") in
  let subdomain :=
    match zod_string_min1 (body !! "subdomain") with
    | Some s => if subdomain_pattern s then Some s else None
    | None => None
    end in
  let description := zod_optional_text (body !! "description") in
  let currentScript := zod_optional_text (body !! "currentScript") in
  let isActive := zod_optional_bool (body !! "isActive") in
  match name, subdomain, description, currentScript, isActive with
  | Some n, Some s, Some d, Some c, Some a =>
      ret {| InsertWebsite.userId := userId;
             InsertWebsite.name := n;
             InsertWebsite.subdomain := s;
             InsertWebsite.description := d;
             InsertWebsite.currentScript := c;
             InsertWebsite.isActive := a |}
  | _, _, _, _, _ =>
      throw (ZodError (issue_unless "name" name
                       ++ issue_unless "subdomain" subdomain
                       ++ issue_unless "description" description
                       ++ issue_unless "currentScript" currentScript
                       ++ issue_unless "isActive" isActive))
  end.

Definition quota_message : string :=
  "You can only create one website. Please delete your existing website first.".

Definition json_of_nullable (v : option string) : json :=
  match v with
  | Some s => JStr s
  | None => JNull
  end.

(** ** Website management *)

(** [GET /api/websites] *)
Definition get_websites (userId : string) : M Response :=
  try_catch
    (let* websites := getUserWebsites userId in
     respond 200 (WebsiteList websites))
    (fun error =>
       await console_error ("Error fetching websites: "
                            +:+ error_message error) in
       respond 500 (Message "Failed to fetch websites")).

(** [GET /api/websites/:id] *)
Definition get_website (userId : string) (id : uuid) : M Response :=
  try_catch
    (let* website := getWebsite id in
     match website with
     | None => respond 404 (Message "Website not found")
     | Some website =>
         if negb (String.eqb (Website.userId website) userId)
         then respond 403 (Message "Access denied")
         else respond 200 (WebsiteJson (Some website))
     end)
    (fun error =>
       await console_error ("Error fetching website: "
                            +:+ error_message error) in
       respond 500 (Message "Failed to fetch website")).

(** [POST /api/websites] *)
Definition post_websites (userId : string) (body : gmap string json)
  : M Response :=
  try_catch
    (let* existingWebsites := getUserWebsites userId in
     if Nat.ltb 0 (length existingWebsites)
     then respond 400 (Message quota_message)
     else
       let* validatedData := createWebsiteSchema_parse body userId in
       let* existingWebsite :=
         getWebsiteBySubdomain (InsertWebsite.subdomain validatedData) in
       match existingWebsite with
       | Some _ => respond 400 (Message "Subdomain already taken")
       | None =>
           await createUserWebsiteDir env userId
                   (InsertWebsite.subdomain validatedData) in
           let* website := createWebsite validatedData in
           await createWebsiteLog (Website.id website) "created"
                   {[ "name" := JStr (Website.name website);
                      "subdomain" := JStr (Website.subdomain website) ]} in
           respond 201 (WebsiteJson (Some website))
       end)
    (fun error =>
       match error with
       | ZodError errors => respond 400 (ValidationFailed errors)
       | _ =>
           await console_error ("Error creating website: "
                                +:+ error_message error) in
           respond 500 (Message "Failed to create website")
       end).

(** [PATCH /api/websites/:id] *)
Definition patch_website (userId : string) (id : uuid)
    (body : gmap string json) : M Response :=
  try_catch
    (let* website := getWebsite id in
     match website with
     | None => respond 404 (Message "Website not found")
     | Some website =>
         if negb (String.eqb (Website.userId website) userId)
         then respond 403 (Message "Access denied")
         else
           let updateData := delete "subdomain" (delete "userId" body) in
           let* updatedWebsite := updateWebsite env id updateData in
           await createWebsiteLog (Website.id website) "updated"
                   updateData in
           respond 200 (WebsiteJson updatedWebsite)
     end)
    (fun error =>
       await console_error ("Error updating website: "
                            +:+ error_message error) in
       respond 500 (Message "Failed to update website")).

(** [DELETE /api/websites/:id] *)
Definition delete_website (userId : string) (id : uuid) : M Response :=
  try_catch
    (let* website := getWebsite id in
     match website with
     | None => respond 404 (Message "Website not found")
     | Some website =>
         if negb (String.eqb (Website.userId website) userId)
         then respond 403 (Message "Access denied")
         else
           await deleteWebsiteDir env userId (Website.subdomain website) in
           await deleteWebsite id in
           respond 200 (Message "Website deleted successfully")
     end)
    (fun error =>
       await console_error ("Error deleting website: "
                            +:+ error_message error) in
       respond 500 (Message "Failed to delete website")).

(** [POST /api/websites/:id/change-script] *)
Definition change_script (userId : string) (id : uuid)
    (body : gmap string json) : M Response :=
  try_catch
    (let scriptName := body !! "scriptName" in
     if negb (truthy scriptName)
     then respond 400 (Message "Script name is required")
     else
       let* website := getWebsite id in
       match website with
       | None => respond 404 (Message "Website not found")
       | Some website =>
           if negb (String.eqb (Website.userId website) userId)
           then respond 403 (Message "Access denied")
           else
             let* found := scriptExists env (default JNull scriptName) in
             if negb found
             then respond 404 (Message "Script not found")
             else
               match scriptName with
               | Some (JStr name) =>
                   await extractScript env userId
                           (Website.subdomain website) name in
                   let* updatedWebsite :=
                     updateWebsite env id
                                   {[ "currentScript" := JStr name ]} in
                   await createWebsiteLog (Website.id website)
                           "script_changed"
                           {[ "oldScript" :=
                                json_of_nullable
                                  (Website.currentScript website);
                              "newScript" := JStr name ]} in
                   respond 200
                     (ScriptChanged updatedWebsite
                        (getWebsiteUrl (Website.subdomain website)))
               | _ =>
                   throw (Error "The path argument must be of type string")
               end
       end)
    (fun error =>
       await console_error ("Error changing script: "
                            +:+ error_message error) in
       respond 500 (Message "Failed to change script")).

(** [GET /api/websites/:id/logs] *)
Definition get_website_logs (userId : string) (id : uuid) : M Response :=
  try_catch
    (let* website := getWebsite id in
     match website with
     | None => respond 404 (Message "Website not found")
     | Some website =>
         if negb (String.eqb (Website.userId website) userId)
         then respond 403 (Message "Access denied")
         else
           let* logs := getWebsiteLogs id in
           respond 200 (LogList logs)
     end)
    (fun error =>
       await console_error ("Error fetching website logs: "
                            +:+ error_message error) in
       respond 500 (Message "Failed to fetch website logs")).

(** ** Script template management *)

(** A text field of a multipart body. *)
Definition text_field (v : option json) : M string :=
  match v with
  | Some (JStr s) => ret s
  | _ => throw (Error "invalid input syntax")
  end.

(** [POST /api/scripts/upload], after [upload.single('script')]. *)
Definition upload_script (body : gmap string json)
    (file : option UploadedFile) : M Response :=
  try_catch
    (match file with
     | None => respond 400 (Message "No file uploaded")
     | Some file =>
         if negb (truthy (body !! "name"))
            || negb (truthy (body !! "displayName"))
         then respond 400 (Message "Name and display name are required")
         else
           let* name := text_field (body !! "name") in
           let* displayName := text_field (body !! "displayName") in
           let* existing := getScriptTemplateByName name in
           match existing with
           | Some _ =>
               respond 400 (Message "Script with this name already exists")
           | None =>
               let fileName := name +:+ ".zip" in
               await uploadScript env fileName (buffer file) in
               let* description :=
                 (if truthy (body !! "description")
                  then let* d := text_field (body !! "description") in
                       ret (Some d)
                  else ret None) in
               let* version :=
                 (if truthy (body !! "version")
                  then text_field (body !! "version")
                  else ret "1.0.0") in
               let* template :=
                 createScriptTemplate
                   {| InsertScriptTemplate.name := name;
                      InsertScriptTemplate.displayName := displayName;
                      InsertScriptTemplate.description := description;
                      InsertScriptTemplate.version := version;
                      InsertScriptTemplate.fileName := fileName |} in
               respond 201 (TemplateJson template)
           end
     end)
    (fun error =>
       await console_error ("Error uploading script: "
                            +:+ error_message error) in
       respond 500 (Message "Failed to upload script")).

(** [DELETE /api/scripts/:id] *)
Definition delete_script (id : uuid) : M Response :=
  try_catch
    (let* template := getScriptTemplate id in
     match template with
     | None => respond 404 (Message "Script template not found")
     | Some template =>
         await deleteScript env (ScriptTemplate.fileName template) in
         await deleteScriptTemplate id in
         respond 200 (Message "Script template deleted successfully")
     end)
    (fun error =>
       await console_error ("Error deleting script template: "
                            +:+ error_message error) in
       respond 500 (Message "Failed to delete script template")).

(** ** Middleware and dispatch *)

(** [s.endsWith(suffix)] *)
Definition endsWith (suffix s : string) : bool :=
  let n := String.length s in
  let m := String.length suffix in
  Nat.leb m n && String.eqb (substring (n - m) m s) suffix.

(** The [fileFilter] and the [limits] of the multer instance [upload]. *)
Definition upload_single (file : option UploadedFile) (next : M Response)
  : M Response :=
  match file with
  | None => next
  | Some f =>
      if String.eqb (mimetype f) "application/zip"
         || endsWith ".zip" (originalname f)
      then
        if Nat.ltb (50 * 1024 * 1024) (String.length (buffer f))
        then throw (Error "File too large")
        else next
      else throw (Error "Only ZIP files are allowed")
  end.

(** Modelled from the spec: [isAuthenticated] is imported from the auth
    module, which is not among the sources; the spec treats session
    authentication as an external collaborator.  A request without a
    session user is turned away before the handler runs; otherwise the
    handler reads the user's id from [req.user.id]. *)
Definition isAuthenticated (req : Request) (next : string → M Response)
  : M Response :=
  match user req with
  | Some userId => next userId
  | None => respond 401 (Message "Unauthorized")
  end.

Inductive Route :=
| GetWebsites
| GetWebsite
| PostWebsites
| PatchWebsite
| DeleteWebsite
| ChangeScript
| GetWebsiteLogs
| UploadScript
| DeleteScript.

Definition handle (route : Route) (req : Request) : M Response :=
  isAuthenticated req (fun userId =>
    match route with
    | GetWebsites => get_websites userId
    | GetWebsite => get_website userId (params_id req)
    | PostWebsites => post_websites userId (body req)
    | PatchWebsite => patch_website userId (params_id req) (body req)
    | DeleteWebsite => delete_website userId (params_id req)
    | ChangeScript => change_script userId (params_id req) (body req)
    | GetWebsiteLogs => get_website_logs userId (params_id req)
    | UploadScript =>
        upload_single (file req) (upload_script (body req) (file req))
    | DeleteScript => delete_script (params_id req)
    end).

(** One request served to completion.  An error that no handler caught
    (multer's) reaches the framework's default handler, which answers
    500. *)
Definition serve (w : World) (r : Route * Request) : Response * World :=
  match handle (fst r) (snd r) w with
  | (Returned response, w') => (response, w')
  | (Thrown e, w') =>
      ({| status := 500; payload := Message (error_message e) |}, w')
  end.

(** The server at start-up: empty tables, and the three directories that
    the constructor of [FileManager] makes sure of ([ensureDirectories]
    logs a failure and goes on). *)
Definition ensureDirectories : M unit :=
  try_catch
    (await fs_mkdir (baseDir env) in
     await fs_mkdir (scriptsDir env) in
     fs_mkdir (Path.join (cwd env) ["uploads"; "profiles"]))
    (fun error =>
       console_error ("Failed to create directories: "
                      +:+ error_message error)).

Definition boot (disk : FS.node) : World :=
  snd (ensureDirectories
         {| fs := disk; websites := []; websiteLogs := [];
            scriptTemplates := []; clock := 0; uuids := 0;
            effects := []; console := [] |}).

(** Histories of requests served one at a time, each handler running to
    completion before the next request is taken up.  A history pairs each
    request with the response it got, newest first.  Requests that
    overlap are not histories of this kind; see [Task] below. *)
Inductive execution : list (Route * Request * Response) → World → Prop :=
| exec_boot disk : execution [] (boot disk)
| exec_serve history w r :
    execution history w →
    execution ((r, fst (serve w r)) :: history) (snd (serve w r)).

Definition reachable (w : World) : Prop := ∃ history, execution history w.

(** ** Requests that overlap

    A handler is an [async] function: it runs until its next [await], and
    while the awaited call is under way the event loop runs the other
    handlers.  A [Task] is a handler cut at its awaits: a step runs the
    code up to and including the next awaited call, on the world as it is
    by then. *)
#[local] Unset Elimination Schemes.
Inductive Task (A : Type) : Type :=
| Settled (o : outcome A)
| Pending (step : World → Task A * World).
#[local] Set Elimination Schemes.
Arguments Settled {A} o.
Arguments Pending {A} step.

(** The code [m] from one await to the next, inside a [try] whose handler
    is [catch]: it ends with the task that is left to run, or throws, and
    then the handler, which awaits nothing, settles the request. *)
Definition pending {A} (m : M (Task A)) (catch : exn → M A) : Task A :=
  Pending (fun w =>
             match m w with
             | (Returned t, w') => (t, w')
             | (Thrown e, w') =>
                 match catch e w' with
                 | (o, w'') => (Settled o, w'')
                 end
             end).

(** [return res.status(code).json(p)] *)
Definition answer (code : nat) (p : Payload) : M (Task Response) :=
  ret (Settled (Returned {| status := code; payload := p |})).

(** A task run without another in between. *)
Fixpoint run_task {A} (t : Task A) (w : World) : outcome A * World :=
  match t with
  | Settled o => (o, w)
  | Pending step =>
      match step w with
      | (t', w') => run_task t' w'
      end
  end.

(** [POST /api/websites], cut at its five awaits. *)
Definition post_websites_task (userId : string) (body : gmap string json)
  : Task Response :=
  let catch (error : exn) : M Response :=
    match error with
    | ZodError errors => respond 400 (ValidationFailed errors)
    | _ =>
        await console_error ("Error creating website: "
                             +:+ error_message error) in
        respond 500 (Message "Failed to create website")
    end in
  pending
    (let* existingWebsites := getUserWebsites userId in
     if Nat.ltb 0 (length existingWebsites)
     then answer 400 (Message quota_message)
     else ret (pending
       (let* validatedData := createWebsiteSchema_parse body userId in
        let* existingWebsite :=
          getWebsiteBySubdomain (InsertWebsite.subdomain validatedData) in
        match existingWebsite with
        | Some _ => answer 400 (Message "Subdomain already taken")
        | None => ret (pending
            (await createUserWebsiteDir env userId
                     (InsertWebsite.subdomain validatedData) in
             ret (pending
               (let* website := createWebsite validatedData in
                ret (pending
                  (await createWebsiteLog (Website.id website) "created"
                           {[ "name" := JStr (Website.name website);
                              "subdomain" :=
                                JStr (Website.subdomain website) ]} in
                   answer 201 (WebsiteJson (Some website)))
                  catch))
               catch))
            catch)
        end)
       catch))
    catch.

(** The handlers that are under way, and one turn of the event loop: the
    handler at position [i] runs to its next await. *)
Definition turn (i : nat) (s : list (Task Response) * World)
  : list (Task Response) * World :=
  match fst s !! i with
  | Some (Pending step) =>
      match step (snd s) with
      | (t, w) => (<[i := t]> (fst s), w)
      end
  | _ => s
  end.

Definition interleave (schedule : list nat)
    (s : list (Task Response) * World) : list (Task Response) * World :=
  fold_left (fun s i => turn i s) schedule s.

(** What a handler has answered, once it has. *)
Definition answer_of (t : option (Task Response)) : option Response :=
  match t with
  | Some (Settled (Returned r)) => Some r
  | _ => None
  end.

End Routes.

(* ===================================================================== *)
(** * The error taxonomy of the specification *)
(* ===================================================================== *)

(** The conditions that the specification names, and the response each is
    surfaced as: [InvalidInput], [Conflict] and [QuotaExceeded] are all
    status 400 and differ in their message. *)
Inductive Condition :=
| InvalidInput
| Conflict
| QuotaExceeded
| NotFound
| Forbidden
| Internal.

Definition condition_of (r : Response) : option Condition :=
  match status r with
  | 400 =>
      match payload r with
      | Message m =>
          if String.eqb m quota_message then Some QuotaExceeded
          else if String.eqb m "Subdomain already taken" then Some Conflict
          else if String.eqb m "Script with this name already exists"
          then Some Conflict
          else Some InvalidInput
      | _ => Some InvalidInput
      end
  | 403 => Some Forbidden
  | 404 => Some NotFound
  | 500 => Some Internal
  | _ => None
  end.

(* ===================================================================== *)
(** * Histories: what counts as a mutating operation on a website *)
(* ===================================================================== *)

Local Open Scope nat_scope.

(** A response in the 2xx range. *)
Definition succeeded (r : Response) : bool :=
  Nat.leb 200 (status r) && Nat.ltb (status r) 300.

(** Is the exchange a successful create, update or script change of the
    website with key [i]?  A create names its website in the response, the
    other two in the URL. *)
Definition mutates (i : uuid) (e : Route * Request * Response) : bool :=
  let '(route, req, resp) := e in
  succeeded resp
  && match route with
     | PostWebsites =>
         match payload resp with
         | WebsiteJson (Some x) => Nat.eqb (Website.id x) i
         | _ => false
         end
     | PatchWebsite | ChangeScript => Nat.eqb (params_id req) i
     | _ => false
     end.

Definition mutations (i : uuid) (history : list (Route * Request * Response))
  : nat :=
  length (List.filter (mutates i) history).

(** The audit entries of a website, in the order they were written. *)
Definition entries_of (i : uuid) (w : World) : list WebsiteLog.t :=
  List.filter (log_of i) (websiteLogs w).

(** A step that leaves the two tables [websites] and [website_logs] as
    they were; keys and time only move forward. *)
Definition quiet (w w' : World) : Prop :=
  websites w' = websites w ∧ websiteLogs w' = websiteLogs w
  ∧ (uuids w ≤ uuids w')%nat ∧ (clock w ≤ clock w')%nat.

Definition keeps_quiet {A} (m : M A) : Prop :=
  ∀ w r w', m w = (r, w') → quiet w w'.

(** What holds of the database after any history of requests served one
    at a time: keys are drawn from the supply and are distinct, every
    audit entry belongs to a website that exists and every website has an
    entry, entries were written at increasing times, nobody owns two
    websites, and every website has one entry per mutating operation
    served on it. *)
Definition consistent (history : list (Route * Request * Response))
    (w : World) : Prop :=
  (∀ x, In x (websites w) → Website.id x < uuids w)
  ∧ NoDup (map Website.id (websites w))
  ∧ (∀ l, In l (websiteLogs w) →
          existsb (has_id (WebsiteLog.websiteId l)) (websites w) = true)
  ∧ (∀ x, In x (websites w) →
          existsb (log_of (Website.id x)) (websiteLogs w) = true)
  ∧ (∀ l, In l (websiteLogs w) → WebsiteLog.createdAt l < clock w)
  ∧ StronglySorted
      (fun a b => WebsiteLog.createdAt a < WebsiteLog.createdAt b)
      (websiteLogs w)
  ∧ (∀ u, length (List.filter (owned_by u) (websites w)) ≤ 1)
  ∧ (∀ x, In x (websites w) →
          length (entries_of (Website.id x) w)
          = mutations (Website.id x) history)
  ∧ (∀ i, uuids w ≤ i → mutations i history = 0).

(** Two rows that are the same website: key, owner and subdomain agree. *)
Definition same_identity (x y : Website.t) : Prop :=
  Website.id y = Website.id x
  ∧ Website.userId y = Website.userId x
  ∧ Website.subdomain y = Website.subdomain x.

(** What one served request does to the two tables: nothing, or one of
    the three writes of the workflow. *)
Inductive db_step (w : World) (route : Route) (req : Request)
    (resp : Response) (w' : World) : Prop :=
| step_quiet :
    quiet w w' →
    (∀ i, mutates i (route, req, resp) = false) →
    db_step w route req resp w'
| step_created (x : Website.t) (l : WebsiteLog.t) :
    route = PostWebsites →
    resp = {| status := 201; payload := WebsiteJson (Some x) |} →
    user req = Some (Website.userId x) →
    List.filter (owned_by (Website.userId x)) (websites w) = [] →
    Website.id x = uuids w →
    websites w' = websites w ++ [x] →
    websiteLogs w' = websiteLogs w ++ [l] →
    WebsiteLog.websiteId l = uuids w →
    WebsiteLog.createdAt l = S (clock w) →
    uuids w' = S (S (uuids w)) →
    clock w' = S (S (clock w)) →
    db_step w route req resp w'
| step_updated (l : WebsiteLog.t) :
    route = PatchWebsite ∨ route = ChangeScript →
    status resp = 200 →
    Forall2 same_identity (websites w) (websites w') →
    existsb (has_id (params_id req)) (websites w) = true →
    websiteLogs w' = websiteLogs w ++ [l] →
    WebsiteLog.websiteId l = params_id req →
    WebsiteLog.createdAt l = S (clock w) →
    uuids w' = S (uuids w) →
    clock w' = S (S (clock w)) →
    db_step w route req resp w'
| step_deleted :
    route = DeleteWebsite →
    status resp = 200 →
    websites w'
    = List.filter (fun x => negb (has_id (params_id req) x)) (websites w) →
    websiteLogs w'
    = List.filter (fun l => negb (log_of (params_id req) l))
                  (websiteLogs w) →
    uuids w' = uuids w →
    clock w' = clock w →
    db_step w route req resp w'.

(* ===================================================================== *)
(** * A small deployment to run the model on *)
(* ===================================================================== *)

Module Example.

(** An unzip that knows three kinds of archive: a sound one with two
    files, one that breaks off after its first file, and anything else,
    which is no archive at all. *)
Definition toy_unzip (data : string) : UnzipRun :=
  if String.eqb data "PK-basic" then
    {| written := [(["index.html"], "<h1>hello</h1>");
                   (["css"; "site.css"], "body{}")];
       exit_code := 0;
       stderr := "" |}
  else if String.eqb data "PK-truncated" then
    {| written := [(["index.html"], "<h1>hello</h1>")];
       exit_code := 3;
       stderr := "error: invalid compressed data to inflate" |}
  else
    {| written := [];
       exit_code := 9;
       stderr := "End-of-central-directory signature not found" |}.

(** An unzip that finds no archive when the path is no readable file. *)
Definition toy_nowhere (scriptPath : string) (root : FS.node) : UnzipRun :=
  {| written := [];
     exit_code := 9;
     stderr := "unzip:  cannot find or open " +:+ scriptPath |}.

(** A shell that gives up on every command line it is asked to make
    sense of. *)
Definition toy_sh (command : string) (root : FS.node) : ShellRun :=
  {| fs_after := root; sh_status := 2; sh_stderr := "sh: 1: Syntax error" |}.

(** A driver that prints numbers in decimal and booleans as words, and a
    database that reads a few words as booleans. *)
Definition toy_text (v : json) : string :=
  match v with
  | JNum n => pretty n
  | JBool true => "true"
  | JBool false => "false"
  | JStr s => s
  | _ => "{}"
  end.

Definition toy_boolean (s : string) : option bool :=
  if String.eqb s "true" || String.eqb s "t" || String.eqb s "1"
  then Some true
  else if String.eqb s "false" || String.eqb s "f" || String.eqb s "0"
  then Some false
  else None.

Definition env : Env :=
  {| cwd := ["srv"; "app"];
     unzip := toy_unzip;
     unzip_nowhere := toy_nowhere;
     sh := toy_sh;
     pg_text := toy_text;
     pg_boolean := toy_boolean |}.

Definition alice_site : Website.t :=
  {| Website.id := 0;
     Website.userId := "alice";
     Website.name := "Alice Site";
     Website.subdomain := "alice-site";
     Website.description := None;
     Website.currentScript := None;
     Website.isActive := Some true;
     Website.createdAt := Some 0;
     Website.updatedAt := 0 |}.

Definition created_log : WebsiteLog.t :=
  {| WebsiteLog.id := 1;
     WebsiteLog.websiteId := 0;
     WebsiteLog.action := "created";
     WebsiteLog.details := {[ "name" := JStr "Alice Site";
                              "subdomain" := JStr "alice-site" ]};
     WebsiteLog.createdAt := 1 |}.

Definition basic_template : ScriptTemplate.t :=
  {| ScriptTemplate.id := 2;
     ScriptTemplate.name := "basic";
     ScriptTemplate.displayName := "Basic";
     ScriptTemplate.description := None;
     ScriptTemplate.version := Some "1.0.0";
     ScriptTemplate.fileName := "basic.zip";
     ScriptTemplate.isActive := Some true;
     ScriptTemplate.createdAt := 2;
     ScriptTemplate.updatedAt := 2 |}.

(** [/srv/app] with the store holding [basic.zip] and [broken.zip], an
    archive [outside.zip] next to the store, and Alice's subtree holding
    a page of its own. *)
Definition disk : FS.node :=
  FS.Dir {[ "srv" := FS.Dir {[ "app" := FS.Dir
    {[ "allscripts" :=
         FS.Dir {[ "basic.zip" := FS.File "PK-basic";
                   "broken.zip" := FS.File "PK-truncated";
                   "notes.txt" := FS.File "not an archive" ]};
       "outside.zip" := FS.File "PK-basic";
       "user_websites" :=
         FS.Dir {[ "alice" := FS.Dir {[ "alice-site" :=
           FS.Dir {[ "old.html" := FS.File "<p>old</p>" ]} ]} ]} ]} ]} ]}.

(** Alice has created her website; the template [basic] was uploaded. *)
Definition world : World :=
  {| fs := disk;
     websites := [alice_site];
     websiteLogs := [created_log];
     scriptTemplates := [basic_template];
     clock := 3;
     uuids := 3;
     effects := [];
     console := [] |}.

(** A fresh installation on an empty disk. *)
Definition fresh : World := boot env (FS.Dir ∅).

Definition script_body (scriptName : string) : gmap string json :=
  {[ "scriptName" := JStr scriptName ]}.

Definition site_body (name subdomain : string) : gmap string json :=
  {[ "name" := JStr name; "subdomain" := JStr subdomain ]}.

Definition request (who : string) (id : uuid) (body : gmap string json)
  : Request :=
  {| user := Some who; params_id := id; body := body; file := None |}.

(** What validation makes of Alice's body. *)
Definition alice_data : InsertWebsite.t :=
  {| InsertWebsite.userId := "alice";
     InsertWebsite.name := "Alice Site";
     InsertWebsite.subdomain := "alice-site";
     InsertWebsite.description := None;
     InsertWebsite.currentScript := None;
     InsertWebsite.isActive := None |}.

(** Alice creates her website on the fresh installation. *)
Definition alice_creates : Route * Request :=
  (PostWebsites, request "alice" 0 (site_body "Alice Site" "alice-site")).

Definition after_create : World := snd (serve env fresh alice_creates).

(** A body that also names another owner and another subdomain. *)
Definition takeover_body : gmap string json :=
  {[ "name" := JStr "Renamed";
     "userId" := JStr "mallory";
     "subdomain" := JStr "mallory-site" ]}.

End Example.

(* ===================================================================== *)
(** * Names that are a single path segment *)
(* ===================================================================== *)

(** No character of [s] is the separator. *)
Definition no_sep (s : string) : bool :=
  forallb (fun c => negb (Path.is_sep c)) (list_ascii_of_string s).

(** A name that [path.join] appends as it is: no separator in it, and it
    is not empty, [.] or [..]. *)
Definition plain_segment (s : string) : bool :=
  no_sep s && negb (String.eqb s "") && negb (String.eqb s ".")
  && negb (String.eqb s "..").

(** The subdomains held by the table [websites]: each matches the pattern
    of the create schema, and no two rows share one. *)
Definition subdomains_sound (w : World) : Prop :=
  Forall (fun s => subdomain_pattern s = true)
         (map Website.subdomain (websites w))
  ∧ NoDup (map Website.subdomain (websites w)).



(* ===================================================================== *)
(** * Listing the template store: [GET /api/scripts] *)
(* ===================================================================== *)

(** A row of the answer, [{ ...template, fileExists }]: the template's
    columns and whether an archive of its file name is in the store. *)
Record ScriptWithFile := {
  template : ScriptTemplate.t;
  fileExists : bool
}.

Inductive ScriptsPayload :=
| ScriptList (rows : list ScriptWithFile)
| ScriptsMessage (message : string).

Section Scripts.

Variable env : Env.

(** The order of the database's collation on text: [collation a b] when
    [a] sorts no later than [b]. *)
Variable collation : string → string → bool.

Import Path.
Local Open Scope server_scope.

(** [FileManager.getAvailableScripts] *)
Definition getAvailableScripts : M (list string) :=
  try_catch
    (let* files := fs_readdir (scriptsDir env) in
     ret (List.filter (endsWith ".zip") files))
    (fun error =>
       await console_error ("Failed to read scripts directory: "
                            +:+ error_message error) in
       ret []).

(** The archives that [getAvailableScripts] reports when it has read the
    store. *)
Definition available (w : World) : list string :=
  match FS.readdir (fs w) (scriptsDir env) with
  | Some names => List.filter (endsWith ".zip") names
  | None => []
  end.

(** [eq(scriptTemplates.isActive, true)]: a row whose [isActive] is
    [null] does not pass. *)
Definition is_active (t : ScriptTemplate.t) : bool :=
  match ScriptTemplate.isActive t with
  | Some b => b
  | None => false
  end.

(** [DatabaseStorage.getScriptTemplates] *)
Definition getScriptTemplates : M (list ScriptTemplate.t) :=
  gets (fun w =>
          order_asc (fun a b => collation (ScriptTemplate.displayName a)
                                          (ScriptTemplate.displayName b))
                    (List.filter is_active (scriptTemplates w))).

(** [GET /api/scripts], after [isAuthenticated]: the status and the body
    of the answer; [res.json] answers 200. *)
Definition get_scripts : M (nat * ScriptsPayload) :=
  try_catch
    (let* templates := getScriptTemplates in
     let* availableScripts := getAvailableScripts in
     let scriptsWithFiles :=
       map (fun template =>
              {| template := template;
                 fileExists :=
                   existsb (String.eqb (ScriptTemplate.fileName template))
                           availableScripts |})
           templates in
     ret (200, ScriptList scriptsWithFiles))
    (fun error =>
       await console_error ("Error fetching scripts: "
                            +:+ error_message error) in
       ret (500, ScriptsMessage "Failed to fetch scripts")).

(** ** Profile pictures *)

Definition profilesDir : path := join (cwd env) ["uploads"; "profiles"].

(** [FileManager.saveProfilePicture] *)
Definition saveProfilePicture (userId fileName : string) (buffer : string)
  : M path :=
  let filePath := join profilesDir [fileName] in
  await fs_writeFile filePath buffer in
  ret filePath.

(** [FileManager.getProfilePicturePath] *)
Definition getProfilePicturePath (fileName : string) : path :=
  join profilesDir [fileName].

End Scripts.

(** The fields of a multipart form, as multer leaves them in [req.body],
    are text. *)
Definition multipart (body : gmap string json) : Prop :=
  ∀ k v, body !! k = Some v → ∃ s, v = JStr s.

(** The file name that [POST /api/profile-picture] makes up for an upload,
    [profile-<userId>-<Date.now()>.<subtype>]: [now] is the reading of
    [Date.now()], and the subtype is [mimetype.split('/')[1]], which a MIME
    type without a separator does not have; the template literal then
    prints [undefined]. *)
Definition profile_picture_name (userId : string) (now : N)
    (mimetype : string) : string :=
  "profile-" +:+ userId +:+ "-" +:+ pretty now +:+ "."
  +:+ match Path.split mimetype with
      | _ :: subtype :: _ => subtype
      | _ => "undefined"
      end.

(* ===================================================================== *)
(** * The create dialog of the home page *)
(* ===================================================================== *)

Module CreateWebsiteDialog.

Section Dialog.

(** [String.prototype.toLowerCase] and [String.prototype.trim] of the
    browser. *)
Variable toLowerCase : string → string.
Variable trim : string → string.

(** [s.replace(/[^a-z0-9-]/g, '')] *)
Definition strip (s : string) : string :=
  string_of_list_ascii (List.filter subdomain_char (list_ascii_of_string s)).

(** [onChange] of the subdomain input: what the field holds after the
    user's text [value] was entered. *)
Definition onSubdomainChange (value : string) : string :=
  strip (toLowerCase value).

(** [handleSubmit]: the body that is posted to [/api/websites], or none
    when the form refuses to submit. *)
Definition handleSubmit (name subdomain description : string)
  : option (gmap string json) :=
  if String.eqb (trim name) "" || String.eqb (trim subdomain) ""
  then None
  else Some {[ "name" := JStr name;
               "subdomain" := JStr subdomain;
               "description" := JStr description ]}.

End Dialog.

End CreateWebsiteDialog.

(* ===================================================================== *)
(** * Running the server on a list of requests *)
(* ===================================================================== *)

(** The requests served one after the other from start-up on [disk]: the
    history, newest first, and the world reached. *)
Definition serve_all (env : Env) (disk : FS.node)
    (requests : list (Route * Request))
  : list (Route * Request * Response) * World :=
  fold_left
    (fun s r =>
       ((r, fst (serve env (snd s) r)) :: fst s, snd (serve env (snd s) r)))
    requests ([], boot env disk).

Module Demo.

(** Bob creates a website of his own, the template [basic] is uploaded,
    and Bob applies it. *)
Definition bob_creates : Route * Request :=
  (PostWebsites,
   Example.request "bob" 0 (Example.site_body "Bob Site" "bob-site")).

Definition basic_upload : UploadedFile :=
  {| originalname := "basic.zip";
     mimetype := "application/zip";
     buffer := "PK-basic" |}.

Definition upload_body (name displayName : string) : gmap string json :=
  {[ "name" := JStr name; "displayName" := JStr displayName ]}.

Definition uploads_basic : Route * Request :=
  (UploadScript,
   {| user := Some "alice"; params_id := 0;
      body := upload_body "basic" "Basic";
      file := Some basic_upload |}).

Definition bob_applies : Route * Request :=
  (ChangeScript, Example.request "bob" 2 (Example.script_body "basic.zip")).

Definition requests : list (Route * Request) :=
  [Example.alice_creates; bob_creates; uploads_basic; bob_applies].

(** Two tenants, each with a website; Bob's holds the files of [basic]. *)
Definition two_tenants : World :=
  snd (serve_all Example.env (FS.Dir ∅) requests).

Definition bob_site : Website.t :=
  {| Website.id := 2;
     Website.userId := "bob";
     Website.name := "Bob Site";
     Website.subdomain := "bob-site";
     Website.description := None;
     Website.currentScript := Some "basic.zip";
     Website.isActive := Some true;
     Website.createdAt := Some 2;
     Website.updatedAt := 5 |}.

(** Alice applies [basic.zip] to her website, or renames it with a body
    that also names another owner and subdomain. *)
Definition alice_applies : Route * Request :=
  (ChangeScript,
   Example.request "alice" 0 (Example.script_body "basic.zip")).

Definition applied : Response * World :=
  serve Example.env Example.world alice_applies.

Definition alice_patches : Route * Request :=
  (PatchWebsite, Example.request "alice" 0 Example.takeover_body).

Definition patched : Response * World :=
  serve Example.env Example.world alice_patches.

(** A subdomain of 256 characters: the create schema accepts it, and it
    is too long for the name of a directory. *)
Definition long_subdomain : string :=
  string_of_list_ascii (repeat "a"%char 256).

Definition long_data : InsertWebsite.t :=
  {| InsertWebsite.userId := "alice";
     InsertWebsite.name := "Long";
     InsertWebsite.subdomain := long_subdomain;
     InsertWebsite.description := None;
     InsertWebsite.currentScript := None;
     InsertWebsite.isActive := None |}.

(** Alice deletes her website, and Bob then asks for its subdomain. *)
Definition alice_deletes : Route * Request :=
  (DeleteWebsite, Example.request "alice" 0 ∅).

Definition bob_takes : Route * Request :=
  (PostWebsites,
   Example.request "bob" 0 (Example.site_body "Bob Site" "alice-site")).

Definition handed_over : list (Route * Request * Response) * World :=
  serve_all Example.env (FS.Dir ∅)
            [Example.alice_creates; alice_deletes; bob_takes].

(** Alice's website through a create, a rename to a number, two updates
    that are refused (a date for [createdAt], another key for [id]), an
    upload and a script change. *)
Definition alice_renames : Route * Request :=
  (PatchWebsite, Example.request "alice" 0 {[ "name" := JNum 5 ]}).

Definition renamed : Response * World :=
  serve Example.env Example.world alice_renames.

Definition alice_redates : Route * Request :=
  (PatchWebsite,
   Example.request "alice" 0 {[ "createdAt" := JStr "2024-01-01" ]}).

Definition alice_rekeys : Route * Request :=
  (PatchWebsite, Example.request "alice" 0 {[ "id" := JStr "z" ]}).

Definition busy : list (Route * Request * Response) * World :=
  serve_all Example.env (FS.Dir ∅)
            [Example.alice_creates; alice_renames; alice_redates;
             alice_rekeys; uploads_basic; alice_applies].

(** Two creates by Alice that overlap: the event loop runs the two
    handlers in turn, each up to its next await. *)
Definition two_posts : list (Task Response) * World :=
  ([post_websites_task Example.env "alice" (Example.site_body "One" "one");
    post_websites_task Example.env "alice" (Example.site_body "Two" "two")],
   Example.fresh).

Definition overlapped : list (Task Response) * World :=
  interleave [0; 1; 0; 1; 0; 1; 0; 1; 0; 1] two_posts.

(** A browser whose text is plain ASCII. *)
Definition lower (c : ascii) : ascii :=
  let n := nat_of_ascii c in
  if Nat.leb 65 n && Nat.leb n 90 then ascii_of_nat (n + 32) else c.

Definition toLowerCase (s : string) : string :=
  string_of_list_ascii (map lower (list_ascii_of_string s)).

Fixpoint trimStart (s : string) : string :=
  match s with
  | String c rest => if Ascii.eqb c " " then trimStart rest else s
  | EmptyString => EmptyString
  end.

Definition trim (s : string) : string :=
  String.rev (trimStart (String.rev (trimStart s))).

End Demo.

(* ===================================================================== *)
(** * Facts about the filesystem *)
(* ===================================================================== *)

Module FSFacts.
Import Path FS.

Lemma lookup_alter_path f p : ∀ n,
  lookup_path p (alter_path f p n) = f <$> lookup_path p n.
Proof.
  induction p as [| s p IH]; intros n; [reflexivity |].
  destruct n as [data | es]; [reflexivity |].
  cbn [alter_path lookup_path]. rewrite lookup_alter_eq.
  destruct (es !! s) as [c |]; cbn; [apply IH | reflexivity].
Qed.

Lemma alter_path_compose f g p : ∀ n,
  alter_path g p (alter_path f p n) = alter_path (g ∘ f) p n.
Proof.
  induction p as [| s p IH]; intros n; [reflexivity |].
  destruct n as [data | es]; [reflexivity |].
  cbn [alter_path]. f_equal.
  rewrite alter_alter_eq. apply alter_ext. intros c _. apply IH.
Qed.

Lemma alter_path_ext f g p : ∀ n c,
  lookup_path p n = Some c → f c = g c →
  alter_path f p n = alter_path g p n.
Proof.
  induction p as [| s p IH]; intros n c Hl Hfg.
  - cbn in *. congruence.
  - destruct n as [data | es]; [reflexivity |].
    cbn [alter_path lookup_path] in *. f_equal.
    apply alter_ext. intros c' Hc'. rewrite Hc' in Hl. eauto.
Qed.

Lemma alter_path_unresolved f p : ∀ n,
  lookup_path p n = None → alter_path f p n = n.
Proof.
  induction p as [| s p IH]; intros n Hl; [discriminate |].
  destruct n as [data | es]; [reflexivity |].
  cbn [alter_path lookup_path] in *. f_equal.
  apply alter_id. intros c Hc. rewrite Hc in Hl. auto.
Qed.

Lemma alter_path_id p : ∀ n, alter_path (fun c => c) p n = n.
Proof.
  induction p as [| s p IH]; intros n; [reflexivity |].
  destruct n as [data | es]; [reflexivity |].
  cbn [alter_path]. f_equal.
  apply alter_id. intros c _. apply IH.
Qed.

(** Removing an entry of a directory is a change local to that
    directory. *)
Lemma rm_rf_entry s dir : ∀ n es,
  lookup_path dir n = Some (Dir es) →
  rm_rf (join_entry dir s) n = alter_path (remove_entry s) dir n.
Proof.
  unfold join_entry.
  induction dir as [| a dir IH]; intros n es Hl.
  - cbn in Hl. injection Hl as ->. reflexivity.
  - destruct n as [data | es0]; [discriminate |].
    cbn [lookup_path] in Hl.
    destruct (es0 !! a) as [c |] eqn:Ha; [| discriminate].
    change ((a :: dir) ++ [s]) with (a :: (dir ++ [s])).
    cbn [alter_path].
    assert (rm_rf (a :: dir ++ [s]) (Dir es0)
            = Dir (alter (rm_rf (dir ++ [s])) a es0)) as ->.
    { destruct dir; reflexivity. }
    f_equal. apply alter_ext. intros c' Hc'.
    rewrite Ha in Hc'. injection Hc' as <-. eapply IH, Hl.
Qed.

Lemma delete_all_lookup (keys : list string) : ∀ (m : gmap string node) k,
  fold_left (fun acc s => delete s acc) keys m !! k
  = if decide (k ∈ keys) then None else m !! k.
Proof.
  induction keys as [| s keys IH]; intros m k.
  - cbn. case_decide as H; [by apply elem_of_nil in H | done].
  - cbn [fold_left]. rewrite IH.
    destruct (decide (k ∈ keys)) as [Hin | Hnin].
    + rewrite decide_True; [done | by right].
    + destruct (decide (k = s)) as [-> | Hne].
      * rewrite lookup_delete_eq. rewrite decide_True; [done | by left].
      * rewrite lookup_delete_ne by done.
        rewrite decide_False; [done |].
        intros Hin. apply elem_of_cons in Hin. tauto.
Qed.

Lemma delete_all_entries (es : gmap string node) :
  fold_left (fun acc s => delete s acc) (map fst (map_to_list es)) es = ∅.
Proof.
  apply map_eq. intros k. rewrite delete_all_lookup, lookup_empty.
  case_decide as Hin; [done |].
  destruct (es !! k) as [c |] eqn:Hk; [| done].
  exfalso. apply Hin.
  apply list_elem_of_In, in_map_iff. exists (k, c). split; [done |].
  by apply list_elem_of_In, elem_of_map_to_list.
Qed.

(** Removing the entries of a directory one by one empties it. *)
Lemma rm_rf_all_entries dir n es :
  lookup_path dir n = Some (Dir es) →
  fold_left (fun acc s => rm_rf (join_entry dir s) acc)
            (map fst (map_to_list es)) n
  = cleared dir n.
Proof.
  intros Hl.
  assert (∀ keys n0 es0,
            lookup_path dir n0 = Some (Dir es0) →
            fold_left (fun acc s => rm_rf (join_entry dir s) acc) keys n0
            = alter_path
                (fun c => match c with
                          | Dir m =>
                              Dir (fold_left (fun acc s => delete s acc)
                                             keys m)
                          | File _ => c
                          end) dir n0) as Hfold.
  { induction keys as [| s keys IH]; intros n0 es0 H0.
    - cbn [fold_left]. rewrite <- (alter_path_id dir n0) at 1.
      eapply alter_path_ext; [exact H0 | reflexivity].
    - cbn [fold_left]. rewrite (rm_rf_entry s dir n0 es0 H0).
      erewrite IH.
      2:{ rewrite lookup_alter_path, H0. reflexivity. }
      rewrite alter_path_compose.
      eapply alter_path_ext; [exact H0 | reflexivity]. }
  rewrite (Hfold _ _ _ Hl). unfold cleared.
  eapply alter_path_ext; [exact Hl |].
  cbn. by rewrite delete_all_entries.
Qed.

Lemma lookup_cleared_dir dir n es :
  lookup_path dir n = Some (Dir es) →
  lookup_path dir (cleared dir n) = Some empty_dir.
Proof.
  intros Hl. unfold cleared. by rewrite lookup_alter_path, Hl.
Qed.

(** [mkdir -p] leaves a directory at the path. *)
Lemma mkdir_p_lookup p : ∀ n n',
  mkdir_p p n = Some n' → ∃ es, lookup_path p n' = Some (Dir es).
Proof.
  induction p as [| s p IH]; intros n n' Hm.
  - destruct n as [data | es]; [discriminate |].
    injection Hm as <-. by exists es.
  - destruct n as [data | es]; [discriminate |].
    cbn [mkdir_p] in Hm.
    destruct (es !! s) as [c |].
    + destruct (mkdir_p p c) as [c' |] eqn:Hc; [| discriminate].
      injection Hm as <-. cbn [lookup_path]. rewrite lookup_insert_eq.
      eapply IH, Hc.
    + destruct (name_fits s); [| discriminate].
      destruct (mkdir_p p empty_dir) as [c' |] eqn:Hc; [| discriminate].
      injection Hm as <-. cbn [lookup_path]. rewrite lookup_insert_eq.
      eapply IH, Hc.
Qed.

(** [mkdir -p] of a directory that exists changes nothing. *)
Lemma mkdir_p_existing p : ∀ n es,
  lookup_path p n = Some (Dir es) → mkdir_p p n = Some n.
Proof.
  induction p as [| s p IH]; intros n es Hl.
  - cbn in Hl. injection Hl as ->. reflexivity.
  - destruct n as [data | es0]; [discriminate |].
    cbn [lookup_path] in Hl. cbn [mkdir_p].
    destruct (es0 !! s) as [c |] eqn:Hs; [| discriminate].
    rewrite (IH _ _ Hl). by rewrite insert_id.
Qed.

(** When [mkdir -p] succeeds, the tree it leaves is the one it made. *)
Lemma mkdir_p_left_made p : ∀ n n',
  mkdir_p p n = Some n' → mkdir_p_left p n = n'.
Proof.
  induction p as [| s p IH]; intros n n' Hm.
  - destruct n as [data | es]; [discriminate |]. by injection Hm as <-.
  - destruct n as [data | es]; [discriminate |].
    cbn [mkdir_p mkdir_p_left] in *.
    destruct (es !! s) as [c |].
    + destruct (mkdir_p p c) as [c' |] eqn:Hc; [| discriminate].
      injection Hm as <-. by rewrite (IH _ _ Hc).
    + destruct (name_fits s); [| discriminate].
      destruct (mkdir_p p empty_dir) as [c' |] eqn:Hc; [| discriminate].
      injection Hm as <-. by rewrite (IH _ _ Hc).
Qed.

(** Whether it succeeds or not, [mkdir -p] neither makes, changes nor
    removes a regular file. *)
Lemma mkdir_p_left_file p : ∀ q n data,
  lookup_path q (mkdir_p_left p n) = Some (File data)
  ↔ lookup_path q n = Some (File data).
Proof.
  induction p as [| s p IH]; intros q n data.
  - by destruct n.
  - destruct n as [d | es]; [done |].
    cbn [mkdir_p_left].
    destruct q as [| b q].
    { by destruct (es !! s); [| destruct (name_fits s)]. }
    destruct (es !! s) as [c |] eqn:Hs.
    + cbn [lookup_path].
      destruct (decide (s = b)) as [-> | Hne].
      * rewrite lookup_insert_eq, Hs. apply IH.
      * by rewrite lookup_insert_ne.
    + destruct (name_fits s); [| done].
      cbn [lookup_path].
      destruct (decide (s = b)) as [-> | Hne].
      * rewrite lookup_insert_eq, Hs. rewrite IH.
        destruct q; cbn; [done |]. by rewrite lookup_empty.
      * by rewrite lookup_insert_ne.
Qed.

(** A directory that was there stays one. *)
Lemma mkdir_p_left_dir p : ∀ q n es,
  lookup_path q n = Some (Dir es) →
  ∃ es', lookup_path q (mkdir_p_left p n) = Some (Dir es').
Proof.
  induction p as [| s p IH]; intros q n es Hq.
  - destruct n; eauto.
  - destruct n as [d | es0]; [eauto |].
    cbn [mkdir_p_left].
    destruct q as [| b q].
    { destruct (es0 !! s); [| destruct (name_fits s)]; cbn; eauto. }
    cbn [lookup_path] in Hq.
    destruct (es0 !! b) as [c |] eqn:Hb; [| discriminate].
    destruct (es0 !! s) as [c0 |] eqn:Hs.
    + cbn [lookup_path].
      destruct (decide (s = b)) as [-> | Hne].
      * rewrite lookup_insert_eq.
        assert (c0 = c) as -> by congruence. eapply IH, Hq.
      * rewrite lookup_insert_ne by done. rewrite Hb. eauto.
    + destruct (name_fits s).
      * cbn [lookup_path].
        destruct (decide (s = b)) as [-> | Hne]; [congruence |].
        rewrite lookup_insert_ne by done. rewrite Hb. eauto.
      * cbn [lookup_path]. rewrite Hb. eauto.
Qed.

(** A regular file is not below an empty directory, nor is it one. *)
Lemma file_outside_empty_dir dir : ∀ q n data,
  lookup_path dir n = Some empty_dir →
  lookup_path q n = Some (File data) →
  ¬ inside dir q.
Proof.
  unfold inside.
  induction dir as [| a dir IH]; intros q n data Hd Hq Hpre.
  - cbn in Hd. injection Hd as ->.
    destruct q as [| b q]; [discriminate |].
    cbn in Hq. by rewrite lookup_empty in Hq.
  - destruct Hpre as [rest ->].
    destruct n as [data0 | es]; [discriminate |].
    cbn [lookup_path app] in *.
    change ((a :: dir) ++ rest) with (a :: (dir ++ rest)) in Hq.
    cbn [lookup_path] in Hq.
    destruct (es !! a) as [c |]; [| discriminate].
    eapply IH; [exact Hd | exact Hq | by exists rest].
Qed.


(** What was removed no longer resolves. *)
Lemma rm_rf_lookup p : ∀ n, p ≠ [] → lookup_path p (rm_rf p n) = None.
Proof.
  induction p as [| s p IH]; intros n Hp; [done |].
  destruct n as [data | es]; [by destruct p |].
  destruct p as [| s' p].
  - cbn. by rewrite lookup_delete_eq.
  - cbn [rm_rf lookup_path]. rewrite lookup_alter_eq.
    destruct (es !! s) as [c |]; cbn [fmap option_fmap option_map];
      [| reflexivity].
    by apply IH.
Qed.

Lemma unlink_gone root p root' :
  unlink root p = Some root' → read_file root' p false = None.
Proof.
  unfold unlink, read_file.
  destruct p as [| s p]; [discriminate |].
  destruct (lookup_path (s :: p) root) as [[data | es] |]; try discriminate.
  intros Heq.
  assert (root' = rm_rf (s :: p) root) as -> by congruence.
  by rewrite rm_rf_lookup.
Qed.

Lemma unlink_refused root p :
  unlink root p = None → p ≠ [] → read_file root p false = None.
Proof.
  unfold unlink, read_file. intros Hu Hp.
  destruct p as [| s p]; [done |].
  by destruct (lookup_path (s :: p) root) as [[data | es] |].
Qed.





End FSFacts.

(** ** Names and paths *)

Module PathFacts.
Import Path.

Lemma split_no_sep s : no_sep s = true → split s = [s].
Proof.
  induction s as [| c s IH]; [reflexivity |].
  unfold no_sep. cbn [list_ascii_of_string forallb].
  intros [Hc Hs]%andb_true_iff. apply negb_true_iff in Hc.
  cbn [split]. rewrite Hc, (IH Hs). reflexivity.
Qed.

Lemma push_segment_plain kept s :
  plain_segment s = true → push_segment kept s = s :: kept.
Proof.
  unfold plain_segment, push_segment.
  intros [[[_ H1]%andb_true_iff H2]%andb_true_iff H3]%andb_true_iff.
  apply negb_true_iff in H1, H2, H3. by rewrite H1, H2, H3.
Qed.

Lemma plain_segment_no_sep s : plain_segment s = true → no_sep s = true.
Proof.
  unfold plain_segment.
  by intros [[[H _]%andb_true_iff _]%andb_true_iff _]%andb_true_iff.
Qed.

(** Joining plain names appends them. *)
Lemma join_plain base names :
  Forall (fun s => plain_segment s = true) names →
  join base names = base ++ names.
Proof.
  unfold join. revert base.
  induction names as [| s names IH]; intros base Hall.
  - cbn. by rewrite rev_involutive, app_nil_r.
  - inversion Hall as [| ? ? Hs Hrest]; subst.
    cbn [flat_map]. rewrite (split_no_sep s (plain_segment_no_sep s Hs)).
    cbn [app fold_left]. rewrite (push_segment_plain _ _ Hs).
    change (s :: rev base) with ([s] ++ rev base).
    replace ([s] ++ rev base) with (rev (base ++ [s]))
      by (rewrite rev_app_distr; reflexivity).
    rewrite (IH (base ++ [s]) Hrest). by rewrite <- app_assoc.
Qed.

Lemma last_char_no_sep s : no_sep s = true → trailing_sep s = false.
Proof.
  unfold trailing_sep.
  induction s as [| c s IH]; [reflexivity |].
  unfold no_sep. cbn [list_ascii_of_string forallb].
  intros [Hc Hs]%andb_true_iff. apply negb_true_iff in Hc.
  destruct s as [| c' s']; [exact Hc |].
  exact (IH Hs).
Qed.

Lemma subdomain_char_not_sep c : subdomain_char c = true → is_sep c = false.
Proof.
  unfold is_sep. destruct (Ascii.eqb_spec c "/"%char) as [-> |]; [| done].
  vm_compute. discriminate.
Qed.

Lemma subdomain_pattern_no_sep s :
  subdomain_pattern s = true → no_sep s = true.
Proof.
  unfold subdomain_pattern, no_sep. intros [_ H]%andb_true_iff.
  rewrite forallb_forall in *. intros c Hc.
  by rewrite (subdomain_char_not_sep c (H c Hc)).
Qed.

Lemma subdomain_pattern_plain s :
  subdomain_pattern s = true → plain_segment s = true.
Proof.
  intros H. unfold plain_segment.
  rewrite (subdomain_pattern_no_sep s H).
  unfold subdomain_pattern in H. apply andb_true_iff in H as [Hne Hall].
  rewrite Hne. cbn [andb].
  destruct s as [| c s]; [done |].
  cbn [list_ascii_of_string forallb] in Hall.
  apply andb_true_iff in Hall as [Hc _].
  destruct (String.eqb_spec (String c s) ".") as [[= -> ->] |];
    [vm_compute in Hc; discriminate |].
  destruct (String.eqb_spec (String c s) "..") as [[= -> ->] |];
    [vm_compute in Hc; discriminate |].
  reflexivity.
Qed.

End PathFacts.

Module NameFacts.
Import Path.

Lemma length_append s t :
  String.length (s +:+ t) = String.length s + String.length t.
Proof.
  induction s as [| c s IH]; [reflexivity |].
  change (S (String.length (s +:+ t))
          = S (String.length s + String.length t)).
  by rewrite IH.
Qed.

Lemma substring_all s : substring 0 (String.length s) s = s.
Proof. induction s as [| c s IH]; simpl; congruence. Qed.

Lemma substring_append s t :
  substring (String.length s) (String.length t) (s +:+ t) = t.
Proof.
  induction s as [| c s IH]; [apply substring_all |].
  change (substring (String.length s) (String.length t) (s +:+ t) = t).
  exact IH.
Qed.

Lemma endsWith_append suffix s : endsWith suffix (s +:+ suffix) = true.
Proof.
  unfold endsWith. cbv zeta. rewrite length_append.
  replace (String.length s + String.length suffix - String.length suffix)
    with (String.length s) by lia.
  rewrite substring_append, String.eqb_refl, andb_true_r.
  apply Nat.leb_le. lia.
Qed.

Lemma endsWith_length suffix s :
  endsWith suffix s = true → String.length suffix ≤ String.length s.
Proof.
  unfold endsWith. intros [H _]%andb_true_iff. by apply Nat.leb_le.
Qed.

Lemma last_char_append s c t :
  Path.last_char (s +:+ String c t) = Path.last_char (String c t).
Proof.
  induction s as [| a s IH]; [reflexivity |].
  rewrite <- IH.
  change (Path.last_char (String a (s +:+ String c t))
          = Path.last_char (s +:+ String c t)).
  cbn [Path.last_char]. by destruct s.
Qed.

Lemma no_sep_append s t : no_sep (s +:+ t) = no_sep s && no_sep t.
Proof.
  unfold no_sep. induction s as [| c s IH]; [reflexivity |].
  change (negb (Path.is_sep c)
          && forallb (fun c => negb (Path.is_sep c))
                     (list_ascii_of_string (s +:+ t))
          = negb (Path.is_sep c)
            && forallb (fun c => negb (Path.is_sep c))
                       (list_ascii_of_string s)
            && forallb (fun c => negb (Path.is_sep c))
                       (list_ascii_of_string t)).
  by rewrite IH, andb_assoc.
Qed.

Lemma split_components_no_sep s :
  Forall (fun seg => no_sep seg = true) (split s).
Proof.
  induction s as [| c s IH]; [by repeat constructor |].
  cbn [split]. destruct (is_sep c) eqn:Hc.
  - constructor; [reflexivity | exact IH].
  - destruct (split s) as [| seg rest].
    + constructor; [| constructor]. unfold no_sep. cbn. by rewrite Hc.
    + inversion IH; subst. constructor; [| done].
      unfold no_sep in *. cbn. by rewrite Hc.
Qed.

Lemma pretty_N_char_no_sep x : is_sep (pretty_N_char x) = false.
Proof. unfold pretty_N_char. by repeat case_match. Qed.

Lemma pretty_N_go_no_sep x : ∀ s,
  no_sep s = true → no_sep (pretty_N_go x s) = true.
Proof.
  induction (N.lt_wf_0 x) as [x _ IH]; intros s Hs.
  destruct (decide (x = 0)%N) as [-> | Hx].
  - by rewrite pretty_N_go_0.
  - rewrite pretty_N_go_step by lia. apply IH.
    + apply N.div_lt; lia.
    + unfold no_sep in *. cbn [list_ascii_of_string forallb].
      by rewrite pretty_N_char_no_sep, Hs.
Qed.

Lemma pretty_N_no_sep (x : N) : no_sep (pretty x) = true.
Proof.
  unfold pretty, pretty_N. destruct (decide (x = 0)%N); [reflexivity |].
  by apply pretty_N_go_no_sep.
Qed.

(** [a/s] splits into [a] and the components of [s]. *)
Lemma split_segment a : ∀ s,
  no_sep a = true → split (a +:+ "/" +:+ s) = a :: split s.
Proof.
  induction a as [| c a IH]; intros s Ha; [reflexivity |].
  unfold no_sep in Ha. cbn [list_ascii_of_string forallb] in Ha.
  apply andb_true_iff in Ha as [Hc%negb_true_iff Ha].
  change (split (String c (a +:+ "/" +:+ s)) = String c a :: split s).
  cbn [split]. rewrite Hc, (IH s Ha). reflexivity.
Qed.

End NameFacts.

Module FSFrame.
Import Path FS.

(** [mkdir -p] leaves every regular file where it is. *)
Lemma mkdir_p_file p n n' q data :
  mkdir_p p n = Some n' →
  lookup_path q n = Some (File data) →
  lookup_path q n' = Some (File data).
Proof.
  intros Hmk Hq. rewrite <- (FSFacts.mkdir_p_left_made _ _ _ Hmk).
  by apply FSFacts.mkdir_p_left_file.
Qed.


Lemma lookup_path_app p : ∀ q n,
  lookup_path (p ++ q) n = lookup_path p n ≫= lookup_path q.
Proof.
  induction p as [| s p IH]; intros q n; [reflexivity |].
  destruct n as [d | es]; [reflexivity |].
  cbn [app lookup_path]. destruct (es !! s); [apply IH | reflexivity].
Qed.

Lemma split_last_app p parent s :
  split_last p = Some (parent, s) → p = parent ++ [s].
Proof.
  unfold split_last. destruct (rev p) as [| x r] eqn:Hr; [discriminate |].
  intros [= <- <-]. rewrite <- (rev_involutive p), Hr. reflexivity.
Qed.

(** What [writeFile] wrote can be read back. *)
Lemma write_file_read root p data root' :
  write_file root p data = Some root' →
  read_file root' p false = Some data.
Proof.
  unfold write_file, read_file.
  destruct (split_last p) as [[parent s] |] eqn:Hsplit; [| discriminate].
  apply split_last_app in Hsplit as ->.
  destruct (lookup_path parent root) as [[d | es] |] eqn:Hparent;
    try discriminate.
  intros Hw.
  assert (root' = alter_path (put_file s data) parent root) as ->.
  { destruct (es !! s) as [[] |]; [| | destruct (name_fits s)];
      congruence. }
  rewrite lookup_path_app, FSFacts.lookup_alter_path, Hparent. cbn.
  unfold put_file. destruct (es !! s) as [[d | es'] |] eqn:Hs;
    try discriminate; cbn; by rewrite lookup_insert_eq.
Qed.

(** [writeFile] leaves every other regular file as it is. *)
Lemma write_file_other root p data root' q d :
  write_file root p data = Some root' →
  q ≠ p →
  lookup_path q root = Some (File d) →
  lookup_path q root' = Some (File d).
Proof.
  unfold write_file.
  destruct (split_last p) as [[parent s] |] eqn:Hsplit; [| discriminate].
  apply split_last_app in Hsplit as ->.
  destruct (lookup_path parent root) as [[d0 | es] |] eqn:Hparent;
    try discriminate.
  intros Hw Hne Hq.
  assert (root' = alter_path (put_file s data) parent root) as ->.
  { destruct (es !! s) as [[] |]; [| | destruct (name_fits s)];
      congruence. }
  clear Hw.
  revert root q es Hparent Hne Hq.
  induction parent as [| t parent IH]; intros root q es Hparent Hne Hq.
  - cbn in Hparent. injection Hparent as ->.
    cbn [alter_path]. unfold put_file.
    destruct q as [| a q]; [discriminate |].
    cbn [lookup_path] in Hq.
    destruct (decide (a = s)) as [-> | Has].
    + destruct (es !! s) as [[d1 | es1] |] eqn:Hs; try discriminate.
      * destruct q; [| discriminate]. by destruct Hne.
      * cbn [lookup_path]. by rewrite Hs.
    + destruct (es !! s) as [[d1 | es1] |] eqn:Hs;
        cbn [lookup_path]; rewrite ?lookup_insert_ne by done; done.
  - destruct root as [d0 | es0]; [discriminate |].
    cbn [lookup_path] in Hparent.
    destruct (es0 !! t) as [c |] eqn:Ht; [| discriminate].
    cbn [alter_path app].
    destruct q as [| a q]; [discriminate |].
    cbn [lookup_path] in Hq |- *.
    destruct (decide (a = t)) as [-> | Hat].
    + rewrite lookup_alter_eq, Ht in *. cbn.
      eapply IH; eauto. intros ->. by apply Hne.
    + by rewrite lookup_alter_ne.
Qed.

(** [mkdir -p] leaves every directory a directory. *)
Lemma mkdir_p_dir p n n' q es :
  mkdir_p p n = Some n' →
  lookup_path q n = Some (Dir es) →
  ∃ es', lookup_path q n' = Some (Dir es').
Proof.
  intros Hmk Hq. rewrite <- (FSFacts.mkdir_p_left_made _ _ _ Hmk).
  eapply FSFacts.mkdir_p_left_dir, Hq.
Qed.

(** Outside [dir], a directory stays a directory under [alter_path]. *)
Lemma alter_path_dir_kept f dir : ∀ q n es,
  ¬ inside dir q →
  lookup_path q n = Some (Dir es) →
  ∃ es', lookup_path q (alter_path f dir n) = Some (Dir es').
Proof.
  induction dir as [| s dir IH]; intros q n es Hout Hq.
  - exfalso. apply Hout. apply prefix_nil.
  - destruct n as [d | es0]; [cbn; eauto |].
    cbn [alter_path].
    destruct q as [| t q]; [cbn; eauto |].
    cbn [lookup_path] in *.
    destruct (decide (t = s)) as [-> | Hne].
    + rewrite lookup_alter_eq.
      destruct (es0 !! s) as [c |]; [| discriminate]. cbn.
      eapply IH; [| exact Hq]. intros Hin. apply Hout. by apply prefix_cons.
    + rewrite lookup_alter_ne by done. eauto.
Qed.

End FSFrame.

(* ===================================================================== *)
(** * Properties *)
(* ===================================================================== *)

(** ** Calls that do not touch the websites and their logs *)

Lemma quiet_refl w : quiet w w.
Proof. by repeat split. Qed.

Lemma quiet_trans w1 w2 w3 : quiet w1 w2 → quiet w2 w3 → quiet w1 w3.
Proof.
  intros (? & ? & ? & ?) (? & ? & ? & ?).
  repeat split; try congruence; lia.
Qed.

Lemma keeps_quiet_ret {A} (a : A) : keeps_quiet (ret a).
Proof. intros w r w' [= <- <-]. apply quiet_refl. Qed.

Lemma keeps_quiet_throw {A} e : keeps_quiet (@throw A e).
Proof. intros w r w' [= <- <-]. apply quiet_refl. Qed.

Lemma keeps_quiet_gets {A} (f : World → A) : keeps_quiet (gets f).
Proof. intros w r w' [= <- <-]. apply quiet_refl. Qed.

Lemma keeps_quiet_bind {A B} (m : M A) (k : A → M B) :
  keeps_quiet m → (∀ a, keeps_quiet (k a)) → keeps_quiet (bind m k).
Proof.
  intros Hm Hk w r w'. unfold bind.
  destruct (m w) as [[a | e] w1] eqn:Hmw.
  - intros Hka. eapply quiet_trans; [eapply Hm, Hmw | eapply Hk, Hka].
  - intros [= <- <-]. eapply Hm, Hmw.
Qed.

Lemma keeps_quiet_try_catch {A} (m : M A) (h : exn → M A) :
  keeps_quiet m → (∀ e, keeps_quiet (h e)) → keeps_quiet (try_catch m h).
Proof.
  intros Hm Hh w r w'. unfold try_catch.
  destruct (m w) as [[a | e] w1] eqn:Hmw.
  - intros [= <- <-]. eapply Hm, Hmw.
  - intros Hhe. eapply quiet_trans; [eapply Hm, Hmw | eapply Hh, Hhe].
Qed.

Lemma keeps_quiet_modify (f : World → World) :
  (∀ w, quiet w (f w)) → keeps_quiet (modify f).
Proof. intros Hf w r w' [= <- <-]. apply Hf. Qed.

Lemma keeps_quiet_console_log text : keeps_quiet (console_log text).
Proof. apply keeps_quiet_modify. intros w. by repeat split. Qed.

Lemma keeps_quiet_console_error text : keeps_quiet (console_error text).
Proof. apply keeps_quiet_modify. intros w. by repeat split. Qed.

Lemma keeps_quiet_perform e : keeps_quiet (perform e).
Proof. apply keeps_quiet_modify. intros w. by repeat split. Qed.

Lemma keeps_quiet_respond code p : keeps_quiet (respond code p).
Proof. apply keeps_quiet_ret. Qed.

Lemma keeps_quiet_now : keeps_quiet now.
Proof. intros w r w' [= <- <-]. repeat split; cbn; lia. Qed.

Lemma keeps_quiet_gen_random_uuid : keeps_quiet gen_random_uuid.
Proof. intros w r w' [= <- <-]. repeat split; cbn; lia. Qed.

Lemma keeps_quiet_fs_mkdir p : keeps_quiet (fs_mkdir p).
Proof.
  intros w r w'. unfold fs_mkdir. destruct (FS.mkdir_p p (fs w));
    intros [= <- <-]; by repeat split.
Qed.

Lemma keeps_quiet_fs_unlink p : keeps_quiet (fs_unlink p).
Proof.
  intros w r w'. unfold fs_unlink. destruct (FS.unlink (fs w) p);
    intros [= <- <-]; by repeat split.
Qed.

Lemma keeps_quiet_fs_writeFile p data : keeps_quiet (fs_writeFile p data).
Proof.
  intros w r w'. unfold fs_writeFile. destruct (FS.write_file (fs w) p data);
    intros [= <- <-]; by repeat split.
Qed.

Lemma keeps_quiet_fs_rm p : keeps_quiet (fs_rm p).
Proof. intros w r w' [= <- <-]. by repeat split. Qed.

(** Apply the rule for the construct at the head of the computation. *)
Ltac quiet_step :=
  first
    [ apply keeps_quiet_bind; [| intros ?]
    | apply keeps_quiet_try_catch; [| intros ?]
    | apply keeps_quiet_ret
    | apply keeps_quiet_respond
    | apply keeps_quiet_throw
    | apply keeps_quiet_gets
    | apply keeps_quiet_console_log
    | apply keeps_quiet_console_error
    | apply keeps_quiet_perform
    | apply keeps_quiet_now
    | apply keeps_quiet_gen_random_uuid
    | apply keeps_quiet_fs_mkdir
    | apply keeps_quiet_fs_unlink
    | apply keeps_quiet_fs_writeFile
    | apply keeps_quiet_fs_rm
    | apply keeps_quiet_modify; intros ?; by repeat split
    | case_match ].

Ltac quiet_tac := repeat quiet_step.

Lemma keeps_quiet_get_websites userId : keeps_quiet (get_websites userId).
Proof. unfold get_websites, getUserWebsites. quiet_tac. Qed.

Lemma keeps_quiet_get_website userId id : keeps_quiet (get_website userId id).
Proof. unfold get_website, getWebsite. quiet_tac. Qed.

Lemma keeps_quiet_get_website_logs userId id :
  keeps_quiet (get_website_logs userId id).
Proof. unfold get_website_logs, getWebsite, getWebsiteLogs. quiet_tac. Qed.

Lemma keeps_quiet_text_field v : keeps_quiet (text_field v).
Proof. unfold text_field. quiet_tac. Qed.

Lemma keeps_quiet_upload_script env body file :
  keeps_quiet (upload_script env body file).
Proof.
  unfold upload_script, getScriptTemplateByName, uploadScript,
    createScriptTemplate.
  quiet_tac; apply keeps_quiet_text_field.
Qed.

Lemma keeps_quiet_delete_script env id : keeps_quiet (delete_script env id).
Proof.
  unfold delete_script, getScriptTemplate, deleteScript,
    deleteScriptTemplate.
  quiet_tac.
Qed.

(** Read a field off a world written with the [with_] updates. *)
Ltac world_simpl :=
  cbn beta iota delta
    [fs websites websiteLogs scriptTemplates clock uuids effects console
     with_fs with_websites with_websiteLogs with_scriptTemplates
     with_clock with_uuids with_effects with_console].

Section Properties.

Variable env : Env.

Import Path.

(** ** Running the storage calls *)

Lemma insert_desc_length {A} (key : A → nat) x l :
  length (insert_desc key x l) = S (length l).
Proof.
  induction l as [| y l IH]; [reflexivity |].
  cbn [insert_desc]. destruct (Nat.ltb (key y) (key x)); cbn; congruence.
Qed.

Lemma order_desc_length {A} (key : A → nat) l :
  length (order_desc key l) = length l.
Proof.
  unfold order_desc.
  induction l as [| x l IH]; [reflexivity |].
  cbn [fold_right]. rewrite insert_desc_length. cbn. congruence.
Qed.

Lemma insert_asc_length {A} (le : A → A → bool) x l :
  length (insert_asc le x l) = S (length l).
Proof.
  induction l as [| y l IH]; [reflexivity |].
  cbn [insert_asc]. destruct (le x y); cbn; congruence.
Qed.

Lemma order_asc_length {A} (le : A → A → bool) l :
  length (order_asc le l) = length l.
Proof.
  unfold order_asc.
  induction l as [| x l IH]; [reflexivity |].
  cbn [fold_right]. rewrite insert_asc_length. cbn. congruence.
Qed.

Lemma getUserWebsites_run userId w :
  getUserWebsites userId w
  = (Returned (order_asc created_desc
                 (List.filter (owned_by userId) (websites w))), w).
Proof. reflexivity. Qed.

Lemma getWebsiteBySubdomain_run subdomain w :
  getWebsiteBySubdomain subdomain w
  = (Returned (head (List.filter (has_subdomain subdomain) (websites w))), w).
Proof. reflexivity. Qed.

Lemma head_filter_existsb {A} (f : A → bool) l :
  existsb f l = true ↔ ∃ x, head (List.filter f l) = Some x.
Proof.
  induction l as [| y l IH]; cbn.
  - split; [discriminate | intros [x Hx]; discriminate].
  - destruct (f y) eqn:Hy; cbn; [split; eauto |]. exact IH.
Qed.

Lemma head_filter_In {A} (f : A → bool) l x :
  head (List.filter f l) = Some x → In x l ∧ f x = true.
Proof.
  intros H.
  assert (In x (List.filter f l)) as Hin.
  { destruct (List.filter f l); [discriminate |].
    injection H as ->. by left. }
  by apply filter_In in Hin.
Qed.

(** The new row's world: the table grown by one row, a key and a clock
    reading consumed. *)
Lemma createWebsite_run v w :
  existsb (has_subdomain (InsertWebsite.subdomain v)) (websites w) = false →
  createWebsite v w
  = (Returned (website_row v (uuids w) (clock w)),
     with_effects (effects w ++ [DbInsertWebsite (uuids w)])
       (with_websites (websites w ++ [website_row v (uuids w) (clock w)])
          (with_clock (S (clock w)) (with_uuids (S (uuids w)) w)))).
Proof.
  intros Hfree. unfold createWebsite, bind, gets. rewrite Hfree.
  destruct w. reflexivity.
Qed.

Lemma createWebsiteLog_run websiteId action details w :
  existsb (has_id websiteId) (websites w) = true →
  createWebsiteLog websiteId action details w
  = (Returned {| WebsiteLog.id := uuids w;
                 WebsiteLog.websiteId := websiteId;
                 WebsiteLog.action := action;
                 WebsiteLog.details := details;
                 WebsiteLog.createdAt := clock w |},
     with_effects (effects w ++ [DbInsertLog websiteId action])
       (with_websiteLogs
          (websiteLogs w
           ++ [{| WebsiteLog.id := uuids w;
                  WebsiteLog.websiteId := websiteId;
                  WebsiteLog.action := action;
                  WebsiteLog.details := details;
                  WebsiteLog.createdAt := clock w |}])
          (with_clock (S (clock w)) (with_uuids (S (uuids w)) w)))).
Proof.
  intros Hfk. unfold createWebsiteLog, bind, gets. rewrite Hfk.
  destruct w. reflexivity.
Qed.

Lemma map_option_Forall2 {A B} (f : A → option B) l : ∀ l',
  map_option f l = Some l' → Forall2 (fun x y => f x = Some y) l l'.
Proof.
  induction l as [| x l IH]; intros l' H; cbn in H.
  - injection H as <-. constructor.
  - destruct (f x) as [y |] eqn:Hx; [| discriminate].
    destruct (map_option f l) as [ys |]; [| discriminate].
    injection H as <-. constructor; [exact Hx | by apply IH].
Qed.

Lemma map_option_total {A B} (f : A → option B) (g : A → B) l :
  (∀ x, f x = Some (g x)) → map_option f l = Some (map g l).
Proof.
  intros Hfg. induction l as [| x l IH]; [reflexivity |].
  cbn. by rewrite Hfg, IH.
Qed.

(** What [updateWebsite] leaves behind, whether it returns or throws. *)
Lemma updateWebsite_inv id updates w r w' :
  updateWebsite env id updates w = (r, w') →
  fs w' = fs w ∧ websiteLogs w' = websiteLogs w
  ∧ scriptTemplates w' = scriptTemplates w ∧ uuids w' = uuids w
  ∧ clock w' = S (clock w) ∧ console w' = console w
  ∧ match r with
    | Returned x =>
        map_option (update_row env id updates (clock w)) (websites w)
        = Some (websites w')
        ∧ x = head (returning env id updates (clock w) (websites w))
        ∧ (is_Some (updates !! "id") →
           key_constraints id (websites w) (websites w') (websiteLogs w)
           = true)
        ∧ effects w' = effects w ++ [DbUpdateWebsite id]
    | Thrown _ => websites w' = websites w ∧ effects w' = effects w
    end.
Proof.
  unfold updateWebsite, bind, now, gets.
  cbn [websites websiteLogs with_clock clock].
  destruct (map_option (update_row env id updates (clock w)) (websites w))
    as [rows' |] eqn:Hrows.
  - destruct (negb match updates !! "subdomain" with
                   | Some _ => distinct (map Website.subdomain rows')
                   | None => true
                   end).
    { intros [= <- <-]. destruct w. cbn in *. by repeat split. }
    destruct (updates !! "id") as [v |] eqn:Hid.
    + destruct (key_constraints id (websites w) rows' (websiteLogs w))
        eqn:Hkey; cbn [negb].
      * intros [= <- <-]. destruct w. cbn in *. by repeat split.
      * intros [= <- <-]. destruct w. cbn in *. by repeat split.
    + cbn [negb]. intros [= <- <-]. destruct w. cbn in *.
      repeat split; try done.
  - intros [= <- <-]. destruct w. cbn in *. by repeat split.
Qed.

Lemma updateWebsite_refused id updates w :
  map_option (update_row env id updates (clock w)) (websites w) = None →
  ∃ e, updateWebsite env id updates w
       = (Thrown e, with_clock (S (clock w)) w).
Proof.
  intros Hrows. unfold updateWebsite, bind, now, gets.
  cbn [websites with_clock clock]. rewrite Hrows. eauto.
Qed.

(** Setting [currentScript] alone keeps every other column and cannot
    fail. *)
Lemma set_columns_script name t x :
  set_columns env {[ "currentScript" := JStr name ]} t x
  = Some {| Website.id := Website.id x;
            Website.userId := Website.userId x;
            Website.name := Website.name x;
            Website.subdomain := Website.subdomain x;
            Website.description := Website.description x;
            Website.currentScript := Some name;
            Website.isActive := Website.isActive x;
            Website.createdAt := Website.createdAt x;
            Website.updatedAt := t |}.
Proof.
  unfold set_columns.
  rewrite !lookup_singleton_ne by discriminate.
  rewrite lookup_singleton_eq. reflexivity.
Qed.

Lemma update_row_script id name t x :
  update_row env id {[ "currentScript" := JStr name ]} t x
  = Some (with_script id name t x).
Proof.
  unfold update_row, with_script. destruct (has_id id x); [| reflexivity].
  apply set_columns_script.
Qed.

Lemma returning_script id name t rows :
  returning env id {[ "currentScript" := JStr name ]} t rows
  = List.filter (has_id id) (map (with_script id name t) rows).
Proof.
  unfold returning.
  induction rows as [| x rows IH]; [reflexivity |].
  cbn [omap list_omap map List.filter]. fold (@omap list _).
  destruct (has_id id x) eqn:Hx.
  - rewrite set_columns_script.
    assert (has_id id (with_script id name t x) = true) as ->.
    { unfold with_script. rewrite Hx. exact Hx. }
    unfold with_script at 1. rewrite Hx. f_equal. exact IH.
  - assert (with_script id name t x = x) as ->.
    { unfold with_script. by rewrite Hx. }
    rewrite Hx. exact IH.
Qed.

Lemma updateWebsite_script id name w :
  updateWebsite env id {[ "currentScript" := JStr name ]} w
  = (Returned (head (List.filter (has_id id)
                       (map (with_script id name (clock w)) (websites w)))),
     with_effects (effects w ++ [DbUpdateWebsite id])
       (with_websites (map (with_script id name (clock w)) (websites w))
          (with_clock (S (clock w)) w))).
Proof.
  unfold updateWebsite, bind, now, gets.
  cbn [websites websiteLogs with_clock clock].
  rewrite (map_option_total _ (with_script id name (clock w)))
    by apply update_row_script.
  rewrite !lookup_singleton_ne by discriminate.
  rewrite returning_script.
  destruct w. reflexivity.
Qed.

Lemma with_script_identity id name t x :
  Website.id (with_script id name t x) = Website.id x
  ∧ Website.userId (with_script id name t x) = Website.userId x
  ∧ Website.subdomain (with_script id name t x) = Website.subdomain x.
Proof. unfold with_script. by destruct (has_id id x). Qed.

Lemma head_filter_with_script id name t rows site :
  head (List.filter (has_id id) rows) = Some site →
  head (List.filter (has_id id) (map (with_script id name t) rows))
  = Some (with_script id name t site).
Proof.
  induction rows as [| x rows IH]; [discriminate |].
  cbn [List.filter map].
  assert (has_id id (with_script id name t x) = has_id id x) as ->.
  { unfold has_id. by rewrite (proj1 (with_script_identity id name t x)). }
  destruct (has_id id x); cbn; [congruence | exact IH].
Qed.

Lemma getWebsite_run id w :
  getWebsite id w
  = (Returned (head (List.filter (has_id id) (websites w))), w).
Proof. reflexivity. Qed.

Lemma scriptExists_run name w :
  scriptExists env (JStr name) w
  = (Returned (FS.access (fs w) (scriptPathOf env name) (trailing_sep name)),
     w).
Proof.
  unfold scriptExists, try_catch, bind, fs_access.
  destruct (FS.access _ _ _); reflexivity.
Qed.

(** ** Running [POST /api/websites] *)

(** Validation reads nothing but the body and changes nothing. *)
Lemma createWebsiteSchema_parse_cases body userId w :
  (∃ v, createWebsiteSchema_parse body userId w = (Returned v, w)
        ∧ InsertWebsite.userId v = userId
        ∧ body !! "name" = Some (JStr (InsertWebsite.name v))
        ∧ InsertWebsite.name v ≠ ""
        ∧ body !! "subdomain" = Some (JStr (InsertWebsite.subdomain v))
        ∧ subdomain_pattern (InsertWebsite.subdomain v) = true)
  ∨ (∃ issues,
       createWebsiteSchema_parse body userId w = (Thrown (ZodError issues), w)
       ∧ issues ≠ []).
Proof.
  unfold createWebsiteSchema_parse.
  destruct (body !! "name") as [[| | | n | |] |] eqn:Hn; cbn [zod_string_min1];
    try (right; eexists; split; [reflexivity | discriminate]).
  destruct (String.eqb n "") eqn:Hne;
    [right; eexists; split; [reflexivity | discriminate] |].
  destruct (body !! "subdomain") as [[| | | s | |] |] eqn:Hs;
    cbn [zod_string_min1];
    try (right; eexists; split; [reflexivity | discriminate]).
  destruct (String.eqb s "") eqn:Hse;
    [right; eexists; split; [reflexivity | discriminate] |].
  destruct (subdomain_pattern s) eqn:Hpat;
    [| right; eexists; split; [reflexivity | discriminate]].
  destruct (zod_optional_text (body !! "description")) as [d |];
    [| right; eexists; split; [reflexivity | discriminate]].
  destruct (zod_optional_text (body !! "currentScript")) as [c |];
    [| right; eexists; split; [reflexivity | discriminate]].
  destruct (zod_optional_bool (body !! "isActive")) as [a |];
    [| right; eexists; split; [reflexivity | discriminate]].
  left. eexists. split; [reflexivity |]. cbn.
  apply String.eqb_neq in Hne. by repeat split.
Qed.

Lemma createWebsiteSchema_parse_world body userId w w0 :
  fst (createWebsiteSchema_parse body userId w)
  = fst (createWebsiteSchema_parse body userId w0)
  ∧ snd (createWebsiteSchema_parse body userId w) = w.
Proof.
  unfold createWebsiteSchema_parse.
  by repeat case_match.
Qed.

(** [POST /api/websites], case by case in the order of the handler's
    checks. *)
Lemma post_websites_run userId body w :
  match List.filter (owned_by userId) (websites w) with
  | _ :: _ =>
      post_websites env userId body w
      = (Returned {| status := 400; payload := Message quota_message |}, w)
  | [] =>
      match createWebsiteSchema_parse body userId w with
      | (Thrown (ZodError issues), _) =>
          post_websites env userId body w
          = (Returned {| status := 400;
                         payload := ValidationFailed issues |}, w)
      | (Thrown (Error _), _) => False
      | (Returned v, _) =>
          match head (List.filter
                        (has_subdomain (InsertWebsite.subdomain v))
                        (websites w)) with
          | Some _ =>
              post_websites env userId body w
              = (Returned {| status := 400;
                             payload := Message "Subdomain already taken" |},
                 w)
          | None =>
              let dir :=
                getUserWebsiteDir env userId (InsertWebsite.subdomain v) in
              match FS.mkdir_p dir (fs w) with
              | None =>
                  ∃ line,
                    post_websites env userId body w
                    = (Returned {| status := 500;
                                   payload :=
                                     Message "Failed to create website" |},
                       with_console (console w ++ [ConsoleError line])
                         (with_fs (FS.mkdir_p_left dir (fs w)) w))
              | Some made =>
                  post_websites env userId body w
                  = (Returned
                       {| status := 201;
                          payload :=
                            WebsiteJson
                              (Some (website_row v (uuids w) (clock w))) |},
                     {| fs := made;
                        websites :=
                          websites w
                          ++ [website_row v (uuids w) (clock w)];
                        websiteLogs :=
                          websiteLogs w
                          ++ [{| WebsiteLog.id := S (uuids w);
                                 WebsiteLog.websiteId := uuids w;
                                 WebsiteLog.action := "created";
                                 WebsiteLog.details :=
                                   {[ "name" := JStr (InsertWebsite.name v);
                                      "subdomain" :=
                                        JStr (InsertWebsite.subdomain v) ]};
                                 WebsiteLog.createdAt := S (clock w) |}];
                        scriptTemplates := scriptTemplates w;
                        clock := S (S (clock w));
                        uuids := S (S (uuids w));
                        effects :=
                          effects w
                          ++ [FsMkdir dir; DbInsertWebsite (uuids w);
                              DbInsertLog (uuids w) "created"];
                        console := console w |})
              end
          end
      end
  end.
Proof.
  unfold post_websites, try_catch, bind.
  rewrite getUserWebsites_run.
  destruct (List.filter (owned_by userId) (websites w)) as [| x0 owned]
    eqn:Howned.
  2:{ assert (Nat.ltb 0 (length (order_asc created_desc (x0 :: owned)))
              = true) as ->; [| reflexivity].
      rewrite order_asc_length. reflexivity. }
  cbn [order_asc fold_right length Nat.ltb Nat.leb].
  destruct (createWebsiteSchema_parse_cases body userId w)
    as [(v & Hv & _) | (issues & Hissues & _)].
  2:{ rewrite Hissues. reflexivity. }
  rewrite Hv, getWebsiteBySubdomain_run.
  destruct (head (List.filter (has_subdomain (InsertWebsite.subdomain v))
                              (websites w))) as [taken |] eqn:Htaken;
    [reflexivity |].
  assert (existsb (has_subdomain (InsertWebsite.subdomain v)) (websites w)
          = false) as Hfree.
  { destruct (existsb _ _) eqn:He; [| reflexivity].
    apply head_filter_existsb in He as [y Hy]. congruence. }
  cbn zeta. unfold createUserWebsiteDir, bind, fs_mkdir.
  destruct (FS.mkdir_p _ (fs w)) as [made |] eqn:Hmk.
  - cbn [ret]. rewrite createWebsite_run by exact Hfree.
    rewrite createWebsiteLog_run.
    2:{ cbn [websites with_effects with_websites].
        rewrite existsb_app. cbn [existsb]. unfold has_id at 2.
        cbn [Website.id website_row].
        rewrite Nat.eqb_refl. by rewrite orb_true_r. }
    destruct w. cbn. by rewrite <- !app_assoc.
  - eexists. reflexivity.
Qed.

(** ** Running the file manager *)

Lemma for_each_rm dir items : ∀ w,
  for_each items (fun item => fs_rm (join_entry dir item)) w
  = (Returned tt,
     with_effects
       (effects w ++ map (fun item => FsRm (join_entry dir item)) items)
       (with_fs (fold_left (fun acc s => FS.rm_rf (join_entry dir s) acc)
                           items (fs w)) w)).
Proof.
  induction items as [| item items IH]; intros w.
  - destruct w. cbn. by rewrite app_nil_r.
  - cbn [for_each]. unfold bind. unfold fs_rm at 1.
    rewrite IH. destruct w. cbn. by rewrite <- app_assoc.
Qed.

Lemma clearWebsiteDir_run userId subdomain w es :
  FS.lookup_path (getUserWebsiteDir env userId subdomain) (fs w)
  = Some (FS.Dir es) →
  ∃ removed,
    clearWebsiteDir env userId subdomain w
    = (Returned tt,
       with_effects (effects w ++ removed)
         (with_fs (FS.cleared (getUserWebsiteDir env userId subdomain)
                              (fs w)) w)).
Proof.
  intros Hdir. eexists.
  unfold clearWebsiteDir, try_catch, bind, fs_readdir, FS.readdir.
  rewrite Hdir, for_each_rm. cbn [fs with_fs with_effects].
  by rewrite (FSFacts.rm_rf_all_entries _ _ _ Hdir).
Qed.

(** The shell step on a command line that is taken word for word: what
    unzip writes, it writes into the directory. *)
Lemma extract_run_confined userId subdomain name root es :
  plain_command env userId subdomain name = true →
  FS.lookup_path (getUserWebsiteDir env userId subdomain) root
  = Some (FS.Dir es) →
  extract_run env userId subdomain name root
  = {| fs_after :=
         FS.alter_path
           (FS.extract
              (written (unzip_at env root (scriptPathOf env name)
                                 (trailing_sep name))))
           (getUserWebsiteDir env userId subdomain) root;
       sh_status :=
         exit_code (unzip_at env root (scriptPathOf env name)
                             (trailing_sep name));
       sh_stderr :=
         stderr (unzip_at env root (scriptPathOf env name)
                          (trailing_sep name)) |}.
Proof.
  intros Hplain Hdir. unfold extract_run, shell_run.
  unfold plain_command in Hplain. by rewrite Hplain, Hdir.
Qed.

Lemma extract_run_plain userId subdomain name root es data :
  plain_command env userId subdomain name = true →
  FS.lookup_path (getUserWebsiteDir env userId subdomain) root
  = Some (FS.Dir es) →
  FS.read_file root (scriptPathOf env name) (trailing_sep name) = Some data →
  extract_run env userId subdomain name root
  = {| fs_after :=
         FS.alter_path (FS.extract (written (unzip env data)))
                       (getUserWebsiteDir env userId subdomain) root;
       sh_status := exit_code (unzip env data);
       sh_stderr := stderr (unzip env data) |}.
Proof.
  intros Hplain Hdir Hread.
  rewrite (extract_run_confined _ _ _ _ _ Hplain Hdir).
  unfold unzip_at. by rewrite Hread.
Qed.

(** [extractScript], step by step: the directory is made sure of and
    emptied, then the command runs on what is left; the database is not
    touched. *)
Lemma extractScript_run userId subdomain name w :
  let dir := getUserWebsiteDir env userId subdomain in
  match FS.mkdir_p dir (fs w) with
  | None =>
      ∃ e w', extractScript env userId subdomain name w = (Thrown e, w')
              ∧ db_unchanged w w'
              ∧ fs w' = FS.mkdir_p_left dir (fs w)
              ∧ effects w' = effects w
  | Some made =>
      let run := extract_run env userId subdomain name
                             (FS.cleared dir made) in
      ∃ w',
        extractScript env userId subdomain name w
        = (if Nat.eqb (sh_status run) 0 then Returned tt
           else Thrown (Error (extract_failure env userId subdomain name
                                               run)),
           w')
        ∧ db_unchanged w w'
        ∧ fs w' = fs_after run
        ∧ console w'
          = console w
            ++ [if Nat.eqb (sh_status run) 0
                then ConsoleLog
                       ("Extracted script " +:+ name +:+ " to "
                        +:+ render dir (join_trailing [userId; subdomain]))
                else ConsoleError
                       (extract_failure env userId subdomain name run)]
        ∧ ∃ before,
            effects w'
            = effects w ++ before
              ++ [ShellExec (extract_command env userId subdomain name)]
  end.
Proof.
  intros dir.
  destruct (FS.mkdir_p dir (fs w)) as [made |] eqn:Hmk.
  - destruct (FSFacts.mkdir_p_lookup _ _ _ Hmk) as [es Hes].
    unfold extractScript, try_catch, bind. unfold fs_mkdir at 1.
    fold dir. rewrite Hmk.
    edestruct (clearWebsiteDir_run userId subdomain
                 (with_effects (effects w ++ [FsMkdir dir]) (with_fs made w))
                 es) as [removed Hclear]; [exact Hes |].
    rewrite Hclear. fold dir. cbn [fs with_fs with_effects effects].
    unfold execSync_unzip. cbn [fs with_fs with_effects effects].
    unfold extract_failure, extract_command, extract_run. fold dir.
    destruct (Nat.eqb (sh_status _) 0) eqn:Hcode.
    + eexists. split; [reflexivity |].
      destruct w. cbn.
      repeat split.
      exists (FsMkdir dir :: removed).
      by rewrite <- !app_assoc.
    + eexists. split; [reflexivity |].
      destruct w. cbn.
      repeat split.
      exists (FsMkdir dir :: removed).
      by rewrite <- !app_assoc.
  - unfold extractScript, try_catch, bind. unfold fs_mkdir at 1.
    fold dir. rewrite Hmk.
    eexists _, _. split; [reflexivity |].
    destruct w. cbn. by repeat split.
Qed.

Lemma truthy_string name : truthy (Some (JStr name)) = true ↔ name ≠ "".
Proof.
  simpl. rewrite negb_true_iff. apply String.eqb_neq.
Qed.

Lemma has_id_eq id x : has_id id x = true → Website.id x = id.
Proof. unfold has_id. apply Nat.eqb_eq. Qed.

Lemma existsb_has_id_map (f : Website.t → Website.t) id rows :
  (∀ x, Website.id (f x) = Website.id x) →
  existsb (has_id id) (map f rows) = existsb (has_id id) rows.
Proof.
  intros Hf. induction rows as [| x rows IH]; [reflexivity |].
  cbn. unfold has_id at 1 3. by rewrite Hf, IH.
Qed.

(** [POST /api/websites/:id/change-script], case by case in the order of
    the handler's checks. *)
Lemma change_script_run userId id body w :
  if negb (truthy (body !! "scriptName")) then
    change_script env userId id body w
    = (Returned {| status := 400;
                   payload := Message "Script name is required" |}, w)
  else
    match head (List.filter (has_id id) (websites w)) with
    | None =>
        change_script env userId id body w
        = (Returned {| status := 404;
                       payload := Message "Website not found" |}, w)
    | Some site =>
        if negb (String.eqb (Website.userId site) userId) then
          change_script env userId id body w
          = (Returned {| status := 403;
                         payload := Message "Access denied" |}, w)
        else
          match body !! "scriptName" with
          | Some (JStr name) =>
              if negb (FS.access (fs w) (scriptPathOf env name)
                                 (trailing_sep name))
              then
                change_script env userId id body w
                = (Returned {| status := 404;
                               payload := Message "Script not found" |}, w)
              else
                let dir :=
                  getUserWebsiteDir env userId (Website.subdomain site) in
                match FS.mkdir_p dir (fs w) with
                | None =>
                    ∃ w',
                      change_script env userId id body w
                      = (Returned
                           {| status := 500;
                              payload := Message "Failed to change script" |},
                         w')
                      ∧ db_unchanged w w'
                      ∧ fs w' = FS.mkdir_p_left dir (fs w)
                      ∧ effects w' = effects w
                | Some made =>
                    let run :=
                      extract_run env userId (Website.subdomain site) name
                                  (FS.cleared dir made) in
                    if Nat.eqb (sh_status run) 0 then
                      ∃ before w',
                        change_script env userId id body w
                        = (Returned
                             {| status := 200;
                                payload :=
                                  ScriptChanged
                                    (Some (with_script id name (clock w)
                                                       site))
                                    (getWebsiteUrl
                                       (Website.subdomain site)) |}, w')
                        ∧ fs w' = fs_after run
                        ∧ websites w'
                          = map (with_script id name (clock w)) (websites w)
                        ∧ websiteLogs w'
                          = websiteLogs w
                            ++ [{| WebsiteLog.id := uuids w;
                                   WebsiteLog.websiteId := id;
                                   WebsiteLog.action := "script_changed";
                                   WebsiteLog.details :=
                                     {[ "oldScript" :=
                                          json_of_nullable
                                            (Website.currentScript site);
                                        "newScript" := JStr name ]};
                                   WebsiteLog.createdAt := S (clock w) |}]
                        ∧ scriptTemplates w' = scriptTemplates w
                        ∧ clock w' = S (S (clock w))
                        ∧ uuids w' = S (uuids w)
                        ∧ effects w'
                          = effects w ++ before
                            ++ [ShellExec
                                  (extract_command env userId
                                     (Website.subdomain site) name);
                                DbUpdateWebsite id;
                                DbInsertLog id "script_changed"]
                    else
                      ∃ w',
                        change_script env userId id body w
                        = (Returned
                             {| status := 500;
                                payload :=
                                  Message "Failed to change script" |}, w')
                        ∧ db_unchanged w w'
                        ∧ fs w' = fs_after run
                        ∧ console w'
                          = console w
                            ++ [ConsoleError
                                  (extract_failure env userId
                                     (Website.subdomain site) name run);
                                ConsoleError
                                  ("Error changing script: "
                                   +:+ extract_failure env userId
                                         (Website.subdomain site) name run)]
                end
          | _ =>
              change_script env userId id body w
              = (Returned {| status := 404;
                             payload := Message "Script not found" |}, w)
          end
    end.
Proof.
  unfold change_script, try_catch, bind.
  destruct (truthy (body !! "scriptName")) eqn:Htruthy; cbn [negb];
    [| reflexivity].
  rewrite getWebsite_run.
  destruct (head (List.filter (has_id id) (websites w))) as [site |]
    eqn:Hsite; [| reflexivity].
  destruct (String.eqb (Website.userId site) userId) eqn:Howner;
    cbn [negb]; [| reflexivity].
  apply head_filter_In in Hsite as Hin. destruct Hin as [Hin Hid].
  apply has_id_eq in Hid.
  destruct (body !! "scriptName") as [[| b | n | name | items | fields] |]
    eqn:Hbody; try reflexivity; try discriminate.
  cbn [from_option Datatypes.id]. rewrite scriptExists_run.
  destruct (FS.access (fs w) (scriptPathOf env name) (trailing_sep name))
    eqn:Haccess; cbn [negb]; [| reflexivity].
  pose proof (extractScript_run userId (Website.subdomain site) name w)
    as Hextract.
  cbn zeta in Hextract |- *.
  destruct (FS.mkdir_p _ (fs w)) as [made |] eqn:Hmk.
  - destruct Hextract as (w1 & Hrun & Hdb & Hfs & Hconsole & before & Heff).
    destruct (Nat.eqb (sh_status _) 0) eqn:Hok.
    + rewrite Hrun, updateWebsite_script.
      rewrite createWebsiteLog_run.
      2:{ cbn [websites with_effects with_websites].
          rewrite existsb_has_id_map
            by (intros x; apply with_script_identity).
          apply head_filter_existsb. rewrite Hid, (proj1 Hdb). eauto. }
      destruct Hdb as (Hw & Hl & Ht & Hc & Hu).
      rewrite Hw, Hc.
      rewrite (head_filter_with_script _ _ _ _ _ Hsite).
      eexists before, _. split; [rewrite Hid; reflexivity |].
      destruct w1. cbn in *. subst.
      repeat split; try done. by rewrite <- !app_assoc.
    + eexists. rewrite Hrun. split; [reflexivity |].
      unfold db_unchanged in *.
      cbn [with_console websites websiteLogs scriptTemplates clock uuids fs
           console error_message].
      split; [exact Hdb |]. split; [exact Hfs |].
      rewrite Hconsole, <- app_assoc. reflexivity.
  - destruct Hextract as (e & w1 & Hrun & Hdb & Hfs & Heff).
    rewrite Hrun. eexists. split; [reflexivity |].
    unfold db_unchanged in *.
    cbn [with_console websites websiteLogs scriptTemplates clock uuids fs
         console effects].
    split; [exact Hdb |]. split; [exact Hfs | exact Heff].
Qed.





(** The subtree after the shell step on a plain command line: what unzip
    wrote into an empty directory. *)
Lemma extract_run_subtree userId subdomain name made root data :
  FS.mkdir_p (getUserWebsiteDir env userId subdomain) root = Some made →
  plain_command env userId subdomain name = true →
  FS.read_file (FS.cleared (getUserWebsiteDir env userId subdomain) made)
               (scriptPathOf env name) (trailing_sep name) = Some data →
  let run := extract_run env userId subdomain name
               (FS.cleared (getUserWebsiteDir env userId subdomain) made) in
  sh_status run = exit_code (unzip env data)
  ∧ sh_stderr run = stderr (unzip env data)
  ∧ fs_after run
    = FS.alter_path (FS.extract (written (unzip env data)))
        (getUserWebsiteDir env userId subdomain)
        (FS.cleared (getUserWebsiteDir env userId subdomain) made)
  ∧ FS.lookup_path (getUserWebsiteDir env userId subdomain) (fs_after run)
    = Some (FS.extract (written (unzip env data)) FS.empty_dir).
Proof.
  intros Hmk Hplain Hread run.
  destruct (FSFacts.mkdir_p_lookup _ _ _ Hmk) as [es Hes].
  pose proof (FSFacts.lookup_cleared_dir _ _ _ Hes) as Hempty.
  subst run.
  rewrite (extract_run_plain _ _ _ _ _ _ Hplain Hempty Hread).
  cbn [sh_status sh_stderr fs_after].
  repeat split.
  by rewrite FSFacts.lookup_alter_path, Hempty.
Qed.




(** ** Where the template path points *)

Lemma scriptsDir_unfold : scriptsDir env = cwd env ++ ["allscripts"].
Proof.
  unfold scriptsDir, join. cbn. by rewrite rev_involutive.
Qed.

Lemma scriptPathOf_parent :
  scriptPathOf env "../outside.zip" = cwd env ++ ["outside.zip"].
Proof.
  unfold scriptPathOf. rewrite scriptsDir_unfold. unfold join.
  rewrite rev_app_distr. cbn. by rewrite rev_involutive.
Qed.

(** C9. The template name is not confined to the Template Store.  The
    name [../outside.zip], which the body may carry, is joined to the store
    path as it is, and the path that [scriptExists] checks and that
    extraction hands to the shell lies outside the store.  Where that path
    holds an archive, the owner's request is served: the shell command is
    built from the path outside the store, the archive found there is
    extracted into the subtree, and the name is recorded as the website's
    [currentScript]. *)
Theorem change_script_leaves_template_store :
  truthy (Some (JStr "../outside.zip")) = true
  ∧ scriptPathOf env "../outside.zip" = cwd env ++ ["outside.zip"]
  ∧ ¬ inside (scriptsDir env) (scriptPathOf env "../outside.zip")
  ∧ (∀ w,
       scriptExists env (JStr "../outside.zip") w
       = (Returned (FS.access (fs w) (scriptPathOf env "../outside.zip")
                              false), w))
  ∧ ∀ (w : World) (userId : string) (id : uuid) (site : Website.t)
      (made : FS.node),
      head (List.filter (has_id id) (websites w)) = Some site →
      Website.userId site = userId →
      FS.access (fs w) (scriptPathOf env "../outside.zip") false = true →
      FS.mkdir_p (getUserWebsiteDir env userId (Website.subdomain site))
                 (fs w) = Some made →
      plain_command env userId (Website.subdomain site) "../outside.zip"
      = true →
      unzip_ok
        (unzip_run_of env
           (FS.cleared
              (getUserWebsiteDir env userId (Website.subdomain site)) made)
           "../outside.zip") = true →
      ∃ before r w',
        change_script env userId id
          {[ "scriptName" := JStr "../outside.zip" ]} w
        = (Returned r, w')
        ∧ status r = 200
        ∧ effects w'
          = effects w ++ before
            ++ [ShellExec
                  (unzip_command
                     (render
                        (getUserWebsiteDir env userId
                                           (Website.subdomain site))
                        (join_trailing [userId; Website.subdomain site]))
                     (render (scriptPathOf env "../outside.zip") false));
                DbUpdateWebsite id;
                DbInsertLog id "script_changed"]
        ∧ fs w'
          = FS.alter_path
              (FS.extract
                 (unzip_written
                    (unzip_run_of env
                       (FS.cleared
                          (getUserWebsiteDir env userId
                                             (Website.subdomain site))
                          made) "../outside.zip")))
              (getUserWebsiteDir env userId (Website.subdomain site))
              (FS.cleared
                 (getUserWebsiteDir env userId (Website.subdomain site))
                 made)
        ∧ ∃ site',
            head (List.filter (has_id id) (websites w')) = Some site'
            ∧ Website.currentScript site' = Some "../outside.zip".
Proof.
  split; [reflexivity |].
  split; [apply scriptPathOf_parent |].
  split.
  { rewrite scriptPathOf_parent, scriptsDir_unfold. unfold inside.
    intros [k Hk]. rewrite <- app_assoc in Hk.
    apply app_inv_head in Hk. discriminate. }
  split; [intros w; apply scriptExists_run |].
  intros w userId id site made Hsite <- Haccess Hmk Hplain Hok.
  pose proof (change_script_run (Website.userId site) id
                {[ "scriptName" := JStr "../outside.zip" ]} w) as Hrun.
  rewrite lookup_singleton_eq in Hrun.
  cbn [truthy String.eqb Ascii.eqb Bool.eqb negb] in Hrun.
  rewrite Hsite, String.eqb_refl in Hrun.
  change (trailing_sep "../outside.zip") with false in Hrun.
  rewrite Haccess in Hrun.
  cbn [negb] in Hrun. cbn zeta in Hrun.
  rewrite Hmk in Hrun.
  unfold unzip_run_of in Hok |- *.
  destruct (FS.read_file _ (scriptPathOf env "../outside.zip")
                         (trailing_sep "../outside.zip"))
    as [data |] eqn:Hread; [| discriminate].
  cbn [unzip_ok unzip_written] in Hok |- *.
  destruct (extract_run_subtree _ _ _ _ _ _ Hmk Hplain Hread)
    as (Hstatus & _ & Hafter & _).
  rewrite Hstatus, Hok in Hrun.
  destruct Hrun as (before & w' & Hcall & Hfs & Hws & _ & _ & _ & _ & Heff).
  exists before. eexists _, w'.
  split; [exact Hcall |]. split; [reflexivity |].
  split; [exact Heff |]. split; [by rewrite Hfs, Hafter |].
  eexists. rewrite Hws.
  split; [apply head_filter_with_script, Hsite |].
  unfold with_script.
  apply head_filter_In in Hsite as [_ ->]. reflexivity.
Qed.

(** ** Creating a website *)

(** C3. A [createWebsite] call that passes the three preconditions (no
    website owned, valid body, free subdomain) performs, in this order and
    nothing else: creation of the subtree, insertion of the Website row,
    insertion of an audit entry with action [created]; it answers 201.
    When the subtree cannot be created the call answers 500 and has
    written nothing to the database: no row, no audit entry, no call on
    the database at all.  On the filesystem it leaves the directories
    that [mkdir] made before it failed, and every regular file as it
    was. *)
Theorem post_websites_effects_in_order
    (w : World) (userId : string) (body : gmap string json)
    (v : InsertWebsite.t) :
  List.filter (owned_by userId) (websites w) = [] →
  createWebsiteSchema_parse body userId w = (Returned v, w) →
  head (List.filter (has_subdomain (InsertWebsite.subdomain v)) (websites w))
  = None →
  (∀ made,
     FS.mkdir_p (getUserWebsiteDir env userId (InsertWebsite.subdomain v))
                (fs w) = Some made →
     ∃ x l w',
       post_websites env userId body w
       = (Returned {| status := 201; payload := WebsiteJson (Some x) |}, w')
       ∧ effects w'
         = effects w
           ++ [FsMkdir (getUserWebsiteDir env userId
                                          (InsertWebsite.subdomain v));
               DbInsertWebsite (Website.id x);
               DbInsertLog (Website.id x) "created"]
       ∧ fs w' = made
       ∧ websites w' = websites w ++ [x]
       ∧ websiteLogs w' = websiteLogs w ++ [l]
       ∧ Website.userId x = userId
       ∧ Website.subdomain x = InsertWebsite.subdomain v
       ∧ WebsiteLog.websiteId l = Website.id x
       ∧ WebsiteLog.action l = "created")
  ∧ (FS.mkdir_p (getUserWebsiteDir env userId (InsertWebsite.subdomain v))
                (fs w) = None →
     ∃ line w',
       post_websites env userId body w
       = (Returned {| status := 500;
                      payload := Message "Failed to create website" |}, w')
       ∧ websites w' = websites w
       ∧ websiteLogs w' = websiteLogs w
       ∧ scriptTemplates w' = scriptTemplates w
       ∧ effects w' = effects w
       ∧ console w' = console w ++ [ConsoleError line]
       ∧ fs w'
         = FS.mkdir_p_left
             (getUserWebsiteDir env userId (InsertWebsite.subdomain v))
             (fs w)
       ∧ ∀ q data,
           FS.lookup_path q (fs w') = Some (FS.File data)
           ↔ FS.lookup_path q (fs w) = Some (FS.File data)).
Proof.
  intros Hquota Hvalid Hfree.
  pose proof (post_websites_run userId body w) as Hrun.
  rewrite Hquota, Hvalid, Hfree in Hrun. cbn zeta in Hrun.
  assert (InsertWebsite.userId v = userId) as Huser.
  { destruct (createWebsiteSchema_parse_cases body userId w)
      as [(v' & Hv' & Hu & _) | (issues & Hissues & _)]; congruence. }
  split.
  - intros made Hmk. rewrite Hmk in Hrun.
    eexists _, _, _. split; [exact Hrun |]. cbn. by repeat split.
  - intros Hmk. rewrite Hmk in Hrun. destruct Hrun as [line Hrun].
    eexists line, _. split; [exact Hrun |].
    cbn [websites websiteLogs scriptTemplates effects console fs
         with_console with_fs].
    repeat (split; [reflexivity |]).
    intros q data. apply FSFacts.mkdir_p_left_file.
Qed.

(** ** Updating and deleting a website *)

(** What [set_columns] made of each column. *)
Lemma set_columns_inv updates t x y :
  set_columns env updates t x = Some y →
  set_key env (updates !! "id") (Website.id x) = Some (Website.id y)
  ∧ set_varchar env (updates !! "userId") (Website.userId x)
    = Some (Website.userId y)
  ∧ set_varchar env (updates !! "name") (Website.name x)
    = Some (Website.name y)
  ∧ set_varchar env (updates !! "subdomain") (Website.subdomain x)
    = Some (Website.subdomain y)
  ∧ set_nullable_text env (updates !! "description") (Website.description x)
    = Some (Website.description y)
  ∧ set_nullable_text env (updates !! "currentScript")
                      (Website.currentScript x)
    = Some (Website.currentScript y)
  ∧ set_nullable_bool env (updates !! "isActive") (Website.isActive x)
    = Some (Website.isActive y)
  ∧ set_nullable_timestamp (updates !! "createdAt") (Website.createdAt x)
    = Some (Website.createdAt y)
  ∧ Website.updatedAt y = t.
Proof.
  unfold set_columns.
  destruct (set_key env _ _); [| discriminate].
  destruct (set_varchar env (updates !! "userId") _); [| discriminate].
  destruct (set_varchar env (updates !! "name") _); [| discriminate].
  destruct (set_varchar env (updates !! "subdomain") _); [| discriminate].
  destruct (set_nullable_text env (updates !! "description") _);
    [| discriminate].
  destruct (set_nullable_text env (updates !! "currentScript") _);
    [| discriminate].
  destruct (set_nullable_bool env _ _); [| discriminate].
  destruct (set_nullable_timestamp _ _); [| discriminate].
  intros [= <-]. by repeat split.
Qed.

(** Without the keys [userId] and [subdomain], an update keeps the owner
    and the subdomain of every row. *)
Lemma update_row_owner id updates t x y :
  updates !! "userId" = None →
  updates !! "subdomain" = None →
  update_row env id updates t x = Some y →
  Website.userId y = Website.userId x
  ∧ Website.subdomain y = Website.subdomain x.
Proof.
  intros Hu Hs. unfold update_row.
  destruct (has_id id x); [| by intros [= <-]].
  intros (_ & Hu' & _ & Hs' & _)%set_columns_inv.
  rewrite Hu in Hu'. rewrite Hs in Hs'. cbn in Hu', Hs'. split; congruence.
Qed.

(** The key that an update gives to the rows it matches. *)
Lemma update_row_key id updates t x y :
  update_row env id updates t x = Some y →
  Website.id y
  = if has_id id x
    then match updates !! "id" with
         | Some v => key_of_text (driver_text env v)
         | None => id
         end
    else Website.id x.
Proof.
  unfold update_row.
  destruct (has_id id x) eqn:Hx; [| by intros [= <-]].
  intros (Hk & _)%set_columns_inv.
  apply has_id_eq in Hx.
  destruct (updates !! "id") as [[| | | | |] |]; cbn [set_key] in Hk;
    congruence.
Qed.

Lemma Forall2_map_eq {A B C} (f : A → C) (g : B → C) l l' :
  Forall2 (fun x y => g y = f x) l l' → map g l' = map f l.
Proof. induction 1; cbn; congruence. Qed.

Lemma existsb_has_id_rows id (rows rows' : list Website.t) :
  map Website.id rows' = map Website.id rows →
  existsb (has_id id) rows' = existsb (has_id id) rows.
Proof.
  revert rows'. induction rows as [| x rows IH]; intros [| y rows'] H;
    try discriminate; [reflexivity |].
  cbn in H. injection H as Hxy Hrest.
  cbn. unfold has_id at 1 3. by rewrite Hxy, (IH _ Hrest).
Qed.

(** An update either keeps every key, or moves the rows it matches to a
    key that is not the one they had. *)
Lemma update_rows_keys id updates t rows rows' :
  map_option (update_row env id updates t) rows = Some rows' →
  Forall2 (fun x y => Website.id y = Website.id x) rows rows'
  ∨ (is_Some (updates !! "id") ∧ existsb (has_id id) rows' = false).
Proof.
  intros Hrows. apply map_option_Forall2 in Hrows.
  destruct (Nat.eq_dec
              (match updates !! "id" with
               | Some v => key_of_text (driver_text env v)
               | None => id
               end) id) as [Hsame | Hmoved].
  - left. eapply Forall2_impl; [exact Hrows |].
    intros x y Hxy. cbn beta. rewrite (update_row_key _ _ _ _ _ Hxy).
    destruct (has_id id x) eqn:Hx; [| reflexivity].
    etrans; [exact Hsame |]. symmetry. by apply has_id_eq.
  - right. split.
    { destruct (updates !! "id"); [eauto | done]. }
    induction Hrows as [| x y rows rows' Hxy _ IH]; [reflexivity |].
    cbn [existsb]. rewrite IH, orb_false_r.
    unfold has_id. rewrite (update_row_key _ _ _ _ _ Hxy).
    destruct (has_id id x) eqn:Hx; [by apply Nat.eqb_neq |].
    exact Hx.
Qed.

Lemma head_filter_has_id_rows (rows : list Website.t) : ∀ rows' id site,
  Forall2 (fun x y => Website.id y = Website.id x
                      ∧ Website.userId y = Website.userId x
                      ∧ Website.subdomain y = Website.subdomain x)
          rows rows' →
  head (List.filter (has_id id) rows) = Some site →
  ∃ site',
    head (List.filter (has_id id) rows') = Some site'
    ∧ Website.userId site' = Website.userId site
    ∧ Website.subdomain site' = Website.subdomain site.
Proof.
  induction rows as [| x rows IH]; intros rows' id site HF Hhead;
    [discriminate |].
  inversion HF as [| ? y ? rest (Hi & Hu & Hs) Hrest]; subst.
  cbn [List.filter] in *. unfold has_id at 1. rewrite Hi.
  fold (has_id id x). destruct (has_id id x).
  - injection Hhead as <-. eauto.
  - eapply IH; eauto.
Qed.

(** When the keys are kept, the rows that the statement returns are the
    rows found under the key afterwards. *)
Lemma returning_kept id updates t rows rows' :
  map_option (update_row env id updates t) rows = Some rows' →
  Forall2 (fun x y => Website.id y = Website.id x) rows rows' →
  returning env id updates t rows = List.filter (has_id id) rows'.
Proof.
  intros Hrows%map_option_Forall2 Hkeys. unfold returning.
  induction Hrows as [| x y rows rows' Hxy _ IH]; [reflexivity |].
  inversion Hkeys as [| ? ? ? ? Hk Hrest]; subst.
  cbn [omap list_omap List.filter]. fold (@omap list _).
  assert (has_id id y = has_id id x) as ->.
  { unfold has_id. by rewrite Hk. }
  unfold update_row in Hxy.
  destruct (has_id id x); [rewrite Hxy; f_equal |]; by apply IH.
Qed.

(** A key that an audit entry references cannot be moved. *)
Lemma updateWebsite_keeps_referenced_key id updates w x w' :
  updateWebsite env id updates w = (Returned x, w') →
  existsb (has_id id) (websites w) = true →
  existsb (log_of id) (websiteLogs w) = true →
  Forall2 (fun x y => Website.id y = Website.id x)
          (websites w) (websites w').
Proof.
  intros Hcall Hrow Hlog.
  destruct (updateWebsite_inv _ _ _ _ _ Hcall)
    as (_ & _ & _ & _ & _ & _ & Hrows & _ & Hkey & _).
  destruct (update_rows_keys _ _ _ _ _ Hrows) as [Hkept | [Hsome Hgone]];
    [exact Hkept |].
  specialize (Hkey Hsome). unfold key_constraints in Hkey.
  rewrite Hrow, Hgone, Hlog in Hkey. discriminate.
Qed.

(** [PATCH /api/websites/:id], case by case. *)
Lemma patch_website_run userId id body w :
  match head (List.filter (has_id id) (websites w)) with
  | None =>
      patch_website env userId id body w
      = (Returned {| status := 404;
                     payload := Message "Website not found" |}, w)
  | Some site =>
      if negb (String.eqb (Website.userId site) userId) then
        patch_website env userId id body w
        = (Returned {| status := 403; payload := Message "Access denied" |},
           w)
      else
        let updateData := delete "subdomain" (delete "userId" body) in
        match updateWebsite env id updateData w with
        | (Thrown e, w1) =>
            patch_website env userId id body w
            = (Returned
                 {| status := 500;
                    payload := Message "Failed to update website" |},
               with_console
                 (console w1
                  ++ [ConsoleError ("Error updating website: "
                                    +:+ error_message e)]) w1)
        | (Returned updated, w1) =>
            if existsb (has_id id) (websites w1) then
              patch_website env userId id body w
              = (Returned {| status := 200;
                             payload := WebsiteJson updated |},
                 {| fs := fs w1;
                    websites := websites w1;
                    websiteLogs :=
                      websiteLogs w1
                      ++ [{| WebsiteLog.id := uuids w1;
                             WebsiteLog.websiteId := id;
                             WebsiteLog.action := "updated";
                             WebsiteLog.details := updateData;
                             WebsiteLog.createdAt := clock w1 |}];
                    scriptTemplates := scriptTemplates w1;
                    clock := S (clock w1);
                    uuids := S (uuids w1);
                    effects := effects w1 ++ [DbInsertLog id "updated"];
                    console := console w1 |})
            else
              ∃ line,
                patch_website env userId id body w
                = (Returned
                     {| status := 500;
                        payload := Message "Failed to update website" |},
                   with_console (console w1 ++ [ConsoleError line]) w1)
        end
  end.
Proof.
  unfold patch_website, try_catch, bind.
  rewrite getWebsite_run.
  destruct (head (List.filter (has_id id) (websites w))) as [site |]
    eqn:Hsite; [| reflexivity].
  destruct (String.eqb (Website.userId site) userId); cbn [negb];
    [| reflexivity].
  apply head_filter_In in Hsite as Hin. destruct Hin as [Hin Hid].
  apply has_id_eq in Hid as Hid'.
  cbn zeta.
  destruct (updateWebsite env id _ w) as [[updated | e] w1] eqn:Hupdate;
    [| reflexivity].
  rewrite Hid'.
  destruct (existsb (has_id id) (websites w1)) eqn:Hthere.
  - rewrite createWebsiteLog_run by exact Hthere.
    destruct w1. reflexivity.
  - unfold createWebsiteLog, bind, gets. rewrite Hthere.
    eexists. reflexivity.
Qed.

(** C8. A PATCH by the owner leaves the [userId] and the [subdomain] of
    every row, and so of the website addressed, as they were, whatever the
    body holds under these two keys and whatever the answer is: the update
    that reaches the table is the body with both keys deleted.  When the
    answer is 200, and whenever the website has an audit entry, the
    website is still found under its key, with the owner and the subdomain
    it had. *)
Theorem patch_website_keeps_owner_and_subdomain
    (w : World) (userId : string) (id : uuid) (body : gmap string json)
    (site : Website.t) (r : Response) (w' : World) :
  head (List.filter (has_id id) (websites w)) = Some site →
  Website.userId site = userId →
  patch_website env userId id body w = (Returned r, w') →
  map Website.userId (websites w') = map Website.userId (websites w)
  ∧ map Website.subdomain (websites w') = map Website.subdomain (websites w)
  ∧ (status r = 200 ∨ existsb (log_of id) (websiteLogs w) = true →
     ∃ site',
       head (List.filter (has_id id) (websites w')) = Some site'
       ∧ Website.userId site' = Website.userId site
       ∧ Website.subdomain site' = Website.subdomain site)
  ∧ (websites w' = websites w
     ∨ map_option
         (update_row env id (delete "subdomain" (delete "userId" body))
                     (clock w))
         (websites w)
       = Some (websites w'))
  ∧ (status r = 200 →
     map_option
       (update_row env id (delete "subdomain" (delete "userId" body))
                   (clock w))
       (websites w)
     = Some (websites w')).
Proof.
  intros Hsite <- Hcall.
  pose proof (patch_website_run (Website.userId site) id body w) as Hrun.
  rewrite Hsite, String.eqb_refl in Hrun. cbn [negb] in Hrun.
  cbn zeta in Hrun.
  assert (existsb (has_id id) (websites w) = true) as Hrow.
  { apply head_filter_existsb. eauto. }
  destruct (updateWebsite env id _ w) as [[updated | e] w1] eqn:Hupdate.
  - destruct (updateWebsite_inv _ _ _ _ _ Hupdate)
      as (_ & Hlogs & _ & _ & _ & _ & Hrows & _ & Hkey & _).
    assert (Forall2 (fun x y => Website.userId y = Website.userId x
                                ∧ Website.subdomain y = Website.subdomain x)
                    (websites w) (websites w1)) as Howner.
    { eapply Forall2_impl; [apply map_option_Forall2, Hrows |].
      intros x y Hxy. eapply update_row_owner; [| | exact Hxy].
      - rewrite lookup_delete_ne by discriminate. apply lookup_delete_eq.
      - apply lookup_delete_eq. }
    assert (websites w' = websites w1) as Hw'.
    { destruct (existsb (has_id id) (websites w1)).
      - rewrite Hrun in Hcall. by injection Hcall as <- <-.
      - destruct Hrun as [line Hrun]. rewrite Hrun in Hcall.
        by injection Hcall as <- <-. }
    rewrite Hw'.
    split.
    { apply Forall2_map_eq. eapply Forall2_impl; [exact Howner |].
      by intros x y [? _]. }
    split.
    { apply Forall2_map_eq. eapply Forall2_impl; [exact Howner |].
      by intros x y [_ ?]. }
    split.
    { intros Hcase.
      assert (Forall2 (fun x y => Website.id y = Website.id x)
                      (websites w) (websites w1)) as Hkeys.
      { destruct Hcase as [Hok | Hlog].
        - destruct (update_rows_keys _ _ _ _ _ Hrows)
            as [Hkept | [_ Hgone]]; [exact Hkept |].
          rewrite Hgone in Hrun. destruct Hrun as [line Hrun].
          rewrite Hrun in Hcall. injection Hcall as <- <-. discriminate.
        - eapply updateWebsite_keeps_referenced_key; eauto. }
      eapply head_filter_has_id_rows; [| exact Hsite].
      clear -Hkeys Howner.
      induction Hkeys as [| x y rows rows' Hk _ IH];
        inversion Howner; subst; constructor; [tauto | auto]. }
    split; [by right |].
    intros _. exact Hrows.
  - rewrite Hrun in Hcall. injection Hcall as <- <-.
    destruct (updateWebsite_inv _ _ _ _ _ Hupdate)
      as (_ & _ & _ & _ & _ & _ & Hws & _).
    cbn [websites with_console status]. rewrite Hws.
    split; [reflexivity |]. split; [reflexivity |].
    split; [intros _; apply head_filter_has_id_rows with (rows := websites w);
            [| exact Hsite] |].
    { clear. induction (websites w); constructor; auto. }
    split; [by left | discriminate].
Qed.

(** [DELETE /api/websites/:id], case by case. *)
Lemma delete_website_run userId id w :
  match head (List.filter (has_id id) (websites w)) with
  | None =>
      delete_website env userId id w
      = (Returned {| status := 404;
                     payload := Message "Website not found" |}, w)
  | Some site =>
      if negb (String.eqb (Website.userId site) userId) then
        delete_website env userId id w
        = (Returned {| status := 403; payload := Message "Access denied" |},
           w)
      else
        delete_website env userId id w
        = (Returned {| status := 200;
                       payload := Message "Website deleted successfully" |},
           {| fs := FS.rm_rf (getUserWebsiteDir env userId
                                                (Website.subdomain site))
                             (fs w);
              websites :=
                List.filter (fun x => negb (has_id id x)) (websites w);
              websiteLogs :=
                List.filter (fun l => negb (log_of id l)) (websiteLogs w);
              scriptTemplates := scriptTemplates w;
              clock := clock w;
              uuids := uuids w;
              effects :=
                effects w
                ++ [FsRm (getUserWebsiteDir env userId
                                            (Website.subdomain site));
                    DbDeleteWebsite id];
              console := console w |})
  end.
Proof.
  unfold delete_website, try_catch, bind.
  rewrite getWebsite_run.
  destruct (head (List.filter (has_id id) (websites w))) as [site |];
    [| reflexivity].
  destruct (String.eqb (Website.userId site) userId); cbn [negb];
    [| reflexivity].
  destruct w. cbn. by rewrite <- !app_assoc.
Qed.

(** ** Deleting a script template *)

Lemma head_filter_removed {A} (f : A → bool) l :
  head (List.filter f (List.filter (fun x => negb (f x)) l)) = None.
Proof.
  induction l as [| x l IH]; [reflexivity |].
  cbn [List.filter]. destruct (f x) eqn:Hx; cbn [negb List.filter];
    [exact IH |].
  by rewrite Hx.
Qed.

(** C10. Deleting a script template is not scoped to an owner.  For every
    authenticated caller and every existing template, the request is
    answered 200; the template's row is gone from the table and no regular
    file is left at the backing path in the store.  The handler does not
    read who the caller is: any two authenticated callers get the same
    response and leave the same world. *)
Theorem delete_script_any_authenticated_user
    (w : World) (req : Request) (userId : string)
    (template : ScriptTemplate.t) :
  user req = Some userId →
  head (List.filter
          (fun t => Nat.eqb (ScriptTemplate.id t) (params_id req))
          (scriptTemplates w)) = Some template →
  join (scriptsDir env) [ScriptTemplate.fileName template] ≠ [] →
  ∃ w',
    handle env DeleteScript req w
    = (Returned
         {| status := 200;
            payload := Message "Script template deleted successfully" |}, w')
    ∧ head (List.filter
              (fun t => Nat.eqb (ScriptTemplate.id t) (params_id req))
              (scriptTemplates w')) = None
    ∧ FS.read_file (fs w')
        (join (scriptsDir env) [ScriptTemplate.fileName template]) false
      = None
    ∧ websites w' = websites w
    ∧ websiteLogs w' = websiteLogs w
    ∧ ∀ req',
        user req' ≠ None →
        params_id req' = params_id req →
        handle env DeleteScript req' w = handle env DeleteScript req w.
Proof.
  intros Huser Htemplate Hpath.
  assert (∀ req', user req' ≠ None →
            handle env DeleteScript req' w
            = delete_script env (params_id req') w) as Hany.
  { intros req' Hreq'. unfold handle, isAuthenticated.
    by destruct (user req'). }
  assert (∃ w',
            delete_script env (params_id req) w
            = (Returned
                 {| status := 200;
                    payload :=
                      Message "Script template deleted successfully" |}, w')
            ∧ head (List.filter
                      (fun t => Nat.eqb (ScriptTemplate.id t) (params_id req))
                      (scriptTemplates w')) = None
            ∧ FS.read_file (fs w')
                (join (scriptsDir env) [ScriptTemplate.fileName template])
                false = None
            ∧ websites w' = websites w
            ∧ websiteLogs w' = websiteLogs w) as (w' & Hcall & Hrest).
  { unfold delete_script, try_catch, bind, getScriptTemplate, gets.
    rewrite Htemplate.
    unfold deleteScript, try_catch, bind, fs_unlink.
    destruct (FS.unlink (fs w) _) as [root' |] eqn:Hunlink.
    - eexists. split; [reflexivity |]. world_simpl.
      split; [apply head_filter_removed |].
      split; [eapply FSFacts.unlink_gone, Hunlink |].
      by split.
    - eexists. split; [reflexivity |]. world_simpl.
      split; [apply head_filter_removed |].
      split; [by eapply FSFacts.unlink_refused |].
      by split. }
  exists w'. rewrite (Hany req) by congruence.
  split; [exact Hcall |].
  destruct Hrest as (? & ? & ? & ?).
  repeat (split; [done |]).
  intros req' Hreq' Hid. rewrite Hany by done. by rewrite Hid.
Qed.

(** ** One request, seen from the two tables *)

Lemma mutates_failed i route req code p :
  succeeded {| status := code; payload := p |} = false →
  mutates i (route, req, {| status := code; payload := p |}) = false.
Proof. intros H. unfold mutates. by rewrite H. Qed.

Lemma serve_quiet_route (m : M Response) route req w :
  keeps_quiet m →
  (∀ i resp, mutates i (route, req, resp)
             = false ∨ succeeded resp = false) →
  match m w with
  | (Returned resp, w') => db_step w route req resp w'
  | (Thrown e, w') =>
      db_step w route req
        {| status := 500; payload := Message (error_message e) |} w'
  end.
Proof.
  intros Hm Hroute. destruct (m w) as [[resp | e] w'] eqn:Hmw.
  - apply step_quiet; [eapply Hm, Hmw |].
    intros i. destruct (Hroute i resp) as [H | H]; [exact H |].
    unfold mutates. by rewrite H.
  - apply step_quiet; [eapply Hm, Hmw |].
    intros i. by apply mutates_failed.
Qed.

(** Every website has an audit entry. *)
Lemma serve_db_step w route req :
  (∀ x, In x (websites w) →
        existsb (log_of (Website.id x)) (websiteLogs w) = true) →
  db_step w route req (fst (serve env w (route, req)))
          (snd (serve env w (route, req))).
Proof.
  intros Hlogged.
  unfold serve, handle, isAuthenticated. cbn [fst snd].
  destruct (user req) as [userId |] eqn:Huser.
  2:{ cbn. apply step_quiet; [apply quiet_refl |].
      intros i. by apply mutates_failed. }
  destruct route.
  - (* GET /api/websites *)
    pose proof (serve_quiet_route (get_websites userId) GetWebsites req w
                  (keeps_quiet_get_websites userId)) as H.
    destruct (get_websites userId w) as [[resp | e] w']; apply H;
      intros i r; left; unfold mutates; apply andb_false_r.
  - pose proof (serve_quiet_route (get_website userId (params_id req))
                  GetWebsite req w
                  (keeps_quiet_get_website userId (params_id req))) as H.
    destruct (get_website userId (params_id req) w) as [[resp | e] w'];
      apply H; intros i r; left; unfold mutates; apply andb_false_r.
  - (* POST /api/websites *)
    pose proof (post_websites_run userId (body req) w) as Hrun.
    destruct (List.filter (owned_by userId) (websites w)) as [| y ys]
      eqn:Hown.
    2:{ rewrite Hrun. cbn [fst snd].
        apply step_quiet; [apply quiet_refl |].
        intros i. by apply mutates_failed. }
    destruct (createWebsiteSchema_parse_cases (body req) userId w)
      as [(v & Hv & Hu & _) | (issues & Hissues & _)].
    2:{ rewrite Hissues in Hrun. rewrite Hrun. cbn [fst snd].
        apply step_quiet; [apply quiet_refl |].
        intros i. by apply mutates_failed. }
    rewrite Hv in Hrun.
    destruct (head (List.filter (has_subdomain (InsertWebsite.subdomain v))
                                (websites w))) as [taken |].
    { rewrite Hrun. cbn [fst snd].
      apply step_quiet; [apply quiet_refl |].
      intros i. by apply mutates_failed. }
    cbn zeta in Hrun.
    destruct (FS.mkdir_p _ (fs w)) as [made |].
    2:{ destruct Hrun as [line Hrun]. rewrite Hrun. cbn [fst snd].
        apply step_quiet; [by repeat split |].
        intros i. by apply mutates_failed. }
    rewrite Hrun. cbn [fst snd].
    eapply step_created; try reflexivity; world_simpl; cbn; congruence.
  - (* PATCH /api/websites/:id *)
    pose proof (patch_website_run userId (params_id req) (body req) w)
      as Hrun.
    destruct (head (List.filter (has_id (params_id req)) (websites w)))
      as [site |] eqn:Hsite.
    2:{ rewrite Hrun. cbn [fst snd].
        apply step_quiet; [apply quiet_refl |].
        intros i. by apply mutates_failed. }
    destruct (String.eqb (Website.userId site) userId); cbn [negb] in Hrun.
    2:{ rewrite Hrun. cbn [fst snd].
        apply step_quiet; [apply quiet_refl |].
        intros i. by apply mutates_failed. }
    cbn zeta in Hrun.
    assert (existsb (has_id (params_id req)) (websites w) = true) as Hrow.
    { apply head_filter_existsb. eauto. }
    assert (existsb (log_of (params_id req)) (websiteLogs w) = true) as Hlog.
    { apply head_filter_In in Hsite as [Hin Hid].
      apply has_id_eq in Hid. rewrite <- Hid. by apply Hlogged. }
    destruct (updateWebsite env (params_id req) _ w) as [[updated | e] w1]
      eqn:Hupdate.
    2:{ rewrite Hrun. cbn [fst snd].
        destruct (updateWebsite_inv _ _ _ _ _ Hupdate)
          as (_ & Hl & _ & Hu & Hc & _ & Hw & _).
        apply step_quiet; [repeat split; world_simpl; (congruence || lia) |].
        intros i. by apply mutates_failed. }
    pose proof (updateWebsite_keeps_referenced_key _ _ _ _ _ Hupdate
                  Hrow Hlog) as Hkeys.
    destruct (updateWebsite_inv _ _ _ _ _ Hupdate)
      as (_ & Hl & _ & Hu & Hc & _ & Hrows & _).
    assert (existsb (has_id (params_id req)) (websites w1) = true) as Hrow1.
    { rewrite (existsb_has_id_rows _ (websites w)); [exact Hrow |].
      by apply Forall2_map_eq. }
    rewrite Hrow1 in Hrun. rewrite Hrun. cbn [fst snd].
    eapply (step_updated _ _ _ _ _
              {| WebsiteLog.id := uuids w1;
                 WebsiteLog.websiteId := params_id req;
                 WebsiteLog.action := "updated";
                 WebsiteLog.details :=
                   delete "subdomain" (delete "userId" (body req));
                 WebsiteLog.createdAt := clock w1 |}).
    + by left.
    + reflexivity.
    + world_simpl.
      assert (Forall2 (fun x y => Website.userId y = Website.userId x
                                  ∧ Website.subdomain y
                                    = Website.subdomain x)
                      (websites w) (websites w1)) as Howner.
      { eapply Forall2_impl; [apply map_option_Forall2, Hrows |].
        intros x y Hxy. eapply update_row_owner; [| | exact Hxy].
        - rewrite lookup_delete_ne by discriminate. apply lookup_delete_eq.
        - apply lookup_delete_eq. }
      clear -Hkeys Howner.
      induction Hkeys as [| x y rows rows' Hk _ IH];
        inversion Howner; subst; constructor; [| auto].
      unfold same_identity. tauto.
    + exact Hrow.
    + world_simpl. by rewrite Hl.
    + reflexivity.
    + exact Hc.
    + world_simpl. by rewrite Hu.
    + world_simpl. by rewrite Hc.
  - (* DELETE /api/websites/:id *)
    pose proof (delete_website_run userId (params_id req) w) as Hrun.
    destruct (head (List.filter (has_id (params_id req)) (websites w)))
      as [site |] eqn:Hsite.
    2:{ rewrite Hrun. cbn [fst snd].
        apply step_quiet; [apply quiet_refl |].
        intros i. by apply mutates_failed. }
    destruct (String.eqb (Website.userId site) userId); cbn [negb] in Hrun.
    2:{ rewrite Hrun. cbn [fst snd].
        apply step_quiet; [apply quiet_refl |].
        intros i. by apply mutates_failed. }
    rewrite Hrun. cbn [fst snd].
    by eapply step_deleted.
  - (* POST /api/websites/:id/change-script *)
    pose proof (change_script_run userId (params_id req) (body req) w)
      as Hrun.
    destruct (truthy (body req !! "scriptName")); cbn [negb] in Hrun.
    2:{ rewrite Hrun. cbn [fst snd].
        apply step_quiet; [apply quiet_refl |].
        intros i. by apply mutates_failed. }
    destruct (head (List.filter (has_id (params_id req)) (websites w)))
      as [site |] eqn:Hsite.
    2:{ rewrite Hrun. cbn [fst snd].
        apply step_quiet; [apply quiet_refl |].
        intros i. by apply mutates_failed. }
    destruct (String.eqb (Website.userId site) userId); cbn [negb] in Hrun.
    2:{ rewrite Hrun. cbn [fst snd].
        apply step_quiet; [apply quiet_refl |].
        intros i. by apply mutates_failed. }
    destruct (body req !! "scriptName")
      as [[| b | n | name | items | fields] |];
      try (rewrite Hrun; cbn [fst snd];
           apply step_quiet; [apply quiet_refl |];
           intros i; by apply mutates_failed).
    destruct (FS.access (fs w) (scriptPathOf env name) (trailing_sep name));
      cbn [negb] in Hrun.
    2:{ rewrite Hrun. cbn [fst snd].
        apply step_quiet; [apply quiet_refl |].
        intros i. by apply mutates_failed. }
    cbn zeta in Hrun.
    destruct (FS.mkdir_p _ (fs w)) as [made |].
    2:{ destruct Hrun as (w' & Hrun & (Hw & Hl & _ & Hc & Hu) & _).
        rewrite Hrun. cbn [fst snd].
        apply step_quiet; [repeat split; (congruence || lia) |].
        intros i. by apply mutates_failed. }
    destruct (Nat.eqb (sh_status _) 0).
    2:{ destruct Hrun as (w' & Hrun & (Hw & Hl & _ & Hc & Hu) & _).
        rewrite Hrun. cbn [fst snd].
        apply step_quiet; [repeat split; (congruence || lia) |].
        intros i. by apply mutates_failed. }
    destruct Hrun
      as (before & w' & Hrun & _ & Hws & Hlogs & _ & Hc & Hu & _).
    rewrite Hrun. cbn [fst snd].
    eapply step_updated; try reflexivity; eauto.
    + rewrite Hws. clear. induction (websites w); constructor; [| done].
      apply with_script_identity.
    + apply head_filter_existsb. eauto.
  - pose proof (serve_quiet_route (get_website_logs userId (params_id req))
                  GetWebsiteLogs req w
                  (keeps_quiet_get_website_logs userId (params_id req)))
      as H.
    destruct (get_website_logs userId (params_id req) w)
      as [[resp | e] w'];
      apply H; intros i r; left; unfold mutates; apply andb_false_r.
  - (* POST /api/scripts/upload *)
    assert (keeps_quiet
              (upload_single (file req)
                             (upload_script env (body req) (file req))))
      as Hq.
    { unfold upload_single.
      repeat case_match;
        first [apply keeps_quiet_upload_script | apply keeps_quiet_throw]. }
    pose proof (serve_quiet_route _ UploadScript req w Hq) as H.
    destruct (upload_single _ _ w) as [[resp | e] w'];
      apply H; intros i r; left; unfold mutates; apply andb_false_r.
  - pose proof (serve_quiet_route (delete_script env (params_id req))
                  DeleteScript req w
                  (keeps_quiet_delete_script env (params_id req))) as H.
    destruct (delete_script env (params_id req) w) as [[resp | e] w'];
      apply H; intros i r; left; unfold mutates; apply andb_false_r.
Qed.

(** ** What every history keeps true *)

Lemma mutations_cons i e history :
  mutations i (e :: history)
  = (if mutates i e then 1 else 0) + mutations i history.
Proof. unfold mutations. cbn [List.filter]. by destruct (mutates i e). Qed.

Lemma StronglySorted_snoc {A} (R : A → A → Prop) l x :
  StronglySorted R l → (∀ a, In a l → R a x) → StronglySorted R (l ++ [x]).
Proof.
  induction 1 as [| a l Hl IH Ha]; intros Hx; cbn.
  - repeat constructor.
  - constructor.
    + apply IH. intros b Hb. apply Hx. by right.
    + apply Forall_app. split; [exact Ha |].
      constructor; [| constructor]. apply Hx. by left.
Qed.

Lemma StronglySorted_filter {A} (R : A → A → Prop) (f : A → bool) l :
  StronglySorted R l → StronglySorted R (List.filter f l).
Proof.
  induction 1 as [| a l Hl IH Ha]; cbn; [constructor |].
  destruct (f a); [| exact IH].
  constructor; [exact IH |].
  apply List.Forall_forall. intros b Hb. apply filter_In in Hb as [Hb _].
  eapply List.Forall_forall in Ha; eauto.
Qed.

Lemma Forall2_same_identity_In rows rows' y :
  Forall2 same_identity rows rows' → In y rows' →
  ∃ x, In x rows ∧ same_identity x y.
Proof.
  induction 1 as [| x y' rows rows' Hxy HF IH]; [done |].
  intros [<- | Hin]; [exists x; split; [by left | done] |].
  destruct (IH Hin) as (x' & Hx' & Hs). exists x'. split; [by right | done].
Qed.

Lemma Forall2_same_identity_ids rows rows' :
  Forall2 same_identity rows rows' →
  map Website.id rows' = map Website.id rows.
Proof.
  intros HF. apply Forall2_map_eq.
  eapply Forall2_impl; [exact HF |]. by intros x y (? & _).
Qed.

Lemma Forall2_same_identity_owned u rows rows' :
  Forall2 same_identity rows rows' →
  length (List.filter (owned_by u) rows')
  = length (List.filter (owned_by u) rows).
Proof.
  induction 1 as [| x y rows rows' (_ & Hu & _) HF IH]; [reflexivity |].
  cbn [List.filter].
  assert (owned_by u y = owned_by u x) as ->
    by (unfold owned_by; by rewrite Hu).
  destruct (owned_by u x); cbn; congruence.
Qed.

Lemma filter_filter_length {A} (f g : A → bool) l :
  length (List.filter f (List.filter g l)) ≤ length (List.filter f l).
Proof.
  induction l as [| x l IH]; [done |].
  cbn [List.filter]. destruct (g x), (f x) eqn:Hf; cbn [List.filter length];
    rewrite ?Hf; cbn [length]; lia.
Qed.

Lemma NoDup_map_filter {A B} (h : A → B) (g : A → bool) l :
  NoDup (map h l) → NoDup (map h (List.filter g l)).
Proof.
  induction l as [| x l IH]; cbn; [done |].
  intros Hnd. apply NoDup_cons in Hnd as [Hnotin Hnd].
  destruct (g x); cbn; [| by apply IH].
  apply NoDup_cons. split; [| by apply IH].
  intros Hin. apply Hnotin.
  apply list_elem_of_In in Hin. apply list_elem_of_In.
  apply in_map_iff in Hin as (y & Hy & Hin).
  apply filter_In in Hin as [Hin _].
  apply in_map_iff. eauto.
Qed.

Lemma existsb_has_id_In id rows :
  existsb (has_id id) rows = true ↔ ∃ x, In x rows ∧ Website.id x = id.
Proof.
  rewrite existsb_exists. unfold has_id.
  split; intros (x & Hx & Hid); exists x; split; try done;
    by apply Nat.eqb_eq.
Qed.

Lemma filter_log_of_other i j l :
  i ≠ j →
  List.filter (log_of i) (List.filter (fun e => negb (log_of j e)) l)
  = List.filter (log_of i) l.
Proof.
  intros Hij. induction l as [| e l IH]; [reflexivity |].
  cbn [List.filter].
  destruct (log_of j e) eqn:Hj; cbn [negb List.filter].
  - destruct (log_of i e) eqn:Hi; [| exact IH].
    unfold log_of in *. apply Nat.eqb_eq in Hi, Hj. congruence.
  - by rewrite IH.
Qed.

Lemma filter_none {A} (f : A → bool) l :
  (∀ x, In x l → f x = false) → List.filter f l = [].
Proof.
  induction l as [| x l IH]; intros H; [reflexivity |].
  cbn [List.filter]. rewrite (H x) by (by left).
  apply IH. intros y Hy. apply H. by right.
Qed.

Lemma consistent_quiet history w route req resp w' :
  consistent history w → quiet w w' →
  (∀ i, mutates i (route, req, resp) = false) →
  consistent ((route, req, resp) :: history) w'.
Proof.
  intros (Hids & Hnd & Hfk & Hlogged & Htimes & Hsorted & Hquota & Hcount
         & Hfresh)
         (Hw & Hl & Hu & Hc) Hmut.
  unfold consistent, entries_of. rewrite Hw, Hl.
  repeat split; try done.
  - intros x Hx. specialize (Hids x Hx). lia.
  - intros l Hin. specialize (Htimes l Hin). lia.
  - intros x Hx. rewrite mutations_cons, Hmut. by apply Hcount.
  - intros i Hi. rewrite mutations_cons, Hmut. apply Hfresh. lia.
Qed.

Lemma consistent_created history w req x l w' :
  consistent history w →
  List.filter (owned_by (Website.userId x)) (websites w) = [] →
  Website.id x = uuids w →
  websites w' = websites w ++ [x] →
  websiteLogs w' = websiteLogs w ++ [l] →
  WebsiteLog.websiteId l = uuids w →
  WebsiteLog.createdAt l = S (clock w) →
  uuids w' = S (S (uuids w)) →
  clock w' = S (S (clock w)) →
  consistent
    ((PostWebsites, req,
      {| status := 201; payload := WebsiteJson (Some x) |}) :: history) w'.
Proof.
  intros (Hids & Hnd & Hfk & Hlogged & Htimes & Hsorted & Hquota & Hcount
         & Hfresh)
         Hnone Hid Hw Hl Hlid Hlt Hu Hc.
  assert (∀ e, In e (websiteLogs w) → WebsiteLog.websiteId e ≠ uuids w)
    as Hnolog.
  { intros e He Heq. specialize (Hfk e He).
    apply existsb_has_id_In in Hfk as (y & Hy & Hyid).
    specialize (Hids y Hy). lia. }
  assert (List.filter (log_of (uuids w)) (websiteLogs w) = []) as Hnolog'.
  { apply filter_none. intros e He.
    unfold log_of. apply Nat.eqb_neq. by apply Hnolog. }
  unfold consistent, entries_of. rewrite Hw, Hl, Hu, Hc.
  split; [| split; [| split; [| split; [| split; [| split; [| split;
    [| split]]]]]]].
  - intros y Hy. apply in_app_or in Hy as [Hy | [<- | []]].
    + specialize (Hids y Hy). lia.
    + lia.
  - rewrite map_app. cbn [map]. apply NoDup_app. split; [exact Hnd |].
    split; [| apply NoDup_singleton].
    intros i Hi Hi'. apply list_elem_of_In in Hi.
    apply in_map_iff in Hi as (y & <- & Hy).
    apply list_elem_of_In in Hi'. destruct Hi' as [Hi' | []].
    specialize (Hids y Hy). lia.
  - intros e He. rewrite existsb_app.
    apply in_app_or in He as [He | [<- | []]].
    + by rewrite (Hfk e He).
    + cbn. unfold has_id. rewrite Hlid, Hid, Nat.eqb_refl.
      by rewrite orb_true_r.
  - intros y Hy. rewrite existsb_app.
    apply in_app_or in Hy as [Hy | [<- | []]].
    + by rewrite (Hlogged y Hy).
    + cbn. unfold log_of. rewrite Hlid, Hid, Nat.eqb_refl.
      by rewrite orb_true_r.
  - intros e He. apply in_app_or in He as [He | [<- | []]].
    + specialize (Htimes e He). lia.
    + lia.
  - apply StronglySorted_snoc; [exact Hsorted |].
    intros e He. specialize (Htimes e He). lia.
  - intros u. rewrite List.filter_app, length_app. cbn [List.filter].
    destruct (owned_by u x) eqn:Hux.
    + unfold owned_by in Hux. apply String.eqb_eq in Hux. subst u.
      rewrite Hnone. cbn. lia.
    + cbn. specialize (Hquota u). lia.
  - intros y Hy. rewrite mutations_cons, List.filter_app, length_app.
    cbn [mutates succeeded status payload List.filter].
    apply in_app_or in Hy as [Hy | [<- | []]].
    + specialize (Hids y Hy).
      assert (Nat.eqb (Website.id x) (Website.id y) = false) as ->
        by (apply Nat.eqb_neq; lia).
      assert (log_of (Website.id y) l = false) as ->
        by (unfold log_of; apply Nat.eqb_neq; lia).
      cbn. specialize (Hcount y Hy). unfold entries_of in Hcount. lia.
    + rewrite Nat.eqb_refl. unfold log_of at 2.
      rewrite Hlid, Hid, Nat.eqb_refl, Hnolog'. cbn.
      rewrite Hfresh by lia. reflexivity.
  - intros i Hi. rewrite mutations_cons.
    cbn [mutates succeeded status payload].
    assert (Nat.eqb (Website.id x) i = false) as ->
      by (apply Nat.eqb_neq; lia).
    cbn. apply Hfresh. lia.
Qed.

Lemma consistent_updated history w route req resp l w' :
  consistent history w →
  route = PatchWebsite ∨ route = ChangeScript →
  status resp = 200 →
  Forall2 same_identity (websites w) (websites w') →
  existsb (has_id (params_id req)) (websites w) = true →
  websiteLogs w' = websiteLogs w ++ [l] →
  WebsiteLog.websiteId l = params_id req →
  WebsiteLog.createdAt l = S (clock w) →
  uuids w' = S (uuids w) →
  clock w' = S (S (clock w)) →
  consistent ((route, req, resp) :: history) w'.
Proof.
  intros (Hids & Hnd & Hfk & Hlogged & Htimes & Hsorted & Hquota & Hcount
         & Hfresh)
         Hroute Hstatus HF Hexists Hl Hlid Hlt Hu Hc.
  pose proof (Forall2_same_identity_ids _ _ HF) as Hsame.
  assert (∀ i, mutates i (route, req, resp) = Nat.eqb (params_id req) i)
    as Hmut.
  { intros i. unfold mutates, succeeded. rewrite Hstatus.
    by destruct Hroute as [-> | ->]. }
  apply existsb_has_id_In in Hexists as (target & Htarget & Htid).
  unfold consistent, entries_of. rewrite Hl, Hu, Hc, Hsame.
  split; [| split; [| split; [| split; [| split; [| split; [| split;
    [| split]]]]]]].
  - intros y Hy.
    destruct (Forall2_same_identity_In _ _ _ HF Hy) as (x & Hx & Hi & _).
    specialize (Hids x Hx). lia.
  - exact Hnd.
  - intros e He. rewrite (existsb_has_id_rows _ _ _ Hsame).
    apply in_app_or in He as [He | [<- | []]]; [by apply Hfk |].
    apply existsb_has_id_In. exists target. split; [done | congruence].
  - intros y Hy.
    destruct (Forall2_same_identity_In _ _ _ HF Hy) as (x & Hx & Hi & _).
    rewrite existsb_app, Hi, (Hlogged x Hx). reflexivity.
  - intros e He. apply in_app_or in He as [He | [<- | []]].
    + specialize (Htimes e He). lia.
    + lia.
  - apply StronglySorted_snoc; [exact Hsorted |].
    intros e He. specialize (Htimes e He). lia.
  - intros u. rewrite (Forall2_same_identity_owned u _ _ HF). apply Hquota.
  - intros y Hy.
    destruct (Forall2_same_identity_In _ _ _ HF Hy) as (x & Hx & Hi & _).
    rewrite Hi, mutations_cons, Hmut, List.filter_app, length_app.
    specialize (Hcount x Hx). unfold entries_of in Hcount.
    cbn [List.filter]. unfold log_of at 2. rewrite Hlid.
    destruct (Nat.eqb (params_id req) (Website.id x)); cbn; lia.
  - intros i Hi. rewrite mutations_cons, Hmut.
    specialize (Hids target Htarget).
    assert (Nat.eqb (params_id req) i = false) as ->
      by (apply Nat.eqb_neq; lia).
    cbn. apply Hfresh. lia.
Qed.

Lemma consistent_deleted history w req resp w' :
  consistent history w →
  websites w'
  = List.filter (fun x => negb (has_id (params_id req) x)) (websites w) →
  websiteLogs w'
  = List.filter (fun l => negb (log_of (params_id req) l)) (websiteLogs w) →
  uuids w' = uuids w →
  clock w' = clock w →
  consistent ((DeleteWebsite, req, resp) :: history) w'.
Proof.
  intros (Hids & Hnd & Hfk & Hlogged & Htimes & Hsorted & Hquota & Hcount
         & Hfresh)
         Hw Hl Hu Hc.
  assert (∀ i, mutates i (DeleteWebsite, req, resp) = false) as Hmut.
  { intros i. unfold mutates. apply andb_false_r. }
  unfold consistent, entries_of. rewrite Hw, Hl, Hu, Hc.
  split; [| split; [| split; [| split; [| split; [| split; [| split;
    [| split]]]]]]].
  - intros y Hy. apply filter_In in Hy as [Hy _]. by apply Hids.
  - by apply NoDup_map_filter.
  - intros e He. apply filter_In in He as [He Hother].
    specialize (Hfk e He).
    apply existsb_has_id_In in Hfk as (y & Hy & Hyid).
    apply existsb_has_id_In. exists y. split; [| done].
    apply filter_In. split; [done |].
    unfold has_id, log_of in *. by rewrite Hyid.
  - intros y Hy. apply filter_In in Hy as [Hy Hother].
    specialize (Hlogged y Hy).
    apply existsb_exists in Hlogged as (e & He & Hey).
    apply existsb_exists. exists e. split; [| exact Hey].
    apply filter_In. split; [exact He |].
    unfold has_id, log_of in *. apply Nat.eqb_eq in Hey. by rewrite Hey.
  - intros e He. apply filter_In in He as [He _]. by apply Htimes.
  - by apply StronglySorted_filter.
  - intros u. etransitivity; [apply filter_filter_length | apply Hquota].
  - intros y Hy. apply filter_In in Hy as [Hy Hother].
    rewrite mutations_cons, Hmut. cbn.
    rewrite filter_log_of_other; [by apply Hcount |].
    unfold has_id in Hother. apply negb_true_iff, Nat.eqb_neq in Hother.
    done.
  - intros i Hi. rewrite mutations_cons, Hmut. cbn. by apply Hfresh.
Qed.

(** Every world that some history of requests leads to is consistent with
    that history. *)
Lemma execution_consistent history w :
  execution env history w → consistent history w.
Proof.
  induction 1 as [disk | history w [route req] Hexec IH].
  - assert (keeps_quiet (ensureDirectories env)) as Hq
      by (unfold ensureDirectories; quiet_tac).
    unfold boot.
    destruct (ensureDirectories env _) as [r w'] eqn:Hboot.
    apply Hq in Hboot as (Hw & Hl & _ & _). cbn [snd].
    unfold consistent, entries_of. rewrite Hw, Hl. cbn.
    repeat split; try done; try constructor; lia.
  - pose proof (serve_db_step w route req
                  (proj1 (proj2 (proj2 (proj2 IH))))) as Hstep.
    destruct (serve env w (route, req)) as [resp w'] eqn:Hserve.
    cbn [fst snd] in *.
    destruct Hstep
      as [Hq Hmut
         | x l -> -> Huser Hnone Hid Hw Hl Hlid Hlt Hu Hc
         | l Hroute Hstatus HF Hex Hl Hlid Hlt Hu Hc
         | -> Hstatus Hw Hl Hu Hc].
    + by eapply consistent_quiet.
    + by eapply consistent_created.
    + by eapply consistent_updated.
    + by eapply consistent_deleted.
Qed.

Lemma head_filter_unique_id rows x :
  NoDup (map Website.id rows) → In x rows →
  head (List.filter (has_id (Website.id x)) rows) = Some x.
Proof.
  induction rows as [| y rows IH]; intros Hnd Hin; [done |].
  cbn [map] in Hnd. apply NoDup_cons in Hnd as [Hnotin Hnd].
  cbn [List.filter]. destruct (has_id (Website.id x) y) eqn:Hy.
  - destruct Hin as [-> | Hin]; [reflexivity |].
    exfalso. apply Hnotin. apply has_id_eq in Hy. rewrite Hy.
    apply list_elem_of_In, in_map_iff. eauto.
  - destruct Hin as [-> | Hin]; [| by apply IH].
    unfold has_id in Hy. by rewrite Nat.eqb_refl in Hy.
Qed.

Lemma two_in_length {A} (a b : A) l :
  In a l → In b l → a ≠ b → 2 ≤ length l.
Proof.
  destruct l as [| c [| d l]]; cbn; [tauto | | lia].
  intros [<- | []] [<- | []]. congruence.
Qed.

(** C4 (amended). Nobody owns more than one website, in any world that a
    history of requests served one at a time leads to: the quota is a
    check of the handler, made before the row is written, and no
    constraint of the table stands behind it.  There, a [createWebsite]
    call by a user who owns a website is answered 400 with the quota
    message (QuotaExceeded) and leaves the world untouched; and the
    owner's deletion of the website is answered 200 and leaves the owner
    with none, after which a [createWebsite] call by that user with a
    valid body, a free subdomain and a subtree that can be created is
    answered 201. *)
Theorem one_website_per_user
    (history : list (Route * Request * Response)) (w : World) :
  execution env history w →
  (∀ u, length (List.filter (owned_by u) (websites w)) ≤ 1)
  ∧ (∀ u body,
       List.filter (owned_by u) (websites w) ≠ [] →
       post_websites env u body w
       = (Returned {| status := 400; payload := Message quota_message |}, w)
       ∧ condition_of {| status := 400; payload := Message quota_message |}
         = Some QuotaExceeded)
  ∧ (∀ site,
       In site (websites w) →
       ∃ w',
         delete_website env (Website.userId site) (Website.id site) w
         = (Returned {| status := 200;
                        payload := Message "Website deleted successfully" |},
            w')
         ∧ List.filter (owned_by (Website.userId site)) (websites w') = []
         ∧ ∀ body v made,
             createWebsiteSchema_parse body (Website.userId site) w'
             = (Returned v, w') →
             head (List.filter (has_subdomain (InsertWebsite.subdomain v))
                               (websites w')) = None →
             FS.mkdir_p (getUserWebsiteDir env (Website.userId site)
                                           (InsertWebsite.subdomain v))
                        (fs w') = Some made →
             ∃ x w'',
               post_websites env (Website.userId site) body w'
               = (Returned {| status := 201;
                              payload := WebsiteJson (Some x) |}, w'')
               ∧ In x (websites w'')
               ∧ Website.userId x = Website.userId site).
Proof.
  intros Hexec.
  destruct (execution_consistent _ _ Hexec)
    as (Hids & Hnd & Hfk & Hlogged & Htimes & Hsorted & Hquota & Hcount
         & Hfresh).
  split; [exact Hquota |]. split.
  - intros u body Hown.
    pose proof (post_websites_run u body w) as Hrun.
    destruct (List.filter (owned_by u) (websites w)); [done |].
    by split.
  - intros site Hsite.
    pose proof (delete_website_run (Website.userId site) (Website.id site) w)
      as Hrun.
    rewrite (head_filter_unique_id _ _ Hnd Hsite), String.eqb_refl in Hrun.
    cbn [negb] in Hrun.
    eexists. split; [exact Hrun |]. cbn [websites fs].
    assert (List.filter (owned_by (Website.userId site))
              (List.filter (fun x => negb (has_id (Website.id site) x))
                           (websites w)) = []) as Hnone.
    { apply filter_none. intros y Hy.
      apply filter_In in Hy as [Hy Hother].
      destruct (owned_by (Website.userId site) y) eqn:Hyown; [| done].
      exfalso.
      assert (site ≠ y) as Hne.
      { intros <-. unfold has_id in Hother.
        by rewrite Nat.eqb_refl in Hother. }
      assert (2 ≤ length (List.filter (owned_by (Website.userId site))
                                      (websites w))) as Htwo.
      { eapply (two_in_length site y); [| | exact Hne];
          apply filter_In; split; try done.
        unfold owned_by. apply String.eqb_refl. }
      specialize (Hquota (Website.userId site)). lia. }
    split; [exact Hnone |].
    intros body v made Hvalid Hfree Hmk.
    match goal with
    | |- context [post_websites env _ body ?w1] =>
        pose proof (post_websites_run (Website.userId site) body w1) as Hpost
    end.
    cbn [websites fs] in Hpost.
    rewrite Hnone, Hvalid, Hfree in Hpost. cbn zeta in Hpost.
    rewrite Hmk in Hpost.
    eexists _, _. split; [exact Hpost |]. cbn [websites].
    split; [apply in_or_app; right; by left |].
    cbn.
    destruct (createWebsiteSchema_parse_cases body (Website.userId site)
                {| fs := FS.rm_rf
                           (getUserWebsiteDir env (Website.userId site)
                                              (Website.subdomain site))
                           (fs w);
                   websites :=
                     List.filter
                       (fun x => negb (has_id (Website.id site) x))
                       (websites w);
                   websiteLogs :=
                     List.filter
                       (fun l => negb (log_of (Website.id site) l))
                       (websiteLogs w);
                   scriptTemplates := scriptTemplates w;
                   clock := clock w;
                   uuids := uuids w;
                   effects :=
                     effects w
                     ++ [FsRm (getUserWebsiteDir env (Website.userId site)
                                 (Website.subdomain site));
                         DbDeleteWebsite (Website.id site)];
                   console := console w |})
      as [(v' & Hv' & Hu & _) | (issues & Hissues & _)]; congruence.
Qed.

(** ** The audit log *)

Lemma insert_desc_oldest {A} (key : A → nat) x l :
  (∀ y, In y l → key x < key y) → insert_desc key x l = l ++ [x].
Proof.
  induction l as [| y l IH]; intros Hx; [reflexivity |].
  cbn [insert_desc].
  assert (Nat.ltb (key y) (key x) = false) as ->.
  { apply Nat.ltb_ge. specialize (Hx y (or_introl eq_refl)). lia. }
  cbn. f_equal. apply IH. intros z Hz. apply Hx. by right.
Qed.

(** Ordering rows written at increasing times, newest first, reverses the
    order they were written in. *)
Lemma order_desc_rev {A} (key : A → nat) l :
  StronglySorted (fun a b => key a < key b) l → order_desc key l = rev l.
Proof.
  unfold order_desc.
  induction 1 as [| x l Hl IH Hx]; [reflexivity |].
  cbn [fold_right rev]. rewrite IH.
  apply insert_desc_oldest. intros y Hy. apply in_rev in Hy.
  eapply List.Forall_forall in Hx; eauto.
Qed.

Lemma StronglySorted_rev {A} (R : A → A → Prop) l :
  StronglySorted R l → StronglySorted (fun a b => R b a) (rev l).
Proof.
  induction 1 as [| x l Hl IH Hx]; [constructor |].
  cbn [rev]. apply StronglySorted_snoc; [exact IH |].
  intros y Hy. apply in_rev in Hy.
  eapply List.Forall_forall in Hx; eauto.
Qed.

(** C6. In any world that a history of requests, served one at a time,
    leads to, the audit log of a website that exists has exactly one
    entry for each successful create, update and script change served on
    it; the logs endpoint answers the owner with these entries newest
    first, which is the reverse of the order they were written in; and
    whatever request is served next, as long as the website still exists
    afterwards its earlier entries are all still there, unchanged and in
    place, followed by what the request added.  An update cannot move the
    website to another key and leave its entries behind: the entries
    reference the key. *)
Theorem audit_log_complete_newest_first
    (history : list (Route * Request * Response)) (w : World)
    (x : Website.t) :
  execution env history w →
  In x (websites w) →
  ∃ logs,
    get_website_logs (Website.userId x) (Website.id x) w
    = (Returned {| status := 200; payload := LogList logs |}, w)
    ∧ length logs = mutations (Website.id x) history
    ∧ logs = rev (entries_of (Website.id x) w)
    ∧ StronglySorted
        (fun a b => WebsiteLog.createdAt b < WebsiteLog.createdAt a) logs
    ∧ ∀ r,
        (∃ x', In x' (websites (snd (serve env w r)))
               ∧ Website.id x' = Website.id x) →
        ∃ added,
          entries_of (Website.id x) (snd (serve env w r))
          = entries_of (Website.id x) w ++ added.
Proof.
  intros Hexec Hx.
  destruct (execution_consistent _ _ Hexec)
    as (Hids & Hnd & Hfk & Hlogged & Htimes & Hsorted & Hquota & Hcount
         & Hfresh).
  pose proof (StronglySorted_filter _ (log_of (Website.id x)) _ Hsorted)
    as Hmine.
  exists (rev (entries_of (Website.id x) w)).
  split.
  { unfold get_website_logs, try_catch, bind.
    rewrite getWebsite_run, (head_filter_unique_id _ _ Hnd Hx).
    rewrite String.eqb_refl. cbn [negb].
    unfold getWebsiteLogs, gets, respond, ret.
    by rewrite (order_desc_rev _ _ Hmine). }
  split; [rewrite length_rev; by apply Hcount |].
  split; [reflexivity |].
  split; [by apply StronglySorted_rev |].
  intros [route req] (x' & Hx' & Hsame).
  pose proof (serve_db_step w route req Hlogged) as Hstep.
  destruct (serve env w (route, req)) as [resp w'] eqn:Hserve.
  cbn [fst snd] in *. unfold entries_of.
  destruct Hstep
    as [(Hw & Hl & _) Hmut
       | y l -> -> Huser Hnone Hid Hw Hl Hlid Hlt Hu Hc
       | l Hroute Hstatus HF Hex Hl Hlid Hlt Hu Hc
       | -> Hstatus Hw Hl Hu Hc].
  - exists []. by rewrite Hl, app_nil_r.
  - rewrite Hl, List.filter_app. eauto.
  - rewrite Hl, List.filter_app. eauto.
  - exists []. rewrite Hl, app_nil_r.
    apply filter_log_of_other.
    rewrite Hw in Hx'. apply filter_In in Hx' as [_ Hother].
    unfold has_id in Hother. apply negb_true_iff, Nat.eqb_neq in Hother.
    congruence.
Qed.

(** ** Two creates for one subdomain *)

Lemma mutations_In i e history :
  In e history → mutates i e = true → 1 ≤ mutations i history.
Proof.
  intros Hin Hmut. unfold mutations.
  assert (In e (List.filter (mutates i) history)) as Hf
    by (apply filter_In; by split).
  destruct (List.filter (mutates i) history); [done | cbn; lia].
Qed.

(** What an answer 201 of [POST /api/websites] tells about the call. *)
Lemma serve_post_created w req x :
  fst (serve env w (PostWebsites, req))
  = {| status := 201; payload := WebsiteJson (Some x) |} →
  body req !! "subdomain" = Some (JStr (Website.subdomain x))
  ∧ subdomain_pattern (Website.subdomain x) = true
  ∧ user req = Some (Website.userId x)
  ∧ Website.id x = uuids w
  ∧ websites (snd (serve env w (PostWebsites, req))) = websites w ++ [x].
Proof.
  unfold serve, handle, isAuthenticated. cbn [fst snd].
  destruct (user req) as [userId |]; [| discriminate].
  pose proof (post_websites_run userId (body req) w) as Hrun.
  destruct (List.filter (owned_by userId) (websites w)) as [| y ys];
    [| rewrite Hrun; discriminate].
  destruct (createWebsiteSchema_parse_cases (body req) userId w)
    as [(v & Hv & Hu & _ & _ & Hsub & Hpat) | (issues & Hissues & _)].
  2:{ rewrite Hissues in Hrun. rewrite Hrun. discriminate. }
  rewrite Hv in Hrun.
  destruct (head (List.filter (has_subdomain (InsertWebsite.subdomain v))
                              (websites w))) as [taken |].
  { rewrite Hrun. discriminate. }
  cbn zeta in Hrun.
  destruct (FS.mkdir_p _ (fs w)) as [made |].
  2:{ destruct Hrun as [line Hrun]. rewrite Hrun. discriminate. }
  rewrite Hrun. cbn [fst snd websites].
  intros [= <-]. cbn [Website.subdomain Website.userId Website.id
                      website_row].
  repeat split; congruence.
Qed.

(** A website that a create has answered keeps, for as long as it exists,
    the subdomain that was posted. *)
Lemma execution_created_subdomain history w :
  execution env history w →
  ∀ req x y,
    In (PostWebsites, req,
        {| status := 201; payload := WebsiteJson (Some x) |}) history →
    In y (websites w) →
    Website.id y = Website.id x →
    body req !! "subdomain" = Some (JStr (Website.subdomain y)).
Proof.
  induction 1 as [disk | history w [route req0] Hexec IH];
    intros req x y Hin Hy Hid; [destruct Hin |].
  pose proof (execution_consistent _ _ Hexec)
    as (Hids & _ & _ & Hlogged & _ & _ & _ & _ & Hfresh).
  pose proof (serve_db_step w route req0 Hlogged) as Hstep.
  destruct Hin as [Hnew | Hold].
  - (* the create is the request just served *)
    injection Hnew as -> -> Hresp.
    destruct (serve_post_created _ _ _ Hresp)
      as (Hsub & _ & _ & Hkey & Hrows).
    rewrite Hrows in Hy. apply in_app_or in Hy as [Hy | [<- | []]];
      [| exact Hsub].
    specialize (Hids y Hy). lia.
  - (* the create was served earlier *)
    assert (Website.id x < uuids w) as Hkey.
    { destruct (Nat.lt_ge_cases (Website.id x) (uuids w)) as [? | Hge];
        [done |].
      pose proof (mutations_In (Website.id x) _ _ Hold) as Hone.
      rewrite (Hfresh _ Hge) in Hone.
      assert (1 ≤ 0) by (apply Hone; cbn; apply Nat.eqb_refl). lia. }
    destruct (serve env w (route, req0)) as [resp w'] eqn:Hserve.
    cbn [fst snd] in *.
    destruct Hstep
      as [(Hw & _) _
         | x' l -> -> Huser Hnone Hid' Hw Hl Hlid Hlt Hu Hc
         | l Hroute Hstatus HF Hex Hl Hlid Hlt Hu Hc
         | -> Hstatus Hw Hl Hu Hc].
    + rewrite Hw in Hy. eauto.
    + rewrite Hw in Hy. apply in_app_or in Hy as [Hy | [<- | []]];
        [eauto | lia].
    + destruct (Forall2_same_identity_In _ _ _ HF Hy)
        as (y0 & Hy0 & Hi & _ & Hs).
      rewrite Hs. eapply IH; eauto. congruence.
    + rewrite Hw in Hy. apply filter_In in Hy as [Hy _]. eauto.
Qed.

(** C5 (amended). Served one at a time, a [createWebsite] call for the
    subdomain of a website that an earlier call created, and that has not
    been deleted since, is answered 400 and leaves the world untouched, by
    whichever user it is made and whatever else its body holds.  The
    answer is the first of the handler's checks that fails: the quota
    message when the caller owns a website, the validation error when the
    body is invalid, and [Subdomain already taken], that is Conflict,
    otherwise.  Beneath the handler, inserting a row with that subdomain
    is refused by the table itself. *)
Theorem post_websites_subdomain_conflict
    (history : list (Route * Request * Response)) (w : World)
    (req1 : Request) (x : Website.t)
    (userId : string) (body2 : gmap string json) :
  execution env history w →
  In (PostWebsites, req1,
      {| status := 201; payload := WebsiteJson (Some x) |}) history →
  existsb (has_id (Website.id x)) (websites w) = true →
  body2 !! "subdomain" = body req1 !! "subdomain" →
  ∃ r,
    post_websites env userId body2 w = (Returned r, w)
    ∧ status r = 400
    ∧ match List.filter (owned_by userId) (websites w) with
      | _ :: _ =>
          r = {| status := 400; payload := Message quota_message |}
          ∧ condition_of r = Some QuotaExceeded
      | [] =>
          match createWebsiteSchema_parse body2 userId w with
          | (Returned _, _) =>
              r = {| status := 400;
                     payload := Message "Subdomain already taken" |}
              ∧ condition_of r = Some Conflict
          | (Thrown _, _) =>
              ∃ issues,
                r = {| status := 400; payload := ValidationFailed issues |}
                ∧ condition_of r = Some InvalidInput
          end
      end
    ∧ ∀ v,
        body2 !! "subdomain" = Some (JStr (InsertWebsite.subdomain v)) →
        ∃ e, createWebsite v w = (Thrown e, w).
Proof.
  intros Hexec Hfirst Hthere Hsame.
  apply existsb_has_id_In in Hthere as (y & Hy & Hid).
  pose proof (execution_created_subdomain _ _ Hexec _ _ _ Hfirst Hy Hid)
    as Hsub.
  rewrite <- Hsame in Hsub.
  assert (∀ s, body2 !! "subdomain" = Some (JStr s) →
               existsb (has_subdomain s) (websites w) = true) as Htaken.
  { intros s Hs. apply existsb_exists. exists y. split; [exact Hy |].
    unfold has_subdomain. apply String.eqb_eq. congruence. }
  pose proof (post_websites_run userId body2 w) as Hrun.
  destruct (List.filter (owned_by userId) (websites w)) as [| z zs].
  2:{ eexists. split; [exact Hrun |]. split; [reflexivity |].
      split; [by split |].
      intros v Hv. unfold createWebsite, bind, gets.
      rewrite (Htaken _ Hv). eauto. }
  destruct (createWebsiteSchema_parse_cases body2 userId w)
    as [(v2 & Hv2 & _ & _ & _ & Hsub2 & _) | (issues & Hissues & _)].
  2:{ rewrite Hissues in Hrun |- *. eexists. split; [exact Hrun |].
      split; [reflexivity |]. split; [eauto |].
      intros v Hv. unfold createWebsite, bind, gets.
      rewrite (Htaken _ Hv). eauto. }
  rewrite Hv2 in Hrun |- *.
  pose proof (Htaken _ Hsub2) as Hex.
  apply head_filter_existsb in Hex as [t Ht]. rewrite Ht in Hrun.
  eexists. split; [exact Hrun |]. split; [reflexivity |].
  split; [by split |].
  intros v Hv. unfold createWebsite, bind, gets.
  rewrite (Htaken _ Hv). eauto.
Qed.

(** ** Requests that overlap *)

Lemma run_pending_bind {A B} (m : M B) (k : B → M (Task A))
    (catch : exn → M A) w :
  run_task (pending (bind m k) catch) w
  = match m w with
    | (Returned b, w1) => run_task (pending (k b) catch) w1
    | (Thrown e, w1) => catch e w1
    end.
Proof.
  unfold pending, bind. cbn [run_task].
  destruct (m w) as [[b | e] w1]; [reflexivity |].
  by destruct (catch e w1).
Qed.

Lemma run_pending_ret {A} (t : Task A) (catch : exn → M A) w :
  run_task (pending (ret t) catch) w = run_task t w.
Proof. reflexivity. Qed.

(** Run without another handler in between, the task of
    [POST /api/websites] is the handler. *)
Lemma post_websites_task_run userId body w :
  run_task (post_websites_task env userId body) w
  = post_websites env userId body w.
Proof.
  pose proof (post_websites_run userId body w) as Hrun.
  unfold post_websites_task. cbv zeta.
  rewrite run_pending_bind, getUserWebsites_run.
  destruct (List.filter (owned_by userId) (websites w)) as [| x0 owned]
    eqn:Howned.
  2:{ assert (Nat.ltb 0 (length (order_asc created_desc (x0 :: owned)))
              = true) as ->.
      { rewrite order_asc_length. reflexivity. }
      by rewrite Hrun. }
  cbn [order_asc fold_right length Nat.ltb Nat.leb].
  rewrite run_pending_ret, run_pending_bind.
  destruct (createWebsiteSchema_parse_cases body userId w)
    as [(v & Hv & _) | (issues & Hissues & _)].
  2:{ rewrite Hissues in Hrun |- *. by rewrite Hrun. }
  rewrite Hv in Hrun |- *.
  rewrite run_pending_bind, getWebsiteBySubdomain_run.
  destruct (head (List.filter (has_subdomain (InsertWebsite.subdomain v))
                              (websites w))) as [taken |] eqn:Htaken.
  { by rewrite Hrun. }
  assert (existsb (has_subdomain (InsertWebsite.subdomain v)) (websites w)
          = false) as Hfree.
  { destruct (existsb _ _) eqn:He; [| reflexivity].
    apply head_filter_existsb in He as [y Hy]. congruence. }
  cbn zeta in Hrun.
  rewrite run_pending_ret, run_pending_bind.
  unfold createUserWebsiteDir, bind at 1, fs_mkdir.
  destruct (FS.mkdir_p _ (fs w)) as [made |] eqn:Hmk.
  - cbn [ret]. rewrite run_pending_ret, run_pending_bind.
    rewrite createWebsite_run by exact Hfree.
    rewrite run_pending_ret, run_pending_bind.
    rewrite createWebsiteLog_run.
    2:{ cbn [websites with_effects with_websites].
        rewrite existsb_app. cbn [existsb]. unfold has_id at 2.
        cbn [Website.id website_row].
        rewrite Nat.eqb_refl. by rewrite orb_true_r. }
    rewrite Hrun. unfold answer. rewrite run_pending_ret. cbn [run_task].
    destruct w. cbn. by rewrite <- !app_assoc.
  - destruct Hrun as [line Hrun]. rewrite Hrun.
    unfold post_websites, try_catch, bind in Hrun.
    rewrite getUserWebsites_run, Howned in Hrun.
    cbn [order_asc fold_right length Nat.ltb Nat.leb] in Hrun.
    rewrite Hv, getWebsiteBySubdomain_run, Htaken in Hrun.
    unfold createUserWebsiteDir, bind, fs_mkdir in Hrun.
    rewrite Hmk in Hrun. exact Hrun.
Qed.

End Properties.

(* ===================================================================== *)
(** * The properties at work on the small deployment *)
(* ===================================================================== *)

Lemma serve_all_execution env disk requests :
  execution env (fst (serve_all env disk requests))
            (snd (serve_all env disk requests)).
Proof.
  unfold serve_all.
  assert (∀ s, execution env (fst s) (snd s) →
               execution env
                 (fst (fold_left
                         (fun s r =>
                            ((r, fst (serve env (snd s) r)) :: fst s,
                             snd (serve env (snd s) r)))
                         requests s))
                 (snd (fold_left
                         (fun s r =>
                            ((r, fst (serve env (snd s) r)) :: fst s,
                             snd (serve env (snd s) r)))
                         requests s))) as Hall.
  { induction requests as [| r rs IH]; intros s Hs; [exact Hs |].
    cbn [fold_left]. apply IH. cbn [fst snd]. by apply exec_serve. }
  apply Hall. cbn [fst snd]. apply exec_boot.
Qed.

(** The scenario of the specification, end to end: Alice creates her
    website (201), a second create is refused for quota (400), the template
    [basic] is uploaded (201), and applying [basic.zip] (200) leaves
    [index.html] in the subtree and [basic.zip] as the current script. *)
Lemma end_to_end_scenario :
  let upload :=
    (UploadScript,
     {| user := Some "alice"; params_id := 0;
        body := {[ "name" := JStr "basic"; "displayName" := JStr "Basic" ]};
        file := Some {| originalname := "basic.zip";
                        mimetype := "application/zip";
                        buffer := "PK-basic" |} |}) in
  let apply :=
    (ChangeScript,
     Example.request "alice" 0 (Example.script_body "basic.zip")) in
  let w1 := Example.after_create in
  let second := serve Example.env w1 Example.alice_creates in
  let w3 := snd (serve Example.env (snd second) upload) in
  let applied := serve Example.env w3 apply in
  status (fst (serve Example.env Example.fresh Example.alice_creates)) = 201
  ∧ condition_of (fst second) = Some QuotaExceeded
  ∧ status (fst (serve Example.env (snd second) upload)) = 201
  ∧ status (fst applied) = 200
  ∧ FS.lookup_path
      ["srv"; "app"; "user_websites"; "alice"; "alice-site"; "index.html"]
      (fs (snd applied))
    = Some (FS.File "<h1>hello</h1>")
  ∧ map Website.currentScript (websites (snd applied))
    = [Some "basic.zip"].
Proof. vm_compute. by repeat split. Qed.

(** Left to itself, [updateWebsite] does set the owner and the subdomain
    that its argument names: it is the handler's two deletions that keep
    them out. *)
Lemma updateWebsite_sets_what_it_is_given :
  map (fun x => (Website.userId x, Website.subdomain x))
      (websites (snd (updateWebsite Example.env 0 Example.takeover_body
                                    Example.world)))
  = [("mallory", "mallory-site")].
Proof. vm_compute. reflexivity. Qed.

(** What the three updates of the busy history did: the number given as
    a name is stored as its text, and the date given for [createdAt] and
    the key given for [id] are refused, the latter because the website's
    audit entries reference the key it has. *)
Lemma updates_of_the_busy_history :
  map (fun e => status (snd e)) (fst Demo.busy)
  = [200; 201; 500; 500; 200; 201]
  ∧ map Website.name (websites (snd Demo.busy)) = ["5"]
  ∧ map Website.id (websites (snd Demo.busy)) = [0]
  ∧ map Website.createdAt (websites (snd Demo.busy)) = [Some 0]
  ∧ map WebsiteLog.action (websiteLogs (snd Demo.busy))
    = ["created"; "updated"; "script_changed"].
Proof. vm_compute. by repeat split. Qed.





Lemma post_websites_effects_in_order_witness :
  (∃ x w',
     post_websites Example.env "alice"
                   (Example.site_body "Alice Site" "alice-site")
                   Example.fresh
     = (Returned {| status := 201; payload := WebsiteJson (Some x) |}, w')
     ∧ effects w'
       = effects Example.fresh
         ++ [FsMkdir ["srv"; "app"; "user_websites"; "alice"; "alice-site"];
             DbInsertWebsite (Website.id x);
             DbInsertLog (Website.id x) "created"])
  ∧ (∃ w',
       post_websites Example.env "alice"
                     (Example.site_body "Long" Demo.long_subdomain)
                     Example.fresh
       = (Returned {| status := 500;
                      payload := Message "Failed to create website" |}, w')
       ∧ websites w' = []
       ∧ websiteLogs w' = []
       ∧ effects w' = effects Example.fresh
       ∧ FS.lookup_path ["srv"; "app"; "user_websites"; "alice"]
                        (fs Example.fresh) = None
       ∧ FS.lookup_path ["srv"; "app"; "user_websites"; "alice"] (fs w')
         = Some FS.empty_dir).
Proof.
  split.
  - destruct (post_websites_effects_in_order Example.env Example.fresh
                "alice" (Example.site_body "Alice Site" "alice-site")
                Example.alice_data) as [Hcreated _].
    + vm_compute; reflexivity.
    + vm_compute; reflexivity.
    + vm_compute; reflexivity.
    + destruct (Hcreated
                  (default FS.empty_dir
                     (FS.mkdir_p
                        (getUserWebsiteDir Example.env "alice" "alice-site")
                        (fs Example.fresh))))
        as (x & l & w' & Hcall & Heffects & _).
      * vm_compute; reflexivity.
      * exists x, w'. split; [exact Hcall | exact Heffects].
  - destruct (post_websites_effects_in_order Example.env Example.fresh
                "alice" (Example.site_body "Long" Demo.long_subdomain)
                Demo.long_data) as [_ Hfailed].
    + vm_compute; reflexivity.
    + vm_compute; reflexivity.
    + vm_compute; reflexivity.
    + destruct Hfailed
        as (line & w' & Hcall & Hw & Hl & _ & Heffects & _ & Hfs & _).
      * vm_compute; reflexivity.
      * exists w'. split; [exact Hcall |].
        split; [exact Hw |]. split; [exact Hl |].
        split; [exact Heffects |].
        split; [vm_compute; reflexivity |].
        rewrite Hfs. vm_compute; reflexivity.
Defined.

Lemma one_website_per_user_witness :
  length (List.filter (owned_by "alice") (websites Example.after_create)) ≤ 1
  ∧ post_websites Example.env "alice"
                  (Example.site_body "Second Site" "second-site")
                  Example.after_create
    = (Returned {| status := 400; payload := Message quota_message |},
       Example.after_create).
Proof.
  destruct (one_website_per_user Example.env
              [(Example.alice_creates,
                fst (serve Example.env Example.fresh Example.alice_creates))]
              Example.after_create) as (Hquota & Hrefused & _).
  - apply (exec_serve Example.env [] Example.fresh Example.alice_creates).
    apply exec_boot.
  - split; [apply Hquota |].
    apply Hrefused. vm_compute. discriminate.
Defined.

(** C4, as stated, fails.  Two creates by Alice that overlap: each
    handler runs up to its next await and the other takes its turn.  Both
    find that Alice owns no website, both insert their row, and both are
    answered 201: Alice owns two websites.  Each handler, run on its own,
    is the handler of [POST /api/websites]. *)
Lemma one_website_per_user_counterexample :
  run_task (post_websites_task Example.env "alice"
                               (Example.site_body "One" "one")) Example.fresh
  = post_websites Example.env "alice" (Example.site_body "One" "one")
                  Example.fresh
  ∧ option_map status (answer_of (fst Demo.overlapped !! 0)) = Some 201
  ∧ option_map status (answer_of (fst Demo.overlapped !! 1)) = Some 201
  ∧ map Website.userId (websites (snd Demo.overlapped)) = ["alice"; "alice"]
  ∧ map Website.subdomain (websites (snd Demo.overlapped)) = ["one"; "two"]
  ∧ length (List.filter (owned_by "alice") (websites (snd Demo.overlapped)))
    = 2.
Proof.
  split; [apply post_websites_task_run |].
  vm_compute. by repeat split.
Qed.

Lemma post_websites_subdomain_conflict_witness :
  ∃ r,
    post_websites Example.env "bob"
                  (Example.site_body "Bob Site" "alice-site")
                  Example.after_create
    = (Returned r, Example.after_create)
    ∧ r = {| status := 400; payload := Message "Subdomain already taken" |}
    ∧ condition_of r = Some Conflict.
Proof.
  destruct (post_websites_subdomain_conflict Example.env
              [(Example.alice_creates,
                fst (serve Example.env Example.fresh Example.alice_creates))]
              Example.after_create
              (snd Example.alice_creates) Example.alice_site
              "bob" (Example.site_body "Bob Site" "alice-site"))
    as (r & Hcall & Hstatus & Hcase & _).
  - apply (exec_serve Example.env [] Example.fresh Example.alice_creates).
    apply exec_boot.
  - left. vm_compute; reflexivity.
  - vm_compute; reflexivity.
  - vm_compute; reflexivity.
  - exists r. split; [exact Hcall |]. exact Hcase.
Defined.

(** C5, as stated, fails.  Alice creates her website with the subdomain
    [alice-site].  A second create by Alice for the same subdomain is
    refused, but for the quota, not as a Conflict.  And once Alice has
    deleted her website, Bob's create for that same subdomain succeeds: of
    the two creates for one subdomain, the second is answered 201 and
    persists a row. *)
Lemma post_websites_subdomain_conflict_counterexample :
  condition_of (fst (serve Example.env Example.after_create
                           Example.alice_creates))
  = Some QuotaExceeded
  ∧ map (fun e => (fst (fst e), status (snd e))) (fst Demo.handed_over)
    = [(PostWebsites, 201); (DeleteWebsite, 200); (PostWebsites, 201)]
  ∧ body (snd Demo.bob_takes) !! "subdomain"
    = body (snd Example.alice_creates) !! "subdomain"
  ∧ map (fun x => (Website.userId x, Website.subdomain x))
        (websites (snd Demo.handed_over))
    = [("bob", "alice-site")].
Proof. vm_compute. by repeat split. Qed.

Lemma audit_log_complete_newest_first_witness :
  ∃ logs,
    get_website_logs "alice" 0 (snd Demo.busy)
    = (Returned {| status := 200; payload := LogList logs |}, snd Demo.busy)
    ∧ map WebsiteLog.action logs = ["script_changed"; "updated"; "created"]
    ∧ mutations 0 (fst Demo.busy) = 3.
Proof.
  destruct (audit_log_complete_newest_first Example.env
              (fst Demo.busy) (snd Demo.busy)
              {| Website.id := 0;
                 Website.userId := "alice";
                 Website.name := "5";
                 Website.subdomain := "alice-site";
                 Website.description := None;
                 Website.currentScript := Some "basic.zip";
                 Website.isActive := Some true;
                 Website.createdAt := Some 0;
                 Website.updatedAt := 7 |})
    as (logs & Hcall & Hlength & Hlogs & _).
  - apply serve_all_execution.
  - vm_compute. by left.
  - exists logs. split; [exact Hcall |].
    split; [rewrite Hlogs; vm_compute; reflexivity |].
    vm_compute; reflexivity.
Defined.


Lemma patch_website_keeps_owner_and_subdomain_witness :
  let result :=
    patch_website Example.env "alice" 0
                  (<[ "name" := JNum 5 ]> Example.takeover_body)
                  Example.world in
  map Website.userId (websites (snd result)) = ["alice"]
  ∧ map Website.subdomain (websites (snd result)) = ["alice-site"]
  ∧ map Website.name (websites (snd result)) = ["5"]
  ∧ ∃ site',
      head (List.filter (has_id 0) (websites (snd result))) = Some site'
      ∧ Website.userId site' = "alice"
      ∧ Website.subdomain site' = "alice-site".
Proof.
  destruct (patch_website_keeps_owner_and_subdomain Example.env
              Example.world "alice" 0
              (<[ "name" := JNum 5 ]> Example.takeover_body)
              Example.alice_site
              {| status := 200;
                 payload :=
                   WebsiteJson
                     (head (websites
                              (snd (patch_website Example.env "alice" 0
                                      (<[ "name" := JNum 5 ]>
                                         Example.takeover_body)
                                      Example.world)))) |}
              (snd (patch_website Example.env "alice" 0
                      (<[ "name" := JNum 5 ]> Example.takeover_body)
                      Example.world)))
    as (Husers & Hsubdomains & Hfound & _).
  - vm_compute; reflexivity.
  - reflexivity.
  - vm_compute; reflexivity.
  - split; [exact Husers |]. split; [exact Hsubdomains |].
    split; [vm_compute; reflexivity |].
    apply Hfound. by left.
Defined.

Lemma change_script_leaves_template_store_witness :
  ∃ r w',
    change_script Example.env "alice" 0
                  (Example.script_body "../outside.zip") Example.world
    = (Returned r, w')
    ∧ status r = 200
    ∧ In (ShellExec
            (unzip_command "/srv/app/user_websites/alice/alice-site"
                           "/srv/app/outside.zip"))
         (effects w').
Proof.
  destruct (change_script_leaves_template_store Example.env)
    as (_ & _ & _ & _ & Hserved).
  destruct (Hserved Example.world "alice" 0 Example.alice_site Example.disk)
    as (before & r & w' & Hcall & Hstatus & Heffects & _).
  - vm_compute; reflexivity.
  - reflexivity.
  - vm_compute; reflexivity.
  - vm_compute; reflexivity.
  - vm_compute; reflexivity.
  - vm_compute; reflexivity.
  - exists r, w'. split; [exact Hcall |]. split; [exact Hstatus |].
    rewrite Heffects. apply in_or_app. right. apply in_or_app. right.
    left. vm_compute; reflexivity.
Defined.

Lemma delete_script_any_authenticated_user_witness :
  ∃ w',
    handle Example.env DeleteScript (Example.request "mallory" 2 ∅)
           Example.world
    = (Returned
         {| status := 200;
            payload := Message "Script template deleted successfully" |}, w')
    ∧ FS.read_file (fs w') ["srv"; "app"; "allscripts"; "basic.zip"] false
      = None.
Proof.
  destruct (delete_script_any_authenticated_user Example.env Example.world
              (Example.request "mallory" 2 ∅) "mallory"
              Example.basic_template)
    as (w' & Hcall & _ & Hfile & _).
  - reflexivity.
  - vm_compute; reflexivity.
  - vm_compute; discriminate.
  - exists w'. split; [exact Hcall | exact Hfile].
Defined.

(* ===================================================================== *)
(** * Where the file manager writes *)
(* ===================================================================== *)

Section Confinement.

Variable env : Env.

Import Path.

Lemma baseDir_unfold : baseDir env = cwd env ++ ["user_websites"].
Proof. unfold baseDir. apply PathFacts.join_plain. by repeat constructor. Qed.

Lemma getUserWebsiteDir_plain userId subdomain :
  plain_segment userId = true →
  plain_segment subdomain = true →
  getUserWebsiteDir env userId subdomain
  = cwd env ++ ["user_websites"; userId; subdomain].
Proof.
  intros Hu Hs. unfold getUserWebsiteDir.
  rewrite PathFacts.join_plain by (by repeat constructor).
  rewrite baseDir_unfold. by rewrite <- app_assoc.
Qed.

Lemma prefix_app_same_length {A} (l : list A) a b :
  length a = length b → (l ++ a) `prefix_of` (l ++ b) → a = b.
Proof.
  intros Hlen [k Hk]. rewrite <- app_assoc in Hk.
  apply app_inv_head in Hk.
  assert (k = []) as ->.
  { apply (f_equal (@length A)) in Hk. rewrite length_app in Hk.
    destruct k; [done | cbn in Hk; lia]. }
  by rewrite app_nil_r in Hk.
Qed.

(** X1. The directory of a website whose owner's id is a plain name and
    whose subdomain passed the pattern of the create schema is
    [<cwd>/user_websites/<userId>/<subdomain>]: it lies beneath the base
    directory, the template store and it are not inside one another, and
    the path ends in no separator. *)
Theorem website_dir_of_valid_subdomain (userId subdomain : string) :
  plain_segment userId = true →
  subdomain_pattern subdomain = true →
  getUserWebsiteDir env userId subdomain
  = cwd env ++ ["user_websites"; userId; subdomain]
  ∧ inside (baseDir env) (getUserWebsiteDir env userId subdomain)
  ∧ ¬ inside (scriptsDir env) (getUserWebsiteDir env userId subdomain)
  ∧ ¬ inside (getUserWebsiteDir env userId subdomain) (scriptsDir env)
  ∧ join_trailing [userId; subdomain] = false.
Proof.
  intros Hu Hs.
  pose proof (PathFacts.subdomain_pattern_plain _ Hs) as Hp.
  rewrite (getUserWebsiteDir_plain _ _ Hu Hp), baseDir_unfold,
    scriptsDir_unfold.
  split; [reflexivity |]. split; [| split; [| split]].
  - exists [userId; subdomain]. by rewrite <- app_assoc.
  - intros [k Hk]. rewrite <- app_assoc in Hk.
    apply app_inv_head in Hk. discriminate.
  - intros [k Hk]. rewrite <- app_assoc in Hk.
    apply app_inv_head in Hk. discriminate.
  - cbn [join_trailing existsb].
    assert (subdomain ≠ "") as Hne.
    { intros ->. discriminate. }
    apply String.eqb_neq in Hne. rewrite Hne. cbn [negb orb].
    apply PathFacts.last_char_no_sep, PathFacts.plain_segment_no_sep, Hp.
Qed.

Lemma getUserWebsiteDir_apart u1 s1 u2 s2 :
  plain_segment u1 = true → plain_segment s1 = true →
  plain_segment u2 = true → plain_segment s2 = true →
  (u1, s1) ≠ (u2, s2) →
  ¬ inside (getUserWebsiteDir env u1 s1) (getUserWebsiteDir env u2 s2).
Proof.
  intros Hu1 Hs1 Hu2 Hs2 Hne.
  rewrite !getUserWebsiteDir_plain by done.
  intros Hin. apply prefix_app_same_length in Hin; [| reflexivity].
  congruence.
Qed.

(** X2. Two websites that differ in owner or in subdomain, all four names
    plain, have directories of which neither lies inside the other; no
    path is beneath both. *)
Theorem website_dirs_disjoint (u1 s1 u2 s2 : string) :
  plain_segment u1 = true → plain_segment s1 = true →
  plain_segment u2 = true → plain_segment s2 = true →
  (u1, s1) ≠ (u2, s2) →
  ¬ inside (getUserWebsiteDir env u1 s1) (getUserWebsiteDir env u2 s2)
  ∧ ¬ inside (getUserWebsiteDir env u2 s2) (getUserWebsiteDir env u1 s1)
  ∧ ∀ q, inside (getUserWebsiteDir env u1 s1) q →
         ¬ inside (getUserWebsiteDir env u2 s2) q.
Proof.
  intros Hu1 Hs1 Hu2 Hs2 Hne.
  assert ((u2, s2) ≠ (u1, s1)) as Hne' by congruence.
  split; [by apply getUserWebsiteDir_apart |].
  split; [by apply getUserWebsiteDir_apart |].
  intros q H1 H2.
  destruct (prefix_weak_total _ _ _ H1 H2) as [Hp | Hp];
    revert Hp; by apply getUserWebsiteDir_apart.
Qed.





End Confinement.

(* ===================================================================== *)
(** * What holds of subdomains and directories after any history *)
(* ===================================================================== *)

Section Tenants.

Variable env : Env.

Import Path.

(** What a 201 of [POST /api/websites] tells about the row it made. *)
Lemma post_websites_created userId body w x w' :
  post_websites env userId body w
  = (Returned {| status := 201; payload := WebsiteJson (Some x) |}, w') →
  subdomain_pattern (Website.subdomain x) = true
  ∧ existsb (has_subdomain (Website.subdomain x)) (websites w) = false
  ∧ Website.userId x = userId
  ∧ websites w' = websites w ++ [x].
Proof.
  intros Hpost.
  pose proof (post_websites_run env userId body w) as Hrun.
  destruct (List.filter (owned_by userId) (websites w)) as [| y ys];
    [| rewrite Hrun in Hpost; discriminate].
  destruct (createWebsiteSchema_parse_cases body userId w)
    as [(v & Hv & Hu & _ & _ & _ & Hpat) | (issues & Hissues & _)].
  2:{ rewrite Hissues in Hrun. rewrite Hrun in Hpost. discriminate. }
  rewrite Hv in Hrun.
  destruct (head (List.filter (has_subdomain (InsertWebsite.subdomain v))
                              (websites w))) as [taken |] eqn:Htaken.
  { rewrite Hrun in Hpost. discriminate. }
  cbn zeta in Hrun.
  destruct (FS.mkdir_p _ (fs w)) as [made |].
  2:{ destruct Hrun as [line Hrun]. rewrite Hrun in Hpost. discriminate. }
  rewrite Hrun in Hpost.
  injection Hpost as <- <-. cbn.
  repeat split; try done.
  destruct (existsb _ (websites w)) eqn:Hex; [| done].
  apply head_filter_existsb in Hex as [z Hz]. congruence.
Qed.

Lemma Forall_map_filter {A B} (P : B → Prop) (h : A → B) (g : A → bool) l :
  Forall P (map h l) → Forall P (map h (List.filter g l)).
Proof.
  induction l as [| a l IH]; cbn; [done |].
  intros Hall. inversion Hall; subst.
  destruct (g a); [constructor |]; auto.
Qed.

Lemma Forall2_same_identity_subdomains rows rows' :
  Forall2 same_identity rows rows' →
  map Website.subdomain rows' = map Website.subdomain rows.
Proof.
  induction 1 as [| x y l l' (_ & _ & Hs) _ IH]; cbn; [done |].
  congruence.
Qed.

Lemma execution_subdomains_sound history w :
  execution env history w → subdomains_sound w.
Proof.
  induction 1 as [disk | history w [route req] Hexec [IHv IHd]].
  - assert (keeps_quiet (ensureDirectories env)) as Hq
      by (unfold ensureDirectories; quiet_tac).
    unfold boot.
    destruct (ensureDirectories env _) as [r w'] eqn:Hboot.
    apply Hq in Hboot as (Hw & _). cbn [snd].
    unfold subdomains_sound. rewrite Hw. cbn. split; constructor.
  - pose proof (execution_consistent env _ _ Hexec)
      as (_ & _ & _ & Hlogged & _).
    pose proof (serve_db_step env w route req Hlogged) as Hstep.
    destruct (serve env w (route, req)) as [resp w'] eqn:Hserve.
    cbn [fst snd] in *. unfold subdomains_sound.
    destruct Hstep
      as [(Hw & _) _
         | x l -> -> Huser _ _ Hw _ _ _ _ _
         | l _ _ HF _ _ _ _ _ _
         | -> _ Hw _ _ _].
    + by rewrite Hw.
    + unfold serve, handle, isAuthenticated in Hserve.
      cbn [fst snd] in Hserve. rewrite Huser in Hserve.
      destruct (post_websites env (Website.userId x) (body req) w)
        as [[r | e] w''] eqn:Hpost; [| discriminate].
      injection Hserve as -> ->.
      apply post_websites_created in Hpost as (Hpat & Hfree & _ & _).
      rewrite Hw, map_app. cbn [map]. split.
      * apply Forall_app. split; [exact IHv | by constructor].
      * apply NoDup_app. split; [exact IHd |]. split; [| apply NoDup_singleton].
        intros s Hs [<- | []]%list_elem_of_In.
        apply list_elem_of_In, in_map_iff in Hs as (z & Hz & Hin).
        assert (existsb (has_subdomain (Website.subdomain x)) (websites w)
                = true) as Hex; [| congruence].
        apply existsb_exists. exists z. split; [exact Hin |].
        unfold has_subdomain. by apply String.eqb_eq.
    + by rewrite (Forall2_same_identity_subdomains _ _ HF).
    + rewrite Hw. split.
      * by apply Forall_map_filter.
      * by apply NoDup_map_filter.
Qed.

Lemma NoDup_map_In_eq {A B} (h : A → B) l a b :
  NoDup (map h l) → In a l → In b l → h a = h b → a = b.
Proof.
  induction l as [| x l IH]; [intros _ [] |].
  cbn [map]. intros [Hx Hl]%NoDup_cons [-> | Ha] [-> | Hb] Heq; auto.
  - exfalso. apply Hx. rewrite Heq.
    apply list_elem_of_In, in_map, Hb.
  - exfalso. apply Hx. rewrite <- Heq.
    apply list_elem_of_In, in_map, Ha.
Qed.

(** X5. Whatever requests were served since start-up, every subdomain in
    the table [websites] matches the pattern [[a-z0-9-]+] and no two rows
    share a subdomain: rows are made by [POST /api/websites] alone, which
    validates the subdomain and looks it up first, and neither [PATCH] nor
    [change-script] can set the column.  A subdomain therefore names its
    row, and [getWebsiteBySubdomain] finds that row. *)
Theorem reachable_subdomains_sound
    (history : list (Route * Request * Response)) (w : World) :
  execution env history w →
  subdomains_sound w
  ∧ (∀ x, In x (websites w) →
          subdomain_pattern (Website.subdomain x) = true
          ∧ plain_segment (Website.subdomain x) = true)
  ∧ (∀ x y, In x (websites w) → In y (websites w) →
            Website.subdomain x = Website.subdomain y → x = y)
  ∧ ∀ x, In x (websites w) →
         getWebsiteBySubdomain (Website.subdomain x) w
         = (Returned (Some x), w).
Proof.
  intros Hexec.
  pose proof (execution_subdomains_sound _ _ Hexec) as Hsound.
  destruct Hsound as [Hvalid Hdistinct].
  assert (∀ x y, In x (websites w) → In y (websites w) →
            Website.subdomain x = Website.subdomain y → x = y) as Hinj
    by (intros x y; by apply NoDup_map_In_eq).
  split; [by split |]. split; [| split; [exact Hinj |]].
  - intros x Hx. rewrite Forall_forall in Hvalid.
    assert (subdomain_pattern (Website.subdomain x) = true) as Hpat
      by (apply Hvalid, list_elem_of_In, in_map, Hx).
    split; [exact Hpat | by apply PathFacts.subdomain_pattern_plain].
  - intros x Hx. rewrite getWebsiteBySubdomain_run. do 2 f_equal.
    destruct (head (List.filter (has_subdomain (Website.subdomain x))
                                (websites w))) as [y |] eqn:Hy.
    + apply head_filter_In in Hy as [Hyin Hys].
      f_equal. apply Hinj; [exact Hyin | exact Hx |].
      by apply String.eqb_eq.
    + exfalso.
      assert (existsb (has_subdomain (Website.subdomain x)) (websites w)
              = true) as Hex.
      { apply existsb_exists. exists x. split; [exact Hx |].
        apply String.eqb_refl. }
      apply head_filter_existsb in Hex as [z Hz]. congruence.
Qed.







End Tenants.

(* ===================================================================== *)
(** * More of the website routes *)
(* ===================================================================== *)

Section WebsiteRoutes.

Variable env : Env.

Import Path.



Lemma handle_user route req userId :
  user req = Some userId →
  handle env route req
  = match route with
    | GetWebsites => get_websites userId
    | GetWebsite => get_website userId (params_id req)
    | PostWebsites => post_websites env userId (body req)
    | PatchWebsite => patch_website env userId (params_id req) (body req)
    | DeleteWebsite => delete_website env userId (params_id req)
    | ChangeScript => change_script env userId (params_id req) (body req)
    | GetWebsiteLogs => get_website_logs userId (params_id req)
    | UploadScript =>
        upload_single (file req) (upload_script env (body req) (file req))
    | DeleteScript => delete_script env (params_id req)
    end.
Proof. intros Huser. unfold handle, isAuthenticated. by rewrite Huser. Qed.

(** X9. A website that belongs to somebody else is off limits on every
    route that addresses a website by id: reading it, patching it, deleting
    it, changing its script and reading its audit log are all answered 403
    [Access denied], and the world is left exactly as it was. *)
Theorem foreign_website_access_denied
    (route : Route) (req : Request) (userId : string) (site : Website.t)
    (w : World) :
  user req = Some userId →
  head (List.filter (has_id (params_id req)) (websites w)) = Some site →
  Website.userId site ≠ userId →
  In route
     [GetWebsite; PatchWebsite; DeleteWebsite; ChangeScript; GetWebsiteLogs] →
  (route = ChangeScript → truthy (body req !! "scriptName") = true) →
  handle env route req w
  = (Returned {| status := 403; payload := Message "Access denied" |}, w)
  ∧ condition_of {| status := 403; payload := Message "Access denied" |}
    = Some Forbidden.
Proof.
  intros Huser Hsite Hother Hroute Hname.
  split; [| reflexivity].
  rewrite (handle_user route req userId Huser).
  apply String.eqb_neq in Hother.
  cbn [In] in Hroute.
  destruct Hroute as [<- | [<- | [<- | [<- | [<- | []]]]]].
  - unfold get_website, try_catch, bind. rewrite getWebsite_run, Hsite.
    by rewrite Hother.
  - pose proof (patch_website_run env userId (params_id req) (body req) w)
      as Hrun.
    by rewrite Hsite, Hother in Hrun.
  - pose proof (delete_website_run env userId (params_id req) w) as Hrun.
    by rewrite Hsite, Hother in Hrun.
  - pose proof (change_script_run env userId (params_id req) (body req) w)
      as Hrun.
    by rewrite (Hname eq_refl), Hsite, Hother in Hrun.
  - unfold get_website_logs, try_catch, bind. rewrite getWebsite_run, Hsite.
    by rewrite Hother.
Qed.

(** X10. An id that no row carries is answered 404 [Website not found] on
    every route that addresses a website by id, and the world is left
    exactly as it was. *)
Theorem unknown_website_not_found
    (route : Route) (req : Request) (userId : string) (w : World) :
  user req = Some userId →
  head (List.filter (has_id (params_id req)) (websites w)) = None →
  In route
     [GetWebsite; PatchWebsite; DeleteWebsite; ChangeScript; GetWebsiteLogs] →
  (route = ChangeScript → truthy (body req !! "scriptName") = true) →
  handle env route req w
  = (Returned {| status := 404; payload := Message "Website not found" |}, w)
  ∧ condition_of {| status := 404; payload := Message "Website not found" |}
    = Some NotFound.
Proof.
  intros Huser Hsite Hroute Hname.
  split; [| reflexivity].
  rewrite (handle_user route req userId Huser).
  cbn [In] in Hroute.
  destruct Hroute as [<- | [<- | [<- | [<- | [<- | []]]]]].
  - unfold get_website, try_catch, bind. by rewrite getWebsite_run, Hsite.
  - pose proof (patch_website_run env userId (params_id req) (body req) w)
      as Hrun.
    by rewrite Hsite in Hrun.
  - pose proof (delete_website_run env userId (params_id req) w) as Hrun.
    by rewrite Hsite in Hrun.
  - pose proof (change_script_run env userId (params_id req) (body req) w)
      as Hrun.
    by rewrite (Hname eq_refl), Hsite in Hrun.
  - unfold get_website_logs, try_catch, bind.
    by rewrite getWebsite_run, Hsite.
Qed.

End WebsiteRoutes.

(* ===================================================================== *)
(** * Validation and listing *)
(* ===================================================================== *)

Section Listing.

Variable env : Env.

Lemma insert_desc_Permutation {A} (key : A → nat) x l :
  Permutation (insert_desc key x l) (x :: l).
Proof.
  induction l as [| y l IH]; cbn [insert_desc]; [reflexivity |].
  destruct (Nat.ltb (key y) (key x)); [reflexivity |].
  rewrite IH. apply perm_swap.
Qed.

Lemma order_desc_Permutation {A} (key : A → nat) l :
  Permutation (order_desc key l) l.
Proof.
  induction l as [| x l IH]; cbn; [reflexivity |].
  rewrite insert_desc_Permutation. by constructor.
Qed.

Lemma insert_desc_sorted {A} (key : A → nat) x l :
  StronglySorted (fun a b => key b ≤ key a) l →
  StronglySorted (fun a b => key b ≤ key a) (insert_desc key x l).
Proof.
  induction 1 as [| y l Hsorted IH Hall]; cbn [insert_desc].
  - repeat constructor.
  - destruct (Nat.ltb_spec (key y) (key x)) as [Hlt | Hge].
    + constructor; [by constructor |].
      constructor; [lia |].
      eapply Forall_impl; [exact Hall |]. cbn. intros b Hb. lia.
    + constructor; [exact IH |].
      rewrite insert_desc_Permutation. by constructor.
Qed.

Lemma order_desc_sorted {A} (key : A → nat) l :
  StronglySorted (fun a b => key b ≤ key a) (order_desc key l).
Proof.
  induction l as [| x l IH]; cbn; [constructor |].
  by apply insert_desc_sorted.
Qed.

Lemma insert_asc_Permutation {A} (le : A → A → bool) x l :
  Permutation (insert_asc le x l) (x :: l).
Proof.
  induction l as [| y l IH]; cbn [insert_asc]; [reflexivity |].
  destruct (le x y); [reflexivity |].
  rewrite IH. apply perm_swap.
Qed.

Lemma order_asc_Permutation {A} (le : A → A → bool) l :
  Permutation (order_asc le l) l.
Proof.
  induction l as [| x l IH]; cbn; [reflexivity |].
  rewrite insert_asc_Permutation. by constructor.
Qed.

Lemma insert_asc_sorted {A} (le : A → A → bool) x l :
  (∀ a b, le a b = true ∨ le b a = true) →
  Sorted (fun a b => le a b = true) l →
  Sorted (fun a b => le a b = true) (insert_asc le x l).
Proof.
  intros Htotal. induction 1 as [| y l Hsorted IH Hhd]; cbn [insert_asc].
  - repeat constructor.
  - destruct (le x y) eqn:Hxy.
    + constructor; [by constructor |]. by constructor.
    + constructor; [exact IH |].
      assert (le y x = true) as Hyx by (destruct (Htotal x y); congruence).
      destruct l as [| z l]; cbn [insert_asc]; [by constructor |].
      inversion Hhd; subst.
      destruct (le x z); by constructor.
Qed.

Lemma order_asc_sorted {A} (le : A → A → bool) l :
  (∀ a b, le a b = true ∨ le b a = true) →
  Sorted (fun a b => le a b = true) (order_asc le l).
Proof.
  intros Htotal. induction l as [| x l IH]; cbn; [constructor |].
  by apply insert_asc_sorted.
Qed.

Lemma insert_asc_strongly_sorted {A} (le : A → A → bool) x l :
  (∀ a b, le a b = true ∨ le b a = true) →
  (∀ a b c, le a b = true → le b c = true → le a c = true) →
  StronglySorted (fun a b => le a b = true) l →
  StronglySorted (fun a b => le a b = true) (insert_asc le x l).
Proof.
  intros Htotal Htrans.
  induction 1 as [| y l Hsorted IH Hall]; cbn [insert_asc].
  - repeat constructor.
  - destruct (le x y) eqn:Hxy.
    + constructor; [by constructor |].
      constructor; [exact Hxy |].
      eapply Forall_impl; [exact Hall |]. cbn. intros b Hb. eauto.
    + constructor; [exact IH |].
      rewrite insert_asc_Permutation. constructor; [| exact Hall].
      destruct (Htotal x y); congruence.
Qed.

Lemma order_asc_strongly_sorted {A} (le : A → A → bool) l :
  (∀ a b, le a b = true ∨ le b a = true) →
  (∀ a b c, le a b = true → le b c = true → le a c = true) →
  StronglySorted (fun a b => le a b = true) (order_asc le l).
Proof.
  intros Htotal Htrans. induction l as [| x l IH]; cbn; [constructor |].
  by apply insert_asc_strongly_sorted.
Qed.

Lemma StronglySorted_weaken {A} (R S : A → A → Prop) l :
  (∀ a b, R a b → S a b) → StronglySorted R l → StronglySorted S l.
Proof.
  intros HRS. induction 1 as [| x l Hsorted IH Hall]; constructor;
    [exact IH |].
  eapply Forall_impl; [exact Hall |]. cbn. auto.
Qed.

Lemma created_desc_total a b :
  created_desc a b = true ∨ created_desc b a = true.
Proof.
  unfold created_desc.
  destruct (Website.createdAt a) as [x |], (Website.createdAt b) as [y |];
    auto.
  destruct (Nat.leb_spec y x); [by left |].
  right. apply Nat.leb_le. lia.
Qed.

Lemma created_desc_trans a b c :
  created_desc a b = true → created_desc b c = true →
  created_desc a c = true.
Proof.
  unfold created_desc.
  destruct (Website.createdAt a) as [x |], (Website.createdAt b) as [y |],
    (Website.createdAt c) as [z |]; try done.
  intros H1%Nat.leb_le H2%Nat.leb_le. apply Nat.leb_le. lia.
Qed.

(** X11. [GET /api/websites] always answers 200 and changes nothing; the
    list holds the caller's rows and no others, each as often as the table
    holds it, in the descending order of [createdAt]: the newest first,
    after the rows whose [createdAt] is [null], if any. *)
Theorem get_websites_lists_own_websites (userId : string) (w : World) :
  ∃ rows,
    get_websites userId w
    = (Returned {| status := 200; payload := WebsiteList rows |}, w)
    ∧ Permutation rows (List.filter (owned_by userId) (websites w))
    ∧ (∀ x, In x rows ↔ In x (websites w) ∧ Website.userId x = userId)
    ∧ StronglySorted
        (fun a b =>
           match Website.createdAt a, Website.createdAt b with
           | Some ta, Some tb => tb ≤ ta
           | Some _, None => False
           | None, _ => True
           end) rows.
Proof.
  eexists. split; [reflexivity |].
  split; [apply order_asc_Permutation |].
  split.
  - intros x. rewrite <- !list_elem_of_In.
    rewrite (order_asc_Permutation created_desc).
    rewrite !list_elem_of_In, filter_In. unfold owned_by.
    by rewrite String.eqb_eq.
  - eapply StronglySorted_weaken;
      [| apply (order_asc_strongly_sorted created_desc);
         [apply created_desc_total | apply created_desc_trans]].
    intros a b. unfold created_desc.
    destruct (Website.createdAt a) as [x |], (Website.createdAt b) as [y |];
      try done.
    by intros ?%Nat.leb_le.
Qed.

(** X12. [GET /api/websites/:id/logs], asked by the owner in any state of
    the database, answers 200 and changes nothing; the list holds the
    audit entries of that website and no others, each once, the newest
    first. *)
Theorem get_website_logs_lists_entries
    (userId : string) (id : uuid) (site : Website.t) (w : World) :
  head (List.filter (has_id id) (websites w)) = Some site →
  Website.userId site = userId →
  ∃ logs,
    get_website_logs userId id w
    = (Returned {| status := 200; payload := LogList logs |}, w)
    ∧ Permutation logs (entries_of id w)
    ∧ (∀ l, In l logs ↔ In l (websiteLogs w) ∧ WebsiteLog.websiteId l = id)
    ∧ StronglySorted
        (fun a b => WebsiteLog.createdAt b ≤ WebsiteLog.createdAt a) logs.
Proof.
  intros Hsite Hown. apply String.eqb_eq in Hown.
  exists (order_desc WebsiteLog.createdAt
            (List.filter (log_of id) (websiteLogs w))).
  split.
  { unfold get_website_logs, try_catch, bind.
    rewrite getWebsite_run, Hsite, Hown. reflexivity. }
  split; [apply order_desc_Permutation |].
  split; [| apply order_desc_sorted].
  intros l. rewrite <- !list_elem_of_In.
  rewrite (order_desc_Permutation WebsiteLog.createdAt).
  rewrite !list_elem_of_In, filter_In. unfold log_of.
  by rewrite Nat.eqb_eq.
Qed.

Lemma createWebsiteSchema_parse_subdomain body userId w :
  (∀ s, body !! "subdomain" = Some (JStr s) → subdomain_pattern s = false) →
  ∃ issues,
    createWebsiteSchema_parse body userId w = (Thrown (ZodError issues), w)
    ∧ In "subdomain" issues.
Proof.
  intros Hbad. unfold createWebsiteSchema_parse.
  assert (match zod_string_min1 (body !! "subdomain") with
          | Some s => if subdomain_pattern s then Some s else None
          | None => None
          end = None) as ->.
  { destruct (body !! "subdomain") as [[| | | s | |] |]; try reflexivity.
    cbn. destruct (String.eqb s ""); [reflexivity |].
    by rewrite (Hbad s eq_refl). }
  exists (issue_unless "name" (zod_string_min1 (body !! "name"))
          ++ issue_unless (A := string) "subdomain" None
          ++ issue_unless "description"
               (zod_optional_text (body !! "description"))
          ++ issue_unless "currentScript"
               (zod_optional_text (body !! "currentScript"))
          ++ issue_unless "isActive"
               (zod_optional_bool (body !! "isActive"))).
  split.
  - destruct (zod_string_min1 (body !! "name")); reflexivity.
  - apply in_or_app. right. by left.
Qed.

(** X13. A body whose [subdomain] is missing, is no string, or is a
    string that does not match [[a-z0-9-]+] is refused by
    [POST /api/websites] with 400 and a list of issues that names the
    field [subdomain]; nothing is written, no directory is made. *)
Theorem post_websites_rejects_invalid_subdomain
    (userId : string) (body : gmap string json) (w : World) :
  List.filter (owned_by userId) (websites w) = [] →
  (∀ s, body !! "subdomain" = Some (JStr s) → subdomain_pattern s = false) →
  ∃ issues,
    post_websites env userId body w
    = (Returned {| status := 400; payload := ValidationFailed issues |}, w)
    ∧ In "subdomain" issues
    ∧ condition_of {| status := 400; payload := ValidationFailed issues |}
      = Some InvalidInput.
Proof.
  intros Hnone Hbad.
  pose proof (post_websites_run env userId body w) as Hrun.
  rewrite Hnone in Hrun.
  destruct (createWebsiteSchema_parse_subdomain body userId w Hbad)
    as (issues & Hparse & Hin).
  rewrite Hparse in Hrun. by exists issues.
Qed.

(** X14. The owner of a new website is the session's user: a [userId]
    that the body of [POST /api/websites] carries is overwritten before
    validation and changes neither the answer nor the world reached. *)
Theorem post_websites_ignores_body_owner
    (userId : string) (body : gmap string json) (forged : json) (w : World) :
  post_websites env userId (<["userId" := forged]> body) w
  = post_websites env userId body w.
Proof.
  assert (createWebsiteSchema_parse (<["userId" := forged]> body) userId
          = createWebsiteSchema_parse body userId) as Hparse.
  { unfold createWebsiteSchema_parse.
    by rewrite !lookup_insert_ne by discriminate. }
  unfold post_websites. by rewrite Hparse.
Qed.

End Listing.

(* ===================================================================== *)
(** * The template store *)
(* ===================================================================== *)

Section TemplateStore.

Variable env : Env.
Variable collation : string → string → bool.

Import Path.

Lemma readdir_entries root p names :
  FS.readdir root p = Some names →
  ∃ es, FS.lookup_path p root = Some (FS.Dir es)
        ∧ ∀ s, In s names ↔ is_Some (es !! s).
Proof.
  unfold FS.readdir.
  destruct (FS.lookup_path p root) as [[d | es] |]; try discriminate.
  intros [= <-]. exists es. split; [reflexivity |].
  intros s. rewrite in_map_iff. split.
  - intros ([s' c] & <- & Hin%list_elem_of_In%elem_of_map_to_list). eauto.
  - intros [c Hc]. exists (s, c). split; [reflexivity |].
    by apply list_elem_of_In, elem_of_map_to_list.
Qed.

Lemma getAvailableScripts_run w :
  ∃ w',
    getAvailableScripts env w = (Returned (available env w), w')
    ∧ db_unchanged w w' ∧ fs w' = fs w ∧ effects w' = effects w.
Proof.
  unfold getAvailableScripts, available, try_catch, bind, fs_readdir.
  destruct (FS.readdir (fs w) (scriptsDir env)) as [names |].
  - exists w. by repeat split.
  - eexists. split; [reflexivity |]. by repeat split.
Qed.

Lemma is_active_true t :
  is_active t = true ↔ ScriptTemplate.isActive t = Some true.
Proof.
  unfold is_active. destruct (ScriptTemplate.isActive t) as [[] |];
    split; congruence.
Qed.

(** X15. [getScriptTemplates] returns the templates whose [isActive] is
    [true], each as often as the table holds it, and changes nothing; when
    the collation compares any two names, neighbours in the list are in
    the order of their display names. *)
Theorem getScriptTemplates_active_in_order (w : World) :
  (∀ a b, collation a b = true ∨ collation b a = true) →
  ∃ rows,
    getScriptTemplates collation w = (Returned rows, w)
    ∧ Permutation rows (List.filter is_active (scriptTemplates w))
    ∧ (∀ t, In t rows
            ↔ In t (scriptTemplates w)
              ∧ ScriptTemplate.isActive t = Some true)
    ∧ Sorted (fun a b => collation (ScriptTemplate.displayName a)
                                   (ScriptTemplate.displayName b) = true)
             rows.
Proof.
  intros Htotal. eexists. split; [reflexivity |].
  split; [apply order_asc_Permutation |]. split.
  - intros t. rewrite <- !list_elem_of_In.
    rewrite order_asc_Permutation.
    by rewrite !list_elem_of_In, filter_In, is_active_true.
  - apply (order_asc_sorted
             (fun a b => collation (ScriptTemplate.displayName a)
                                   (ScriptTemplate.displayName b))).
    intros a b. apply Htotal.
Qed.

Lemma get_scripts_run w :
  ∃ w',
    get_scripts env collation w
    = (Returned
         (200,
          ScriptList
            (map (fun t =>
                    {| template := t;
                       fileExists :=
                         existsb (String.eqb (ScriptTemplate.fileName t))
                                 (available env w) |})
                 (order_asc
                    (fun a b => collation (ScriptTemplate.displayName a)
                                          (ScriptTemplate.displayName b))
                    (List.filter is_active (scriptTemplates w))))), w')
    ∧ db_unchanged w w' ∧ fs w' = fs w ∧ effects w' = effects w.
Proof.
  destruct (getAvailableScripts_run w) as (w' & Hrun & Hdb & Hfs & Heff).
  exists w'. split; [| done].
  unfold get_scripts, try_catch, bind, getScriptTemplates, gets.
  by rewrite Hrun.
Qed.

Lemma existsb_eqb_In s l : existsb (String.eqb s) l = true ↔ In s l.
Proof.
  rewrite existsb_exists. split.
  - by intros (x & Hx & ->%String.eqb_eq).
  - intros H. exists s. split; [exact H | apply String.eqb_refl].
Qed.

Lemma available_In w s :
  In s (available env w)
  ↔ endsWith ".zip" s = true
    ∧ ∃ es, FS.lookup_path (scriptsDir env) (fs w) = Some (FS.Dir es)
            ∧ is_Some (es !! s).
Proof.
  unfold available.
  destruct (FS.readdir (fs w) (scriptsDir env)) as [names |] eqn:Hread.
  - destruct (readdir_entries _ _ _ Hread) as (es & Hdir & Hnames).
    rewrite filter_In, Hnames. split.
    + intros [Hs Hzip]. split; [exact Hzip |]. by exists es.
    + intros [Hzip (es' & Hdir' & Hs)]. split; [| exact Hzip]. congruence.
  - split; [intros [] |]. intros [_ (es & Hdir & _)].
    unfold FS.readdir in Hread. by rewrite Hdir in Hread.
Qed.

(** X16. [GET /api/scripts] always answers 200, whatever the state of the
    store directory, and writes nothing to the database or the filesystem.
    It lists the active templates and no others; a row is marked
    [fileExists] exactly when the template's file name ends in [.zip] and
    is the name of an entry of the store directory. *)
Theorem get_scripts_marks_stored_archives (w : World) :
  ∃ rows w',
    get_scripts env collation w = (Returned (200, ScriptList rows), w')
    ∧ db_unchanged w w' ∧ fs w' = fs w ∧ effects w' = effects w
    ∧ Permutation (map template rows)
                  (List.filter is_active (scriptTemplates w))
    ∧ ∀ row, In row rows →
        (fileExists row = true
         ↔ endsWith ".zip" (ScriptTemplate.fileName (template row)) = true
           ∧ ∃ es,
               FS.lookup_path (scriptsDir env) (fs w) = Some (FS.Dir es)
               ∧ is_Some (es !! ScriptTemplate.fileName (template row))).
Proof.
  destruct (get_scripts_run w) as (w' & Hrun & Hdb & Hfs & Heff).
  eexists _, w'. split; [exact Hrun |].
  repeat (split; [done |]). split.
  - rewrite map_map. cbn [template]. rewrite map_id.
    apply order_asc_Permutation.
  - intros row (t & <- & _)%in_map_iff. cbn [fileExists template].
    by rewrite existsb_eqb_In, available_In.
Qed.

Lemma zip_name_plain s :
  endsWith ".zip" s = true → no_sep s = true → plain_segment s = true.
Proof.
  intros Hzip%NameFacts.endsWith_length Hsep.
  unfold plain_segment. rewrite Hsep.
  destruct (String.eqb_spec s "") as [-> |]; [cbn in Hzip; lia |].
  destruct (String.eqb_spec s ".") as [-> |]; [cbn in Hzip; lia |].
  destruct (String.eqb_spec s "..") as [-> |]; [cbn in Hzip; lia |].
  reflexivity.
Qed.

(** X17. A script that [GET /api/scripts] offers as existing is accepted
    by [change-script]: when the file name holds no separator, the
    existence check of the file manager answers [true] for it, and the
    owner who asks for it is answered 200 or, when extraction fails, 500,
    never [Script not found]. *)
Theorem offered_script_is_accepted
    (w : World) (rows : list ScriptWithFile) (w' : World)
    (row : ScriptWithFile) :
  get_scripts env collation w = (Returned (200, ScriptList rows), w') →
  In row rows →
  fileExists row = true →
  no_sep (ScriptTemplate.fileName (template row)) = true →
  scriptExists env (JStr (ScriptTemplate.fileName (template row))) w'
  = (Returned true, w')
  ∧ ∀ userId id site r w'',
      head (List.filter (has_id id) (websites w')) = Some site →
      Website.userId site = userId →
      change_script env userId id
        {[ "scriptName" := JStr (ScriptTemplate.fileName (template row)) ]}
        w' = (r, w'') →
      ∃ resp, r = Returned resp ∧ (status resp = 200 ∨ status resp = 500)
              ∧ payload resp ≠ Message "Script not found".
Proof.
  intros Hget Hrow Hexists Hsep.
  destruct (get_scripts_run w) as (w0 & Hrun & _ & Hfs & _).
  rewrite Hrun in Hget. injection Hget as <- <-.
  apply in_map_iff in Hrow as (t & <- & _).
  cbn [fileExists template] in *.
  apply existsb_eqb_In, available_In in Hexists as (Hzip & es & Hdir & [c Hc]).
  pose proof (zip_name_plain _ Hzip Hsep) as Hplain.
  assert (FS.access (fs w0) (scriptPathOf env (ScriptTemplate.fileName t))
                    (trailing_sep (ScriptTemplate.fileName t)) = true)
    as Haccess.
  { unfold FS.access, scriptPathOf.
    rewrite PathFacts.join_plain by (by repeat constructor).
    rewrite FSFrame.lookup_path_app, Hfs, Hdir. cbn. rewrite Hc.
    rewrite (PathFacts.last_char_no_sep _ Hsep). by destruct c. }
  split; [by rewrite scriptExists_run, Haccess |].
  intros userId id site r w'' Hsite Hown Hchange.
  pose proof (change_script_run env userId id
                {[ "scriptName" := JStr (ScriptTemplate.fileName t) ]} w0)
    as Hcase.
  rewrite lookup_singleton_eq in Hcase.
  assert (ScriptTemplate.fileName t ≠ "") as Hne.
  { intros Heq. rewrite Heq in Hplain. discriminate. }
  apply truthy_string in Hne. rewrite Hne in Hcase. cbn [negb] in Hcase.
  rewrite Hsite in Hcase. apply String.eqb_eq in Hown.
  rewrite Hown, Haccess in Hcase. cbn [negb] in Hcase. cbv zeta in Hcase.
  destruct (FS.mkdir_p _ (fs w0)) as [made |].
  - destruct (Nat.eqb (sh_status _) 0).
    + destruct Hcase as (before & w1 & Hcase & _).
      rewrite Hcase in Hchange. injection Hchange as <- <-.
      eexists. split; [reflexivity |]. split; [by left | discriminate].
    + destruct Hcase as (w1 & Hcase & _).
      rewrite Hcase in Hchange. injection Hchange as <- <-.
      eexists. split; [reflexivity |]. split; [by right | discriminate].
  - destruct Hcase as (w1 & Hcase & _).
    rewrite Hcase in Hchange. injection Hchange as <- <-.
    eexists. split; [reflexivity |]. split; [by right | discriminate].
Qed.

Lemma optional_text_field body k w :
  multipart body →
  ∃ d,
    (if truthy (body !! k)
     then bind (text_field (body !! k)) (fun d => ret (Some d))
     else ret None) w = (Returned d, w).
Proof.
  intros Hform. destruct (body !! k) as [v |] eqn:Hk; [| by eexists].
  destruct (Hform k v Hk) as [s ->]. cbn [truthy].
  destruct (negb (String.eqb s "")); by eexists.
Qed.

Lemma version_field body w :
  multipart body →
  ∃ v,
    (if truthy (body !! "version")
     then text_field (body !! "version")
     else ret "1.0.0") w = (Returned v, w).
Proof.
  intros Hform. destruct (body !! "version") as [v |] eqn:Hk; [| by eexists].
  destruct (Hform _ v Hk) as [s ->]. cbn [truthy].
  destruct (negb (String.eqb s "")); by eexists.
Qed.

Lemma uploadScript_run fileName data w root' :
  FS.write_file (fs w) (join (scriptsDir env) [fileName]) data = Some root' →
  uploadScript env fileName data w
  = (Returned tt,
     with_console (console w ++ [ConsoleLog ("Uploaded script: " +:+ fileName)])
       (with_effects
          (effects w ++ [FsWriteFile (join (scriptsDir env) [fileName])])
          (with_fs root' w))).
Proof.
  intros Hwrite. unfold uploadScript, try_catch, bind, fs_writeFile.
  by rewrite Hwrite.
Qed.

Lemma head_filter_None {A} (f : A → bool) l :
  head (List.filter f l) = None ↔ existsb f l = false.
Proof.
  destruct (existsb f l) eqn:Hex.
  - apply head_filter_existsb in Hex as [x Hx]. rewrite Hx. split; congruence.
  - split; [done |]. intros _.
    destruct (head (List.filter f l)) as [x |] eqn:Hx; [| done].
    assert (existsb f l = true) by (apply head_filter_existsb; eauto).
    congruence.
Qed.

Lemma createScriptTemplate_run v w :
  head (List.filter
          (fun t => String.eqb (ScriptTemplate.name t)
                               (InsertScriptTemplate.name v))
          (scriptTemplates w)) = None →
  let t :=
    {| ScriptTemplate.id := uuids w;
       ScriptTemplate.name := InsertScriptTemplate.name v;
       ScriptTemplate.displayName := InsertScriptTemplate.displayName v;
       ScriptTemplate.description := InsertScriptTemplate.description v;
       ScriptTemplate.version := Some (InsertScriptTemplate.version v);
       ScriptTemplate.fileName := InsertScriptTemplate.fileName v;
       ScriptTemplate.isActive := Some true;
       ScriptTemplate.createdAt := clock w;
       ScriptTemplate.updatedAt := clock w |} in
  createScriptTemplate v w
  = (Returned t,
     with_effects (effects w ++ [DbInsertTemplate (uuids w)])
       (with_scriptTemplates (scriptTemplates w ++ [t])
          (with_clock (S (clock w)) (with_uuids (S (uuids w)) w)))).
Proof.
  intros Hfree%head_filter_None. cbv zeta.
  unfold createScriptTemplate, bind, gets. rewrite Hfree.
  reflexivity.
Qed.

Lemma upload_script_run body f name displayName w root' :
  multipart body →
  body !! "name" = Some (JStr name) → name ≠ "" →
  body !! "displayName" = Some (JStr displayName) → displayName ≠ "" →
  head (List.filter (fun t => String.eqb (ScriptTemplate.name t) name)
                    (scriptTemplates w)) = None →
  FS.write_file (fs w) (join (scriptsDir env) [name +:+ ".zip"]) (buffer f)
  = Some root' →
  ∃ description version,
    let t :=
      {| ScriptTemplate.id := uuids w;
         ScriptTemplate.name := name;
         ScriptTemplate.displayName := displayName;
         ScriptTemplate.description := description;
         ScriptTemplate.version := Some version;
         ScriptTemplate.fileName := name +:+ ".zip";
         ScriptTemplate.isActive := Some true;
         ScriptTemplate.createdAt := clock w;
         ScriptTemplate.updatedAt := clock w |} in
    upload_script env body (Some f) w
    = (Returned {| status := 201; payload := TemplateJson t |},
       {| fs := root';
          websites := websites w;
          websiteLogs := websiteLogs w;
          scriptTemplates := scriptTemplates w ++ [t];
          clock := S (clock w);
          uuids := S (uuids w);
          effects :=
            effects w
            ++ [FsWriteFile (join (scriptsDir env) [name +:+ ".zip"]);
                DbInsertTemplate (uuids w)];
          console :=
            console w
            ++ [ConsoleLog ("Uploaded script: " +:+ name +:+ ".zip")] |}).
Proof.
  intros Hform Hname Hne Hdisp Hdne Hfree Hwrite.
  apply truthy_string in Hne, Hdne.
  unfold upload_script, try_catch at 1, bind at 1.
  rewrite Hname, Hdisp, Hne, Hdne. cbn [negb orb text_field].
  unfold bind at 1. cbn [ret]. unfold bind at 1. cbn [ret].
  unfold bind at 1. unfold getScriptTemplateByName at 1, gets.
  rewrite Hfree.
  rewrite (uploadScript_run _ _ _ _ Hwrite).
  set (w1 := with_console _ _).
  destruct (optional_text_field body "description" w1 Hform) as [d Hd].
  destruct (version_field body w1 Hform) as [v Hv].
  exists d, v. cbv zeta.
  unfold bind at 1. rewrite Hd.
  unfold bind at 1. rewrite Hv.
  unfold bind at 1.
  rewrite createScriptTemplate_run by exact Hfree.
  unfold respond, ret, w1. cbn. by rewrite <- !app_assoc.
Qed.

Lemma write_file_parent root parent s data root' :
  FS.write_file root (parent ++ [s]) data = Some root' →
  ∃ es, FS.lookup_path parent root' = Some (FS.Dir es)
        ∧ es !! s = Some (FS.File data).
Proof.
  intros Hread%FSFrame.write_file_read. unfold FS.read_file in Hread.
  rewrite FSFrame.lookup_path_app in Hread.
  destruct (FS.lookup_path parent root') as [[d | es] |]; try discriminate.
  exists es. split; [reflexivity |]. cbn in Hread.
  destruct (es !! s) as [[d | es'] |]; try discriminate. congruence.
Qed.

Lemma trailing_sep_zip name : trailing_sep (name +:+ ".zip") = false.
Proof.
  unfold trailing_sep. by rewrite NameFacts.last_char_append.
Qed.

(** X18. Upload round trip.  When [POST /api/scripts/upload] gets a file,
    a name that no template carries yet and a display name, and the
    archive can be written, it answers 201; afterwards the bytes uploaded
    are what the store holds under [<name>.zip], the existence check of
    the file manager answers [true] for the template's file name, and the
    template is found under its name.  The tables of websites and audit
    entries are not touched. *)
Theorem upload_script_round_trip
    (body : gmap string json) (f : UploadedFile) (name displayName : string)
    (w : World) (root' : FS.node) :
  multipart body →
  body !! "name" = Some (JStr name) → name ≠ "" →
  body !! "displayName" = Some (JStr displayName) → displayName ≠ "" →
  head (List.filter (fun t => String.eqb (ScriptTemplate.name t) name)
                    (scriptTemplates w)) = None →
  FS.write_file (fs w) (scriptPathOf env (name +:+ ".zip")) (buffer f)
  = Some root' →
  ∃ t w',
    upload_script env body (Some f) w
    = (Returned {| status := 201; payload := TemplateJson t |}, w')
    ∧ ScriptTemplate.name t = name
    ∧ ScriptTemplate.displayName t = displayName
    ∧ ScriptTemplate.fileName t = name +:+ ".zip"
    ∧ ScriptTemplate.isActive t = Some true
    ∧ scriptTemplates w' = scriptTemplates w ++ [t]
    ∧ websites w' = websites w
    ∧ websiteLogs w' = websiteLogs w
    ∧ FS.read_file (fs w') (scriptPathOf env (name +:+ ".zip")) false
      = Some (buffer f)
    ∧ scriptExists env (JStr (ScriptTemplate.fileName t)) w'
      = (Returned true, w')
    ∧ getScriptTemplateByName name w' = (Returned (Some t), w').
Proof.
  intros Hform Hname Hne Hdisp Hdne Hfree Hwrite.
  destruct (upload_script_run body f name displayName w root'
              Hform Hname Hne Hdisp Hdne Hfree Hwrite)
    as (d & v & Hrun).
  cbv zeta in Hrun. eexists _, _. split; [exact Hrun |].
  world_simpl. cbn [ScriptTemplate.name ScriptTemplate.displayName
                    ScriptTemplate.fileName ScriptTemplate.isActive].
  pose proof (FSFrame.write_file_read _ _ _ _ Hwrite) as Hread.
  repeat (split; [done |]). split.
  - rewrite scriptExists_run. world_simpl.
    rewrite trailing_sep_zip. unfold FS.access.
    unfold FS.read_file in Hread.
    destruct (FS.lookup_path _ root') as [[] |]; done.
  - unfold getScriptTemplateByName, gets. world_simpl.
    rewrite List.filter_app.
    assert (List.filter
              (fun t => String.eqb (ScriptTemplate.name t) name)
              (scriptTemplates w) = []) as ->.
    { destruct (List.filter _ (scriptTemplates w)); [done | discriminate]. }
    cbn. by rewrite String.eqb_refl.
Qed.

(** X19. What was uploaded is offered.  After a successful upload under a
    name without a separator, [GET /api/scripts] lists the new template
    and marks it [fileExists]. *)
Theorem uploaded_script_is_listed
    (body : gmap string json) (f : UploadedFile) (name displayName : string)
    (w : World) (t : ScriptTemplate.t) (w' : World) :
  multipart body →
  body !! "name" = Some (JStr name) → name ≠ "" →
  body !! "displayName" = Some (JStr displayName) → displayName ≠ "" →
  no_sep name = true →
  upload_script env body (Some f) w
  = (Returned {| status := 201; payload := TemplateJson t |}, w') →
  ∃ rows w'',
    get_scripts env collation w' = (Returned (200, ScriptList rows), w'')
    ∧ In {| template := t; fileExists := true |} rows.
Proof.
  intros Hform Hname Hne Hdisp Hdne Hsep Hup.
  assert (plain_segment (name +:+ ".zip") = true) as Hplain.
  { apply zip_name_plain; [apply NameFacts.endsWith_append |].
    by rewrite NameFacts.no_sep_append, Hsep. }
  assert (join (scriptsDir env) [name +:+ ".zip"]
          = scriptsDir env ++ [name +:+ ".zip"]) as Hpath
    by (apply PathFacts.join_plain; by repeat constructor).
  destruct (head (List.filter
                    (fun t => String.eqb (ScriptTemplate.name t) name)
                    (scriptTemplates w))) as [old |] eqn:Hfree.
  { exfalso. revert Hup.
    apply truthy_string in Hne, Hdne.
    unfold upload_script, try_catch, bind.
    rewrite Hname, Hdisp, Hne, Hdne. cbn [negb orb text_field ret].
    unfold getScriptTemplateByName, gets. rewrite Hfree. discriminate. }
  destruct (FS.write_file (fs w) (join (scriptsDir env) [name +:+ ".zip"])
                          (buffer f)) as [root' |] eqn:Hwrite.
  2:{ exfalso. revert Hup.
      apply truthy_string in Hne, Hdne.
      unfold upload_script, try_catch, bind.
      rewrite Hname, Hdisp, Hne, Hdne. cbn [negb orb text_field ret].
      unfold getScriptTemplateByName, gets. rewrite Hfree.
      unfold uploadScript, try_catch, bind, fs_writeFile.
      rewrite Hwrite. discriminate. }
  destruct (upload_script_run body f name displayName w root'
              Hform Hname Hne Hdisp Hdne Hfree Hwrite)
    as (d & v & Hrun).
  cbv zeta in Hrun. rewrite Hrun in Hup. injection Hup as Ht Hw.
  destruct (get_scripts_run w') as (w'' & Hget & _).
  eexists _, w''. split; [exact Hget |].
  apply in_map_iff. exists t. split.
  - f_equal. apply existsb_eqb_In, available_In.
    rewrite <- Hw, <- Ht. world_simpl. cbn [ScriptTemplate.fileName].
    split; [apply NameFacts.endsWith_append |].
    rewrite Hpath in Hwrite.
    destruct (write_file_parent _ _ _ _ _ Hwrite) as (es & Hdir & Hs).
    exists es. by rewrite Hs.
  - apply list_elem_of_In. rewrite order_asc_Permutation.
    apply list_elem_of_In, filter_In. rewrite <- Hw. world_simpl.
    split; [| by rewrite <- Ht].
    apply in_or_app. right. left. exact Ht.
Qed.

(** X20. A second upload under a name that a template carries already is
    refused with 400 [Script with this name already exists], a Conflict,
    before anything is written: the archive of the first upload stays as
    it is. *)
Theorem upload_script_duplicate_name
    (body : gmap string json) (f : UploadedFile) (name displayName : string)
    (existing : ScriptTemplate.t) (w : World) :
  body !! "name" = Some (JStr name) → name ≠ "" →
  body !! "displayName" = Some (JStr displayName) → displayName ≠ "" →
  head (List.filter (fun t => String.eqb (ScriptTemplate.name t) name)
                    (scriptTemplates w)) = Some existing →
  upload_script env body (Some f) w
  = (Returned {| status := 400;
                 payload := Message "Script with this name already exists" |},
     w)
  ∧ condition_of
      {| status := 400;
         payload := Message "Script with this name already exists" |}
    = Some Conflict.
Proof.
  intros Hname Hne Hdisp Hdne Htaken.
  split; [| reflexivity].
  apply truthy_string in Hne, Hdne.
  unfold upload_script, try_catch, bind.
  rewrite Hname, Hdisp, Hne, Hdne. cbn [negb orb text_field ret].
  unfold getScriptTemplateByName, gets. by rewrite Htaken.
Qed.

End TemplateStore.

(* ===================================================================== *)
(** * Round trips *)
(* ===================================================================== *)

Section RoundTrips.

Variable env : Env.

Import Path.

(** X21. Once [createUserWebsiteDir] has returned, the directory it
    returned is the website directory, [websiteExists] answers [true], a
    second call returns the same path and leaves the filesystem as it is,
    and no regular file was changed. *)
Theorem createUserWebsiteDir_round_trip
    (userId subdomain : string) (w : World) (dir : path) (w' : World) :
  createUserWebsiteDir env userId subdomain w = (Returned dir, w') →
  dir = getUserWebsiteDir env userId subdomain
  ∧ db_unchanged w w'
  ∧ websiteExists env userId subdomain w' = (Returned true, w')
  ∧ (∃ w'', createUserWebsiteDir env userId subdomain w'
            = (Returned dir, w'')
            ∧ fs w'' = fs w')
  ∧ ∀ q data,
      FS.lookup_path q (fs w) = Some (FS.File data) →
      FS.lookup_path q (fs w') = Some (FS.File data).
Proof.
  unfold createUserWebsiteDir, bind, fs_mkdir.
  destruct (FS.mkdir_p (getUserWebsiteDir env userId subdomain) (fs w))
    as [made |] eqn:Hmk; [| discriminate].
  intros [= <- <-]. world_simpl.
  destruct (FSFacts.mkdir_p_lookup _ _ _ Hmk) as [es Hes].
  split; [reflexivity |]. split; [by repeat split |]. split; [| split].
  - unfold websiteExists, try_catch, bind, fs_access, FS.access.
    world_simpl. by rewrite Hes.
  - rewrite (FSFacts.mkdir_p_existing _ _ _ Hes). eauto.
  - intros q data Hq. eapply FSFrame.mkdir_p_file; eauto.
Qed.

(** X22. Whenever [change-script] answers 200, the change is on record:
    the response and a following [GET /api/websites/:id] carry the row
    with the new [currentScript], the other rows are as they were, and
    the audit log grew by one entry with action [script_changed] that
    names the old and the new script. *)
Theorem change_script_records_the_change
    (userId : string) (id : uuid) (body : gmap string json) (w : World)
    (r : Response) (w' : World) :
  change_script env userId id body w = (Returned r, w') →
  status r = 200 →
  ∃ name site l,
    body !! "scriptName" = Some (JStr name)
    ∧ head (List.filter (has_id id) (websites w)) = Some site
    ∧ payload r
      = ScriptChanged (Some (with_script id name (clock w) site))
                      (getWebsiteUrl (Website.subdomain site))
    ∧ Website.currentScript (with_script id name (clock w) site) = Some name
    ∧ get_website userId id w'
      = (Returned {| status := 200;
                     payload :=
                       WebsiteJson
                         (Some (with_script id name (clock w) site)) |}, w')
    ∧ (∀ x, In x (websites w) → Website.id x ≠ id → In x (websites w'))
    ∧ websiteLogs w' = websiteLogs w ++ [l]
    ∧ WebsiteLog.websiteId l = id
    ∧ WebsiteLog.action l = "script_changed"
    ∧ WebsiteLog.details l !! "oldScript"
      = Some (json_of_nullable (Website.currentScript site))
    ∧ WebsiteLog.details l !! "newScript" = Some (JStr name).
Proof.
  intros Hcall Hstatus.
  pose proof (change_script_run env userId id body w) as Hrun.
  destruct (truthy (body !! "scriptName")) eqn:Htruthy; cbn [negb] in Hrun.
  2:{ rewrite Hrun in Hcall. injection Hcall as <- <-. discriminate. }
  destruct (head (List.filter (has_id id) (websites w))) as [site |]
    eqn:Hsite.
  2:{ rewrite Hrun in Hcall. injection Hcall as <- <-. discriminate. }
  destruct (String.eqb (Website.userId site) userId) eqn:Howner;
    cbn [negb] in Hrun.
  2:{ rewrite Hrun in Hcall. injection Hcall as <- <-. discriminate. }
  destruct (body !! "scriptName") as [[| b | n | name | items | fields] |]
    eqn:Hbody;
    try (rewrite Hrun in Hcall; injection Hcall as <- <-; discriminate).
  destruct (FS.access (fs w) (scriptPathOf env name) (trailing_sep name))
    eqn:Haccess; cbn [negb] in Hrun.
  2:{ rewrite Hrun in Hcall. injection Hcall as <- <-. discriminate. }
  cbn zeta in Hrun.
  destruct (FS.mkdir_p _ (fs w)) as [made |] eqn:Hmk.
  2:{ destruct Hrun as (w1 & Hrun & _). rewrite Hrun in Hcall.
      injection Hcall as <- <-. discriminate. }
  destruct (Nat.eqb (sh_status _) 0) eqn:Hok.
  2:{ destruct Hrun as (w1 & Hrun & _). rewrite Hrun in Hcall.
      injection Hcall as <- <-. discriminate. }
  destruct Hrun as (before & w1 & Hrun & Hfs & Hws & Hlogs & _).
  rewrite Hrun in Hcall. injection Hcall as <- <-.
  pose proof (head_filter_In _ _ _ Hsite) as [Hin Hid].
  eexists name, site, _.
  split; [reflexivity |]. split; [reflexivity |]. split; [reflexivity |].
  split; [| split; [| split; [| split; [exact Hlogs |]]]].
  - unfold with_script. by rewrite Hid.
  - unfold get_website, try_catch, bind. rewrite getWebsite_run, Hws.
    rewrite (head_filter_with_script _ _ _ _ _ Hsite).
    destruct (with_script_identity id name (clock w) site) as (_ & -> & _).
    by rewrite Howner.
  - intros x Hx Hne. rewrite Hws. apply in_map_iff. exists x.
    split; [| exact Hx]. unfold with_script, has_id.
    apply Nat.eqb_neq in Hne. by rewrite Hne.
  - cbn [WebsiteLog.websiteId WebsiteLog.action WebsiteLog.details].
    repeat split.
Qed.

Lemma head_filter_map_option id updates t : ∀ rows rows' site,
  map_option (update_row env id updates t) rows = Some rows' →
  Forall2 (fun x y => Website.id y = Website.id x) rows rows' →
  head (List.filter (has_id id) rows) = Some site →
  ∃ site',
    head (List.filter (has_id id) rows') = Some site'
    ∧ set_columns env updates t site = Some site'.
Proof.
  induction rows as [| x rows IH]; intros rows' site Hmap Hkeys Hhead;
    [discriminate |].
  cbn [map_option] in Hmap.
  destruct (update_row env id updates t x) as [y |] eqn:Hy; [| discriminate].
  destruct (map_option _ rows) as [ys |] eqn:Hys; [| discriminate].
  injection Hmap as <-.
  inversion Hkeys as [| ? ? ? ? Hid Hrest]; subst.
  cbn [List.filter] in *. unfold has_id in *. rewrite Hid.
  destruct (Nat.eqb (Website.id x) id) eqn:Hx.
  - cbn in Hhead. injection Hhead as <-. exists y. split; [reflexivity |].
    unfold update_row, has_id in Hy. by rewrite Hx in Hy.
  - eapply IH; eauto.
Qed.

Lemma map_option_unchanged {A} (f : A → option A) : ∀ l l' x,
  map_option f l = Some l' → In x l → f x = Some x → In x l'.
Proof.
  induction l as [| a l IH]; intros l' x Hmap Hin Hx; [destruct Hin |].
  cbn [map_option] in Hmap.
  destruct (f a) as [b |] eqn:Hb; [| discriminate].
  destruct (map_option f l) as [bs |] eqn:Hbs; [| discriminate].
  injection Hmap as <-.
  destruct Hin as [-> | Hin].
  - left. congruence.
  - right. eapply IH; eauto.
Qed.

(** X23. Whenever the owner's [PATCH /api/websites/:id] answers 200, the
    row returned is the row now stored under the id, and it is the old row
    with every column set that the body names, [userId] and [subdomain]
    apart: a [name] or [description] given takes the text that the driver
    sends for the value (the string itself, for a string), a [name] not
    given is kept, [createdAt] is kept unless the body gives [null] for
    it; the id, the owner and the subdomain are those the row had, and the
    row is stamped with the time of the update.  The other rows are as
    they were, and the audit log grew by one entry with action [updated]
    whose details are the body without [userId] and [subdomain]. *)
Theorem patch_website_applies_given_columns
    (userId : string) (id : uuid) (body : gmap string json) (w : World)
    (site : Website.t) (r : Response) (w' : World) :
  head (List.filter (has_id id) (websites w)) = Some site →
  Website.userId site = userId →
  patch_website env userId id body w = (Returned r, w') →
  status r = 200 →
  ∃ site' l,
    payload r = WebsiteJson (Some site')
    ∧ head (List.filter (has_id id) (websites w')) = Some site'
    ∧ set_columns env (delete "subdomain" (delete "userId" body)) (clock w)
                  site
      = Some site'
    ∧ (∀ v, body !! "name" = Some v →
            v ≠ JNull ∧ Website.name site' = driver_text env v)
    ∧ (∀ n, body !! "name" = Some (JStr n) → Website.name site' = n)
    ∧ (body !! "name" = None → Website.name site' = Website.name site)
    ∧ (∀ d, body !! "description" = Some (JStr d) →
            Website.description site' = Some d)
    ∧ (body !! "createdAt" = None →
       Website.createdAt site' = Website.createdAt site)
    ∧ (∀ v, body !! "createdAt" = Some v →
            v = JNull ∧ Website.createdAt site' = None)
    ∧ Website.id site' = id
    ∧ Website.userId site' = Website.userId site
    ∧ Website.subdomain site' = Website.subdomain site
    ∧ Website.updatedAt site' = clock w
    ∧ (∀ x, In x (websites w) → Website.id x ≠ id → In x (websites w'))
    ∧ websiteLogs w' = websiteLogs w ++ [l]
    ∧ WebsiteLog.websiteId l = id
    ∧ WebsiteLog.action l = "updated"
    ∧ WebsiteLog.details l = delete "subdomain" (delete "userId" body).
Proof.
  intros Hsite Hown Hcall Hstatus.
  pose proof (patch_website_run env userId id body w) as Hrun.
  rewrite Hsite in Hrun. apply String.eqb_eq in Hown.
  rewrite Hown in Hrun. cbn [negb] in Hrun. cbn zeta in Hrun.
  destruct (updateWebsite env id _ w) as [[updated | e] w1] eqn:Hupdate.
  2:{ rewrite Hrun in Hcall. injection Hcall as <- <-. discriminate. }
  destruct (existsb (has_id id) (websites w1)) eqn:Hthere.
  2:{ destruct Hrun as [line Hrun]. rewrite Hrun in Hcall.
      injection Hcall as <- <-. discriminate. }
  rewrite Hrun in Hcall. injection Hcall as <- <-. world_simpl.
  destruct (updateWebsite_inv env _ _ _ _ _ Hupdate)
    as (_ & Hlogs & _ & _ & _ & _ & Hrows & Hupdated & _).
  destruct (update_rows_keys env _ _ _ _ _ Hrows) as [Hkeys | [_ Hgone]];
    [| congruence].
  destruct (head_filter_map_option _ _ _ _ _ _ Hrows Hkeys Hsite)
    as (site' & Hhead & Hset).
  rewrite (returning_kept env _ _ _ _ _ Hrows Hkeys), Hhead in Hupdated.
  pose proof (head_filter_In _ _ _ Hsite) as [_ Hid%has_id_eq].
  pose proof (head_filter_In _ _ _ Hhead) as [_ Hid'%has_id_eq].
  exists site'. eexists.
  cbn [payload WebsiteLog.websiteId WebsiteLog.action WebsiteLog.details].
  assert (∀ k, k ≠ "userId" → k ≠ "subdomain" →
               delete "subdomain" (delete "userId" body) !! k = body !! k)
    as Hk by (intros; by rewrite !lookup_delete_ne).
  assert (delete "subdomain" (delete "userId" body) !! "userId" = None)
    as Hu by (rewrite lookup_delete_ne by discriminate;
              apply lookup_delete_eq).
  assert (delete "subdomain" (delete "userId" body) !! "subdomain" = None)
    as Hs by apply lookup_delete_eq.
  destruct (set_columns_inv env _ _ _ _ Hset)
    as (_ & Huser & Hname & Hsub & Hdesc & _ & _ & Hcreated & Hstamp).
  rewrite Hu in Huser. rewrite Hs in Hsub.
  rewrite Hk in Hname, Hdesc, Hcreated by discriminate.
  cbn [set_varchar] in Huser, Hsub.
  split; [by rewrite Hupdated |]. split; [exact Hhead |].
  split; [exact Hset |].
  split.
  { intros v Hbody. rewrite Hbody in Hname.
    destruct v; cbn [set_varchar] in Hname; split; congruence. }
  split.
  { intros n Hbody. rewrite Hbody in Hname. cbn in Hname. congruence. }
  split.
  { intros Hbody. rewrite Hbody in Hname. cbn in Hname. congruence. }
  split.
  { intros d Hbody. rewrite Hbody in Hdesc. cbn in Hdesc. congruence. }
  split.
  { intros Hbody. rewrite Hbody in Hcreated. cbn in Hcreated. congruence. }
  split.
  { intros v Hbody. rewrite Hbody in Hcreated.
    destruct v; cbn in Hcreated; split; congruence. }
  split; [exact Hid' |].
  split; [congruence |]. split; [congruence |].
  split; [exact Hstamp |].
  split.
  { intros x Hx Hne. eapply map_option_unchanged; eauto.
    unfold update_row, has_id. apply Nat.eqb_neq in Hne. by rewrite Hne. }
  rewrite Hlogs. by repeat split.
Qed.

(** X24. Start-up never fails.  Whatever the disk holds, the server
    starts with empty tables and every regular file of the disk in place;
    either the three directories of the file manager are there and
    nothing was logged, or one error line was logged. *)
Theorem boot_makes_directories (disk : FS.node) :
  websites (boot env disk) = []
  ∧ websiteLogs (boot env disk) = []
  ∧ scriptTemplates (boot env disk) = []
  ∧ (∀ q data,
       FS.lookup_path q disk = Some (FS.File data) →
       FS.lookup_path q (fs (boot env disk)) = Some (FS.File data))
  ∧ ((∃ b s p,
        FS.lookup_path (baseDir env) (fs (boot env disk)) = Some (FS.Dir b)
        ∧ FS.lookup_path (scriptsDir env) (fs (boot env disk))
          = Some (FS.Dir s)
        ∧ FS.lookup_path (profilesDir env) (fs (boot env disk))
          = Some (FS.Dir p)
        ∧ console (boot env disk) = [])
     ∨ ∃ line, console (boot env disk) = [ConsoleError line]).
Proof.
  unfold boot, ensureDirectories, try_catch, bind, fs_mkdir. world_simpl.
  destruct (FS.mkdir_p (baseDir env) disk) as [d1 |] eqn:H1; world_simpl.
  2:{ cbn. repeat split; eauto.
      intros q data Hq. by apply FSFacts.mkdir_p_left_file. }
  destruct (FS.mkdir_p (scriptsDir env) d1) as [d2 |] eqn:H2; world_simpl.
  2:{ cbn. repeat split; eauto.
      intros q data Hq. apply FSFacts.mkdir_p_left_file.
      eapply FSFrame.mkdir_p_file; eauto. }
  change (join (cwd env) ["uploads"; "profiles"]) with (profilesDir env).
  destruct (FS.mkdir_p (profilesDir env) d2) as [d3 |] eqn:H3; world_simpl.
  2:{ cbn. repeat split; eauto.
      intros q data Hq. apply FSFacts.mkdir_p_left_file.
      eapply FSFrame.mkdir_p_file; [exact H2 |].
      eapply FSFrame.mkdir_p_file; eauto. }
  cbn. repeat split.
  - intros q data Hq.
    eapply FSFrame.mkdir_p_file; [exact H3 |].
    eapply FSFrame.mkdir_p_file; [exact H2 |].
    eapply FSFrame.mkdir_p_file; eauto.
  - left.
    destruct (FSFacts.mkdir_p_lookup _ _ _ H1) as [b Hb].
    destruct (FSFacts.mkdir_p_lookup _ _ _ H2) as [s Hs].
    destruct (FSFacts.mkdir_p_lookup _ _ _ H3) as [p Hp].
    destruct (FSFrame.mkdir_p_dir _ _ _ _ _ H2 Hb) as [b' Hb'].
    destruct (FSFrame.mkdir_p_dir _ _ _ _ _ H3 Hb') as [b'' Hb''].
    destruct (FSFrame.mkdir_p_dir _ _ _ _ _ H3 Hs) as [s' Hs'].
    eauto 10.
Qed.

(** X25. What was created can be read.  When [POST /api/websites],
    served without another request in between, answers 201 with a row,
    the row carries the name and the subdomain of the body and the
    caller as its owner; [GET /api/websites/:id] returns that row,
    [GET /api/websites] lists it, the website directory exists, and the
    audit log of the website holds an entry [created].  The key that the
    database draws for the row is taken to be new: no row carries it and
    no audit entry references it. *)
Theorem created_website_can_be_read
    (w : World) (userId : string) (body : gmap string json) (x : Website.t)
    (w' : World) :
  (∀ y, In y (websites w) → Website.id y ≠ uuids w) →
  (∀ l, In l (websiteLogs w) → WebsiteLog.websiteId l ≠ uuids w) →
  post_websites env userId body w
  = (Returned {| status := 201; payload := WebsiteJson (Some x) |}, w') →
  body !! "name" = Some (JStr (Website.name x))
  ∧ body !! "subdomain" = Some (JStr (Website.subdomain x))
  ∧ Website.userId x = userId
  ∧ get_website userId (Website.id x) w'
    = (Returned {| status := 200; payload := WebsiteJson (Some x) |}, w')
  ∧ (∃ rows,
       get_websites userId w'
       = (Returned {| status := 200; payload := WebsiteList rows |}, w')
       ∧ In x rows)
  ∧ websiteExists env userId (Website.subdomain x) w' = (Returned true, w')
  ∧ ∃ logs l,
      get_website_logs userId (Website.id x) w'
      = (Returned {| status := 200; payload := LogList logs |}, w')
      ∧ In l logs
      ∧ WebsiteLog.websiteId l = Website.id x
      ∧ WebsiteLog.action l = "created".
Proof.
  intros Hids Hrefs Hpost.
  pose proof (post_websites_run env userId body w) as Hrun.
  destruct (List.filter (owned_by userId) (websites w)) as [| y ys] eqn:Hown;
    [| rewrite Hrun in Hpost; discriminate].
  destruct (createWebsiteSchema_parse_cases body userId w)
    as [(v & Hv & Hu & Hname & _ & Hsub & _) | (issues & Hissues & _)].
  2:{ rewrite Hissues in Hrun. rewrite Hrun in Hpost. discriminate. }
  rewrite Hv in Hrun.
  destruct (head (List.filter (has_subdomain (InsertWebsite.subdomain v))
                              (websites w))) as [taken |].
  { rewrite Hrun in Hpost. discriminate. }
  cbn zeta in Hrun.
  destruct (FS.mkdir_p _ (fs w)) as [made |] eqn:Hmk.
  2:{ destruct Hrun as [line Hrun]. rewrite Hrun in Hpost. discriminate. }
  rewrite Hrun in Hpost. injection Hpost as <- <-.
  cbn [Website.name Website.subdomain Website.id website_row].
  assert (List.filter (has_id (uuids w)) (websites w) = []) as Hfresh.
  { apply filter_none. intros y Hy. unfold has_id. apply Nat.eqb_neq.
    by apply Hids. }
  set (x := website_row v (uuids w) (clock w)) in *.
  assert (head (List.filter (has_id (uuids w)) (websites w ++ [x])) = Some x)
    as Hhead.
  { rewrite List.filter_app, Hfresh. cbn [app List.filter].
    assert (has_id (uuids w) x = true) as -> by apply Nat.eqb_refl.
    reflexivity. }
  assert (Website.userId x = userId) as Hxu by exact Hu.
  split; [exact Hname |]. split; [exact Hsub |]. split; [exact Hxu |].
  split; [| split; [| split]].
  - unfold get_website, try_catch, bind. rewrite getWebsite_run.
    world_simpl. rewrite Hhead, Hxu, String.eqb_refl. reflexivity.
  - eexists. split; [reflexivity |].
    world_simpl. apply list_elem_of_In.
    rewrite (order_asc_Permutation created_desc).
    apply list_elem_of_In, filter_In. split.
    + apply in_or_app. right. by left.
    + unfold owned_by. rewrite Hxu. apply String.eqb_refl.
  - unfold websiteExists, try_catch, bind, fs_access, FS.access.
    world_simpl.
    destruct (FSFacts.mkdir_p_lookup _ _ _ Hmk) as [es Hes].
    change (Website.subdomain x) with (InsertWebsite.subdomain v).
    by rewrite Hes.
  - eexists _,
      {| WebsiteLog.id := S (uuids w);
         WebsiteLog.websiteId := uuids w;
         WebsiteLog.action := "created";
         WebsiteLog.details :=
           {[ "name" := JStr (InsertWebsite.name v);
              "subdomain" := JStr (InsertWebsite.subdomain v) ]};
         WebsiteLog.createdAt := S (clock w) |}.
    split; [| split; [| by split]].
    + unfold get_website_logs, try_catch, bind. rewrite getWebsite_run.
      world_simpl.
      change (Website.id x) with (uuids w).
      rewrite Hhead, Hxu, String.eqb_refl. reflexivity.
    + world_simpl. apply list_elem_of_In.
      rewrite (order_desc_Permutation WebsiteLog.createdAt).
      apply list_elem_of_In, filter_In. split.
      * apply in_or_app. right. by left.
      * apply Nat.eqb_refl.
Qed.


End RoundTrips.

(* ===================================================================== *)
(** * The create dialog against the create schema *)
(* ===================================================================== *)

Section DialogFacts.

Variable toLowerCase : string → string.
Variable trim : string → string.

Import CreateWebsiteDialog.

Lemma forallb_filter_same {A} (f : A → bool) l :
  forallb f (List.filter f l) = true.
Proof.
  induction l as [| a l IH]; [reflexivity |].
  cbn [List.filter]. destruct (f a) eqn:Ha; [| exact IH].
  cbn [forallb]. by rewrite Ha, IH.
Qed.

Lemma strip_pattern s : strip s ≠ "" → subdomain_pattern (strip s) = true.
Proof.
  intros Hne. unfold subdomain_pattern.
  apply String.eqb_neq in Hne. rewrite Hne. cbn [negb andb].
  unfold strip. rewrite list_ascii_of_string_of_list_ascii.
  apply forallb_filter_same.
Qed.

(** X27. The create dialog sends nothing that the create schema refuses.
    Whatever was typed into the three fields, when [handleSubmit] posts a
    body, the subdomain in it matches [[a-z0-9-]+], and validation on the
    server succeeds with the name, the subdomain and the description of
    the form and the session's user as owner. *)
Theorem submitted_form_passes_validation
    (typed name description : string) (body : gmap string json)
    (userId : string) (w : World) :
  trim "" = "" →
  handleSubmit trim name (onSubdomainChange toLowerCase typed) description
  = Some body →
  subdomain_pattern (onSubdomainChange toLowerCase typed) = true
  ∧ createWebsiteSchema_parse body userId w
    = (Returned
         {| InsertWebsite.userId := userId;
            InsertWebsite.name := name;
            InsertWebsite.subdomain := onSubdomainChange toLowerCase typed;
            InsertWebsite.description := Some (Some description);
            InsertWebsite.currentScript := None;
            InsertWebsite.isActive := None |}, w).
Proof.
  intros Htrim. unfold handleSubmit.
  destruct (String.eqb_spec (trim name) "") as [| Hname]; [discriminate |].
  destruct (String.eqb_spec (trim (onSubdomainChange toLowerCase typed)) "")
    as [| Hsub]; [discriminate |].
  cbn [orb]. intros [= <-].
  assert (name ≠ "") as Hn by (intros ->; by apply Hname).
  assert (onSubdomainChange toLowerCase typed ≠ "") as Hs
    by (intros Heq; rewrite Heq in Hsub; by apply Hsub).
  assert (subdomain_pattern (onSubdomainChange toLowerCase typed) = true)
    as Hpat by apply strip_pattern, Hs.
  split; [exact Hpat |].
  unfold createWebsiteSchema_parse.
  rewrite lookup_insert_eq.
  rewrite (lookup_insert_ne _ "name" "subdomain") by discriminate.
  rewrite lookup_insert_eq.
  rewrite !(lookup_insert_ne _ _ "description") by discriminate.
  rewrite lookup_singleton_eq.
  rewrite !(lookup_insert_ne _ _ "currentScript") by discriminate.
  rewrite !(lookup_insert_ne _ _ "isActive") by discriminate.
  rewrite !lookup_singleton_ne by discriminate.
  cbn [zod_string_min1 zod_optional_text zod_optional_bool].
  apply String.eqb_neq in Hn, Hs. by rewrite Hn, Hs, Hpat.
Qed.

End DialogFacts.

(* ===================================================================== *)
(** * Profile pictures *)
(* ===================================================================== *)

Section ProfilePictures.

Variable env : Env.

Import Path.

Lemma profilesDir_unfold : profilesDir env = cwd env ++ ["uploads"; "profiles"].
Proof. unfold profilesDir. apply PathFacts.join_plain. by repeat constructor. Qed.

Lemma profile_picture_name_plain userId now mimetype :
  no_sep userId = true →
  plain_segment (profile_picture_name userId now mimetype) = true.
Proof.
  intros Hu. unfold plain_segment.
  assert (no_sep (profile_picture_name userId now mimetype) = true) as ->.
  { unfold profile_picture_name.
    rewrite !NameFacts.no_sep_append, Hu, NameFacts.pretty_N_no_sep.
    cbn [andb].
    change (no_sep "profile-") with true.
    change (no_sep "-") with true. change (no_sep ".") with true.
    cbn [andb].
    pose proof (NameFacts.split_components_no_sep mimetype) as Hall.
    destruct (split mimetype) as [| a [| subtype rest]]; try reflexivity.
    inversion Hall as [| ? ? _ Hrest]; subst.
    by inversion Hrest. }
  unfold profile_picture_name.
  by repeat match goal with
            | |- context [String.eqb ?a ?b] =>
                destruct (String.eqb_spec a b) as [Heq |];
                [by apply (f_equal (String.get 0)) in Heq |]
            end.
Qed.

(** X28. A profile picture lands directly in the profiles directory.  For
    a user id without a separator, whatever the MIME type of the upload,
    the file name that the route makes up is a plain name; when
    [saveProfilePicture] returns, the path it returns is that name in
    [<cwd>/uploads/profiles], the bytes can be read back from there, the
    database is as it was and no other regular file was changed.  The
    user id given to [saveProfilePicture] plays no part. *)
Theorem profile_picture_lands_in_profiles_dir
    (userId : string) (now : N) (mimetype data : string) (w : World)
    (p : path) (w' : World) :
  no_sep userId = true →
  saveProfilePicture env userId (profile_picture_name userId now mimetype)
                     data w = (Returned p, w') →
  p = profilesDir env ++ [profile_picture_name userId now mimetype]
  ∧ p = getProfilePicturePath env (profile_picture_name userId now mimetype)
  ∧ FS.read_file (fs w') p false = Some data
  ∧ db_unchanged w w'
  ∧ (∀ q d, q ≠ p →
            FS.lookup_path q (fs w) = Some (FS.File d) →
            FS.lookup_path q (fs w') = Some (FS.File d))
  ∧ ∀ other,
      saveProfilePicture env other
        (profile_picture_name userId now mimetype) data w
      = (Returned p, w').
Proof.
  intros Hu. pose proof (profile_picture_name_plain userId now mimetype Hu)
    as Hplain.
  unfold saveProfilePicture, bind, fs_writeFile, getProfilePicturePath.
  destruct (FS.write_file (fs w) _ data) as [root' |] eqn:Hwrite;
    [| discriminate].
  intros [= <- <-]. world_simpl.
  split; [apply PathFacts.join_plain; by repeat constructor |].
  split; [reflexivity |].
  split; [eapply FSFrame.write_file_read; eauto |].
  split; [by repeat split |].
  split; [| reflexivity].
  intros q d Hne Hq. eapply FSFrame.write_file_other; eauto.
Qed.

(** X29. The file name of [GET /uploads/profiles/:filename] is not
    confined to the profiles directory: for every plain name [n], the
    parameter [../../allscripts/n] makes [getProfilePicturePath] return
    the path of the template archive [n], which lies in the template
    store and outside the profiles directory. *)
Theorem getProfilePicturePath_not_confined (n : string) :
  plain_segment n = true →
  getProfilePicturePath env ("../../allscripts/" +:+ n) = scriptPathOf env n
  ∧ inside (scriptsDir env) (scriptPathOf env n)
  ∧ ¬ inside (profilesDir env) (scriptPathOf env n).
Proof.
  intros Hn.
  assert (scriptPathOf env n = cwd env ++ ["allscripts"; n]) as Hscript.
  { unfold scriptPathOf.
    rewrite PathFacts.join_plain by (by repeat constructor).
    rewrite scriptsDir_unfold. by rewrite <- app_assoc. }
  split; [| split].
  - rewrite Hscript. unfold getProfilePicturePath, join.
    rewrite profilesDir_unfold. cbn [flat_map]. rewrite app_nil_r.
    change ("../../allscripts/" +:+ n)
      with (".." +:+ "/" +:+ ".." +:+ "/" +:+ "allscripts" +:+ "/" +:+ n).
    rewrite !NameFacts.split_segment by reflexivity.
    rewrite (PathFacts.split_no_sep n (PathFacts.plain_segment_no_sep n Hn)).
    rewrite rev_app_distr.
    cbn [rev app fold_left push_segment String.eqb Ascii.eqb Bool.eqb tail].
    rewrite (PathFacts.push_segment_plain _ _ Hn).
    cbn [rev]. rewrite rev_involutive. by rewrite <- !app_assoc.
  - rewrite Hscript, scriptsDir_unfold. exists [n].
    by rewrite <- app_assoc.
  - rewrite Hscript, profilesDir_unfold.
    intros [k Hk]. rewrite <- app_assoc in Hk.
    apply app_inv_head in Hk. discriminate.
Qed.

End ProfilePictures.

(* ===================================================================== *)
(** * The further properties at work on the small deployment *)
(* ===================================================================== *)

Lemma multipart_empty : multipart ∅.
Proof. intros k v Hk. by rewrite lookup_empty in Hk. Qed.

Lemma multipart_insert k s body :
  multipart body → multipart (<[k := JStr s]> body).
Proof.
  intros Hbody k' v.
  destruct (decide (k' = k)) as [-> | Hne].
  - rewrite lookup_insert_eq. intros [= <-]. eauto.
  - rewrite lookup_insert_ne by done. apply Hbody.
Qed.

Lemma multipart_upload_body name displayName :
  multipart (Demo.upload_body name displayName).
Proof. apply multipart_insert, multipart_insert, multipart_empty. Qed.

Lemma website_dir_of_valid_subdomain_witness :
  getUserWebsiteDir Example.env "alice" "alice-site"
  = ["srv"; "app"; "user_websites"; "alice"; "alice-site"].
Proof.
  destruct (website_dir_of_valid_subdomain Example.env "alice" "alice-site")
    as (Hdir & _).
  - vm_compute; reflexivity.
  - vm_compute; reflexivity.
  - exact Hdir.
Defined.

Lemma website_dirs_disjoint_witness :
  ¬ Path.inside (getUserWebsiteDir Example.env "alice" "alice-site")
                (getUserWebsiteDir Example.env "bob" "bob-site")
  ∧ ¬ Path.inside (getUserWebsiteDir Example.env "bob" "bob-site")
                  (getUserWebsiteDir Example.env "alice" "alice-site").
Proof.
  destruct (website_dirs_disjoint Example.env "alice" "alice-site"
                                  "bob" "bob-site") as (Hab & Hba & _).
  - vm_compute; reflexivity.
  - vm_compute; reflexivity.
  - vm_compute; reflexivity.
  - vm_compute; reflexivity.
  - discriminate.
  - split; [exact Hab | exact Hba].
Defined.



Lemma reachable_subdomains_sound_witness :
  subdomains_sound Demo.two_tenants
  ∧ getWebsiteBySubdomain "bob-site" Demo.two_tenants
    = (Returned (Some Demo.bob_site), Demo.two_tenants).
Proof.
  destruct (reachable_subdomains_sound Example.env
              (fst (serve_all Example.env (FS.Dir ∅) Demo.requests))
              Demo.two_tenants) as (Hsound & _ & _ & Hfind).
  - apply serve_all_execution.
  - split; [exact Hsound |].
    apply (Hfind Demo.bob_site). vm_compute. right. by left.
Defined.



Lemma foreign_website_access_denied_witness :
  handle Example.env DeleteWebsite (Example.request "mallory" 0 ∅)
         Example.world
  = (Returned {| status := 403; payload := Message "Access denied" |},
     Example.world).
Proof.
  destruct (foreign_website_access_denied Example.env DeleteWebsite
              (Example.request "mallory" 0 ∅) "mallory" Example.alice_site
              Example.world) as [Hcall _].
  - reflexivity.
  - vm_compute; reflexivity.
  - discriminate.
  - cbn. auto.
  - discriminate.
  - exact Hcall.
Defined.

Lemma unknown_website_not_found_witness :
  handle Example.env ChangeScript
         (Example.request "alice" 7 (Example.script_body "basic.zip"))
         Example.world
  = (Returned {| status := 404; payload := Message "Website not found" |},
     Example.world).
Proof.
  destruct (unknown_website_not_found Example.env ChangeScript
              (Example.request "alice" 7 (Example.script_body "basic.zip"))
              "alice" Example.world) as [Hcall _].
  - reflexivity.
  - vm_compute; reflexivity.
  - cbn. auto.
  - intros _. vm_compute; reflexivity.
  - exact Hcall.
Defined.

Lemma get_website_logs_lists_entries_witness :
  ∃ logs,
    get_website_logs "alice" 0 Example.world
    = (Returned {| status := 200; payload := LogList logs |}, Example.world)
    ∧ Permutation logs (entries_of 0 Example.world).
Proof.
  destruct (get_website_logs_lists_entries "alice" 0 Example.alice_site
              Example.world) as (logs & Hcall & Hperm & _).
  - vm_compute; reflexivity.
  - reflexivity.
  - exists logs. by split.
Defined.

Lemma post_websites_rejects_invalid_subdomain_witness :
  ∃ issues,
    post_websites Example.env "alice"
                  (Example.site_body "Alice Site" "Alice_Site") Example.fresh
    = (Returned {| status := 400; payload := ValidationFailed issues |},
       Example.fresh)
    ∧ In "subdomain" issues.
Proof.
  destruct (post_websites_rejects_invalid_subdomain Example.env "alice"
              (Example.site_body "Alice Site" "Alice_Site") Example.fresh)
    as (issues & Hcall & Hin & _).
  - vm_compute; reflexivity.
  - intros s Hs. vm_compute in Hs. injection Hs as <-.
    vm_compute; reflexivity.
  - exists issues. by split.
Defined.

Lemma getScriptTemplates_active_in_order_witness :
  ∃ rows,
    getScriptTemplates String.leb Example.world
    = (Returned rows, Example.world)
    ∧ Permutation rows
        (List.filter is_active (scriptTemplates Example.world)).
Proof.
  destruct (getScriptTemplates_active_in_order String.leb Example.world)
    as (rows & Hcall & Hperm & _).
  - apply String.leb_total.
  - exists rows. by split.
Defined.

Lemma get_scripts_marks_stored_archives_witness :
  ∃ rows w',
    get_scripts Example.env String.leb Example.world
    = (Returned (200, ScriptList rows), w')
    ∧ fs w' = fs Example.world.
Proof.
  destruct (get_scripts_marks_stored_archives Example.env String.leb
              Example.world) as (rows & w' & Hcall & _ & Hfs & _).
  exists rows, w'. by split.
Defined.

Lemma offered_script_is_accepted_witness :
  scriptExists Example.env (JStr "basic.zip") Example.world
  = (Returned true, Example.world).
Proof.
  destruct (offered_script_is_accepted Example.env String.leb Example.world
              [{| template := Example.basic_template; fileExists := true |}]
              Example.world
              {| template := Example.basic_template; fileExists := true |})
    as [Hexists _].
  - vm_compute; reflexivity.
  - by left.
  - reflexivity.
  - vm_compute; reflexivity.
  - exact Hexists.
Defined.

Lemma upload_script_round_trip_witness :
  ∃ t w',
    upload_script Example.env (Demo.upload_body "fancy" "Fancy")
                  (Some Demo.basic_upload) Example.world
    = (Returned {| status := 201; payload := TemplateJson t |}, w')
    ∧ FS.read_file (fs w') ["srv"; "app"; "allscripts"; "fancy.zip"] false
      = Some "PK-basic"
    ∧ getScriptTemplateByName "fancy" w' = (Returned (Some t), w').
Proof.
  destruct (upload_script_round_trip Example.env
              (Demo.upload_body "fancy" "Fancy") Demo.basic_upload
              "fancy" "Fancy" Example.world
              (default FS.empty_dir
                 (FS.write_file (fs Example.world)
                    (scriptPathOf Example.env "fancy.zip") "PK-basic")))
    as (t & w' & Hcall & _ & _ & _ & _ & _ & _ & _ & Hread & _ & Hfind).
  - apply multipart_upload_body.
  - vm_compute; reflexivity.
  - discriminate.
  - vm_compute; reflexivity.
  - discriminate.
  - vm_compute; reflexivity.
  - vm_compute; reflexivity.
  - exists t, w'. by repeat split.
Defined.

Lemma uploaded_script_is_listed_witness :
  ∃ t w' rows w'',
    upload_script Example.env (Demo.upload_body "fancy" "Fancy")
                  (Some Demo.basic_upload) Example.world
    = (Returned {| status := 201; payload := TemplateJson t |}, w')
    ∧ get_scripts Example.env String.leb w'
      = (Returned (200, ScriptList rows), w'')
    ∧ In {| template := t; fileExists := true |} rows.
Proof.
  destruct (upload_script Example.env (Demo.upload_body "fancy" "Fancy")
              (Some Demo.basic_upload) Example.world)
    as [[[code [| | | | | | t]] | e] w'] eqn:Hup;
    try (vm_compute in Hup; discriminate).
  assert (code = 201) as ->
    by (vm_compute in Hup; by injection Hup as <- _ _).
  destruct (uploaded_script_is_listed Example.env String.leb
              (Demo.upload_body "fancy" "Fancy") Demo.basic_upload
              "fancy" "Fancy" Example.world t w')
    as (rows & w'' & Hget & Hin).
  - apply multipart_upload_body.
  - vm_compute; reflexivity.
  - discriminate.
  - vm_compute; reflexivity.
  - discriminate.
  - vm_compute; reflexivity.
  - exact Hup.
  - exists t, w', rows, w''. by repeat split.
Defined.

Lemma upload_script_duplicate_name_witness :
  upload_script Example.env (Demo.upload_body "basic" "Basic again")
                (Some Demo.basic_upload) Example.world
  = (Returned {| status := 400;
                 payload := Message "Script with this name already exists" |},
     Example.world).
Proof.
  destruct (upload_script_duplicate_name Example.env
              (Demo.upload_body "basic" "Basic again") Demo.basic_upload
              "basic" "Basic again" Example.basic_template Example.world)
    as [Hcall _].
  - vm_compute; reflexivity.
  - discriminate.
  - vm_compute; reflexivity.
  - discriminate.
  - vm_compute; reflexivity.
  - exact Hcall.
Defined.

Lemma createUserWebsiteDir_round_trip_witness :
  ∃ w',
    createUserWebsiteDir Example.env "alice" "alice-site" Example.fresh
    = (Returned ["srv"; "app"; "user_websites"; "alice"; "alice-site"], w')
    ∧ websiteExists Example.env "alice" "alice-site" w' = (Returned true, w').
Proof.
  destruct (createUserWebsiteDir Example.env "alice" "alice-site"
                                 Example.fresh) as [[dir | e] w'] eqn:Hcall;
    [| vm_compute in Hcall; discriminate].
  destruct (createUserWebsiteDir_round_trip Example.env "alice" "alice-site"
              Example.fresh dir w' Hcall) as (-> & _ & Hexists & _).
  exists w'. split; [reflexivity | exact Hexists].
Defined.

Lemma change_script_records_the_change_witness :
  ∃ name site l,
    Example.script_body "basic.zip" !! "scriptName" = Some (JStr name)
    ∧ head (List.filter (has_id 0) (websites Example.world)) = Some site
    ∧ websiteLogs (snd Demo.applied) = websiteLogs Example.world ++ [l]
    ∧ WebsiteLog.action l = "script_changed"
    ∧ WebsiteLog.details l !! "newScript" = Some (JStr name).
Proof.
  destruct (change_script_records_the_change Example.env "alice" 0
              (Example.script_body "basic.zip") Example.world
              (fst Demo.applied) (snd Demo.applied))
    as (name & site & l & Hbody & Hsite & _ & _ & _ & _ & Hlogs & _
        & Haction & _ & Hnew).
  - vm_compute; reflexivity.
  - vm_compute; reflexivity.
  - exists name, site, l.
    split; [exact Hbody |]. split; [exact Hsite |].
    split; [exact Hlogs |]. split; [exact Haction | exact Hnew].
Defined.

Lemma patch_website_applies_given_columns_witness :
  ∃ site',
    payload (fst Demo.renamed) = WebsiteJson (Some site')
    ∧ Website.name site' = "5"
    ∧ Website.id site' = 0
    ∧ Website.userId site' = "alice".
Proof.
  destruct (patch_website_applies_given_columns Example.env "alice" 0
              {[ "name" := JNum 5 ]} Example.world Example.alice_site
              (fst Demo.renamed) (snd Demo.renamed))
    as (site' & l & Hpayload & _ & _ & Hname & _ & _ & _ & _ & _ & Hid
        & Howner & _).
  - vm_compute; reflexivity.
  - reflexivity.
  - vm_compute; reflexivity.
  - vm_compute; reflexivity.
  - exists site'. split; [exact Hpayload |].
    split; [| split; [exact Hid | exact Howner]].
    destruct (Hname (JNum 5)) as [_ Htext]; [vm_compute; reflexivity |].
    etrans; [exact Htext |]. vm_compute; reflexivity.
Defined.

Lemma boot_makes_directories_witness :
  FS.lookup_path ["srv"; "app"; "outside.zip"]
                 (fs (boot Example.env Example.disk))
  = Some (FS.File "PK-basic").
Proof.
  destruct (boot_makes_directories Example.env Example.disk)
    as (_ & _ & _ & Hkept & _).
  apply Hkept. vm_compute; reflexivity.
Defined.

Lemma created_website_can_be_read_witness :
  get_website "alice" 0 Example.after_create
  = (Returned {| status := 200;
                 payload := WebsiteJson (Some Example.alice_site) |},
     Example.after_create)
  ∧ ∃ rows,
      get_websites "alice" Example.after_create
      = (Returned {| status := 200; payload := WebsiteList rows |},
         Example.after_create)
      ∧ In Example.alice_site rows.
Proof.
  destruct (created_website_can_be_read Example.env
              Example.fresh "alice"
              (Example.site_body "Alice Site" "alice-site")
              Example.alice_site Example.after_create)
    as (_ & _ & _ & Hget & Hlist & _).
  - intros y Hy. vm_compute in Hy. destruct Hy.
  - intros l Hl. vm_compute in Hl. destruct Hl.
  - vm_compute; reflexivity.
  - split; [exact Hget | exact Hlist].
Defined.


Lemma submitted_form_passes_validation_witness :
  CreateWebsiteDialog.onSubdomainChange Demo.toLowerCase "My Site!" = "mysite"
  ∧ ∃ v,
      createWebsiteSchema_parse
        {[ "name" := JStr "My Site"; "subdomain" := JStr "mysite";
           "description" := JStr "" ]} "alice" Example.fresh
      = (Returned v, Example.fresh).
Proof.
  split; [vm_compute; reflexivity |].
  destruct (submitted_form_passes_validation Demo.toLowerCase Demo.trim
              "My Site!" "My Site" ""
              {[ "name" := JStr "My Site"; "subdomain" := JStr "mysite";
                 "description" := JStr "" ]} "alice" Example.fresh)
    as [_ Hparse].
  - reflexivity.
  - vm_compute; reflexivity.
  - eexists. exact Hparse.
Defined.

Lemma profile_picture_lands_in_profiles_dir_witness :
  profile_picture_name "alice" 1700000000000 "image/png"
  = "profile-alice-1700000000000.png"
  ∧ FS.read_file
      (fs (snd (saveProfilePicture Example.env "alice"
                  (profile_picture_name "alice" 1700000000000 "image/png")
                  "PNG" Example.fresh)))
      ["srv"; "app"; "uploads"; "profiles";
       "profile-alice-1700000000000.png"] false
    = Some "PNG".
Proof.
  split; [vm_compute; reflexivity |].
  destruct (profile_picture_lands_in_profiles_dir Example.env "alice"
              1700000000000 "image/png" "PNG" Example.fresh
              ["srv"; "app"; "uploads"; "profiles";
               "profile-alice-1700000000000.png"]
              (snd (saveProfilePicture Example.env "alice"
                      (profile_picture_name "alice" 1700000000000
                                            "image/png")
                      "PNG" Example.fresh)))
    as (_ & _ & Hread & _).
  - vm_compute; reflexivity.
  - vm_compute; reflexivity.
  - exact Hread.
Defined.

Lemma getProfilePicturePath_not_confined_witness :
  getProfilePicturePath Example.env ("../../allscripts/" +:+ "basic.zip")
  = scriptPathOf Example.env "basic.zip".
Proof.
  destruct (getProfilePicturePath_not_confined Example.env "basic.zip")
    as [Hpath _].
  - vm_compute; reflexivity.
  - exact Hpath.
Defined.
